(** * Adaptive-learning core: mastery, spaced repetition, prerequisites

    A shallow embedding of the backend services of the FastRevEd Kids
    platform:

    - [ErrorPatternService], [PrerequisiteService], [MasteryService]
      (services/MasteryService.ts and its collaborators),
    - [ReviewQueueRepo] (repositories/ReviewQueueRepo.ts),
    - [CompetenceFrameworkService] (services/CompetenceFrameworkService.ts),
    - two handlers of routes/competence-framework.ts
      ([CompetenceFrameworkRoutes]),
    - the CE1 and CE2 curriculum tables and their helper functions
      (data/ce1-competences-2025.ts, data/ce2-competences-2026.ts).

    Conventions of the embedding.

    - JavaScript numbers that hold percentages, qualities, weights and
      easiness factors are rationals ([Q]); counters, identifiers and
      durations are integers ([Z]).  The mean quality of a window is
      computed as JavaScript computes it, in IEEE 754 double precision
      ([JS.double] rounds an exact result to the nearest double); the
      percentages, which are quotients of two counts of at most 20, are
      computed exactly.
    - A [Date] is a number of milliseconds since the epoch.  Every
      [new Date()] evaluated while one service call runs reads the same
      instant, passed as the argument [now].  Calendar arithmetic
      ([setDate]) depends on the time zone of the host, which is a
      parameter ([Calendar]).
    - The database is a record of tables; a table is the list of its rows in
      insertion order.  Queries are list functions, writes are steps of a
      state monad over the database.  A service call as defined in the
      module of its service runs from start to end with no other call in
      between; [Async] gives [updateMastery] as the sequence of its awaited
      operations, to follow calls that overlap.
    - Only the fields of the curriculum records that the services read for
      their decisions are kept (code, prerequisites, qualitative-leap and
      novelty markers); titles and descriptions are dropped. *)

From Stdlib Require Import List String Ascii Bool ZArith QArith Qround Qminmax.
From Stdlib Require Import Lia Lqa.
From Stdlib Require Import Sorting.Permutation Sorting.Sorted Sorting.Mergesort Orders.
Import ListNotations.

Close Scope Q_scope.
Open Scope string_scope.
Open Scope Z_scope.

(* ================================================================== *)
(** ** JavaScript primitives used by the services *)
(* ================================================================== *)

Module JS.

(** How a statement list finishes: it falls through, or a [return]
    statement was executed with a value. *)
Inductive completion (R : Type) : Type :=
| Normal : completion R
| Return : R -> completion R.
Arguments Normal {R}.
Arguments Return {R} _.

(** [Array.prototype.forEach]: the callback runs on every element, in
    order, against the variables it captures (the state [S]); whatever
    the callback returns is dropped, and [forEach] itself evaluates to
    [undefined]. *)
Definition forEach {A S R : Type}
    (arr : list A) (callback : A -> S -> S * completion R) (s : S) : S :=
  fold_left (fun acc x => fst (callback x acc)) arr s.

(** [for (const x of arr) { body }] inside a function: a [return] in the
    body leaves the loop and the function. *)
Fixpoint for_of {A S R : Type}
    (arr : list A) (body : A -> S -> S * completion R) (s : S)
    : S * completion R :=
  match arr with
  | [] => (s, Normal)
  | x :: rest =>
      match body x s with
      | (s', Return v) => (s', Return v)
      | (s', Normal) => for_of rest body s'
      end
  end.

(** [Array.prototype.push] on a captured array. *)
Definition push {A : Type} (x : A) (arr : list A) : list A :=
  (arr ++ [x])%list.

(** The names that every object literal inherits from [Object.prototype]
    (V8).  For such a name [obj[key]] is defined in JavaScript whatever the
    object's own keys are. *)
Definition Object_prototype_names : list string :=
  ["constructor"; "__defineGetter__"; "__defineSetter__"; "hasOwnProperty";
   "__lookupGetter__"; "__lookupSetter__"; "isPrototypeOf";
   "propertyIsEnumerable"; "toString"; "valueOf"; "__proto__";
   "toLocaleString"].

Definition inherited (key : string) : bool :=
  existsb (String.eqb key) Object_prototype_names.

(** Property lookup [obj[key]] on an object literal with string keys, among
    the object's own keys: this is what [obj[key]] evaluates to for every
    key that is not [inherited]. *)
Fixpoint prop {V : Type} (obj : list (string * V)) (key : string) : option V :=
  match obj with
  | [] => None
  | (k, v) :: rest => if String.eqb k key then Some v else prop rest key
  end.

Definition Object_values {V : Type} (obj : list (string * V)) : list V :=
  map snd obj.
Definition Object_keys {V : Type} (obj : list (string * V)) : list string :=
  map fst obj.
Definition Object_entries {V : Type} (obj : list (string * V))
  : list (string * V) := obj.

(** Truthiness of an optional string ([undefined] and the empty string are
    falsy). *)
Definition truthy_str (s : option string) : bool :=
  match s with
  | Some EmptyString => false
  | Some _ => true
  | None => false
  end.

(** [[...new Set(arr)]]: duplicates removed, first occurrences kept in
    order. *)
Fixpoint Set_from (seen arr : list string) : list string :=
  match arr with
  | [] => []
  | x :: rest =>
      if existsb (String.eqb x) seen then Set_from seen rest
      else x :: Set_from (x :: seen) rest
  end.
Definition dedupe (arr : list string) : list string := Set_from [] arr.

(** [arr.join(sep)]. *)
Fixpoint join (sep : string) (arr : list string) : string :=
  match arr with
  | [] => ""
  | [x] => x
  | x :: rest => x ++ sep ++ join sep rest
  end.

(** [s.split(c)] for a one-character separator. *)
Fixpoint split_aux (c : ascii) (cur : string) (s : string) : list string :=
  match s with
  | EmptyString => [cur]
  | String a rest =>
      if Ascii.eqb a c then cur :: split_aux c "" rest
      else split_aux c (cur ++ String a "") rest
  end.
Definition split (c : ascii) (s : string) : list string := split_aux c "" s.

(** [s.toLowerCase()] on the ASCII letters (competence codes are ASCII). *)
Definition lower_ascii (a : ascii) : ascii :=
  let n := nat_of_ascii a in
  if andb (Nat.leb 65 n) (Nat.leb n 90) then ascii_of_nat (n + 32) else a.
Fixpoint toLowerCase (s : string) : string :=
  match s with
  | EmptyString => EmptyString
  | String a rest => String (lower_ascii a) (toLowerCase rest)
  end.

Definition startsWith (s p : string) : bool := String.prefix p s.

(** [Math.round]: the nearest integer, halves rounded up. *)
Definition Math_round (x : Q) : Z := Qfloor (x + (1 # 2))%Q.
Definition Math_min (x y : Q) : Q := Qmin x y.
Definition Math_max (x y : Q) : Q := Qmax x y.

(** [Math.round(x * 100) / 100]. *)
Definition round2 (x : Q) : Q := (inject_Z (Math_round (x * 100)) / 100)%Q.

(** *** Double-precision arithmetic

    A finite double is represented by the rational it stands for.
    [double x] is the double nearest to [x]: 53 significant bits, halves to
    the even neighbour.  The exponent range of doubles (magnitudes from
    about 1e-308 to 1e308) is not modelled.  The fraction is reduced first,
    so that the result does not depend on how [x] is written. *)

(** The integer nearest to [x], halves to the even neighbour. *)
Definition nearest_even (x : Q) : Z :=
  let f := Qfloor x in
  match Qcompare (x - inject_Z f) (1 # 2) with
  | Lt => f
  | Gt => f + 1
  | Eq => if Z.even f then f else f + 1
  end.

(** [floor(log2 |x|)], for [x] other than 0. *)
Definition floor_log2 (x : Q) : Z :=
  let n := Z.abs (Qnum x) in
  let k := Z.log2 n - Z.log2 (Zpos (Qden x)) in
  if Qle_bool (2 ^ k)%Q (n # Qden x) then k else k - 1.

Definition double (x : Q) : Q :=
  let r := Qred x in
  if Qeq_bool r 0 then 0%Q
  else
    let e := floor_log2 r - 52 in
    Qred (inject_Z (nearest_even (r / 2 ^ e)%Q) * 2 ^ e)%Q.

(** [Number(v)] for a decimal value [v], and [x + y] and [x / y] on
    doubles. *)
Definition Number (v : Q) : Q := double v.
Definition plus (x y : Q) : Q := double (x + y).
Definition divide (x y : Q) : Q := double (x / y).

(** The pairs [(index, element)] that [forEach((x, index) => ...)] hands to
    its callback. *)
Definition withIndex {A : Type} (arr : list A) : list (Z * A) :=
  combine (map Z.of_nat (seq 0 (List.length arr))) arr.

End JS.

(* ================================================================== *)
(** ** Curriculum reference data *)
(* ================================================================== *)

(** data/ce1-competences-2025.ts *)
Record CE1CompetenceData := mkCE1 {
  ce1_code : string;
  prerequis_cp : list string;
  ce1_saut_qualitatif : option string;
  ce1_nouveaute : option string
}.
Definition CE1CompetenceDomain := list (string * CE1CompetenceData).

(** data/ce2-competences-2026.ts *)
Record CompetenceData := mkCE2 {
  ce2_code : string;
  prerequis_ce1 : list string;
  ce2_saut_qualitatif : option string;
  ce2_nouveaute : option string
}.
Definition CompetenceDomain := list (string * CompetenceData).

(** [competences.francais] and [competences.mathematiques] of a framework:
    objects from sub-domain name to domain, in declaration order. *)
Record Framework (D : Type) := {
  francais : list (string * D);
  mathematiques : list (string * D)
}.
Arguments francais {D} _.
Arguments mathematiques {D} _.
Definition CE1CompetenceFramework := Framework CE1CompetenceDomain.
Definition CompetenceFramework := Framework CompetenceDomain.

(** An entry of [competenceReference] (data/cp2025-competences.ts, whose
    table is supplied by the caller of the functions below); [prerequis]
    may be absent. *)
Record CPCompetence := {
  cp_prerequis : option (list string)
}.
Definition CPReference := list (string * CPCompetence).

(** *** The CE1 table (data/ce1-competences-2025.ts) *)

Definition CE1_COMPETENCES_2025_francais_oral : CE1CompetenceDomain :=
  [
  ("CE1.FR.O1.1",
     mkCE1 "CE1.FR.O1.1" ["CP.FR.O1.1"; "CP.FR.O1.2"]
       (Some "Passage d'écoutes courtes à des écoutes longues et orientées") None);
  ("CE1.FR.O1.2",
     mkCE1 "CE1.FR.O1.2" ["CP.FR.C1.1"; "CP.FR.C1.2"]
       (Some "Passage de la compréhension de phrases à celle de textes complets") None);
  ("CE1.FR.O2.1",
     mkCE1 "CE1.FR.O2.1" ["CP.FR.O2.1"; "CP.FR.V1.1"]
       (Some "Passage d'expressions simples à des explications structurées") None);
  ("CE1.FR.O2.2",
     mkCE1 "CE1.FR.O2.2" ["CP.FR.O2.2"; "CP.FR.L3.1"]
       (Some "Passage de comptines à des textes plus longs avec expression") None)
  ].

Definition CE1_COMPETENCES_2025_francais_lecture : CE1CompetenceDomain :=
  [
  ("CE1.FR.L1.1",
     mkCE1 "CE1.FR.L1.1" ["CP.FR.L1.1"; "CP.FR.L1.2"; "CP.FR.L1.3"]
       (Some "Automatisation du décodage des syllabes complexes") None);
  ("CE1.FR.L1.2",
     mkCE1 "CE1.FR.L1.2" ["CP.FR.L1.4"; "CP.FR.L1.5"]
       (Some "Fluence 50 → 70 mots/minute") None);
  ("CE1.FR.L2.1",
     mkCE1 "CE1.FR.L2.1" ["CP.FR.C2.1"; "CP.FR.C2.2"]
       (Some "Passage de textes courts à des textes de 20 lignes") None);
  ("CE1.FR.L2.2",
     mkCE1 "CE1.FR.L2.2" ["CP.FR.C2.3"; "CP.FR.C2.4"]
       (Some "Passage d'inférences simples à des inférences complexes") None);
  ("CE1.FR.L3.1",
     mkCE1 "CE1.FR.L3.1" ["CP.FR.L1.6"; "CP.FR.V2.1"]
       None (Some "Classement alphabétique de mots"))
  ].

Definition CE1_COMPETENCES_2025_francais_ecriture : CE1CompetenceDomain :=
  [
  ("CE1.FR.E1.1",
     mkCE1 "CE1.FR.E1.1" ["CP.FR.E1.1"; "CP.FR.E1.2"]
       None (Some "Introduction des majuscules cursives"));
  ("CE1.FR.E1.2",
     mkCE1 "CE1.FR.E1.2" ["CP.FR.E1.3"; "CP.FR.E1.4"]
       (Some "Passage de phrases courtes à une dizaine de lignes") None);
  ("CE1.FR.E2.1",
     mkCE1 "CE1.FR.E2.1" ["CP.FR.E2.1"; "CP.FR.E2.2"]
       (Some "Passage de phrases simples à des textes de plusieurs phrases") None);
  ("CE1.FR.E2.2",
     mkCE1 "CE1.FR.E2.2" ["CP.FR.E2.3"; "CP.FR.G2.1"]
       None (Some "Introduction des connecteurs temporels"))
  ].

Definition CE1_COMPETENCES_2025_francais_vocabulaire : CE1CompetenceDomain :=
  [
  ("CE1.FR.V1.1",
     mkCE1 "CE1.FR.V1.1" ["CP.FR.V1.1"; "CP.FR.V1.2"]
       (Some "Extension des corolles lexicales existantes") None);
  ("CE1.FR.V1.2",
     mkCE1 "CE1.FR.V1.2" ["CP.FR.V1.3"; "CP.FR.V1.4"]
       None (Some "Introduction des synonymes, antonymes et familles de mots"));
  ("CE1.FR.V2.1",
     mkCE1 "CE1.FR.V2.1" ["CP.FR.V2.1"; "CP.FR.L1.6"]
       None (Some "Utilisation autonome du dictionnaire"));
  ("CE1.FR.V3.1",
     mkCE1 "CE1.FR.V3.1" ["CP.FR.V3.1"; "CP.FR.G3.1"]
       (Some "Extension du corpus de mots invariables") None)
  ].

Definition CE1_COMPETENCES_2025_francais_grammaire : CE1CompetenceDomain :=
  [
  ("CE1.FR.G1.1",
     mkCE1 "CE1.FR.G1.1" ["CP.FR.G1.1"; "CP.FR.G1.2"]
       (Some "Passage de l'identification de la phrase à celle du sujet et verbe") None);
  ("CE1.FR.G1.2",
     mkCE1 "CE1.FR.G1.2" ["CP.FR.G1.3"; "CP.FR.G1.4"]
       None (Some "Classification des types de phrases"));
  ("CE1.FR.G2.1",
     mkCE1 "CE1.FR.G2.1" ["CP.FR.G2.1"; "CP.FR.G2.2"]
       (Some "Passage de la compréhension à l'application des accords") None);
  ("CE1.FR.G2.2",
     mkCE1 "CE1.FR.G2.2" ["CP.FR.G2.3"; "CP.FR.G2.4"]
       (Some "Extension de la conjugaison à plus de verbes et temps") None);
  ("CE1.FR.G2.3",
     mkCE1 "CE1.FR.G2.3" ["CP.FR.G2.4"; "CP.FR.G2.5"]
       None (Some "Introduction des verbes irréguliers du 3e groupe"))
  ].

Definition CE1_COMPETENCES_2025_mathematiques_nombres : CE1CompetenceDomain :=
  [
  ("CE1.MA.N1.1",
     mkCE1 "CE1.MA.N1.1" ["CP.MA.N1.1"; "CP.MA.N1.2"]
       (Some "Nombres jusqu'à 100 → jusqu'à 1000") None);
  ("CE1.MA.N1.2",
     mkCE1 "CE1.MA.N1.2" ["CP.MA.N1.3"; "CP.MA.N1.4"]
       None (Some "Comptages par intervalles réguliers"));
  ("CE1.MA.N2.1",
     mkCE1 "CE1.MA.N2.1" ["CP.MA.N2.1"; "CP.MA.GM1.1"]
       None (Some "Introduction des fractions unitaires"));
  ("CE1.MA.N2.2",
     mkCE1 "CE1.MA.N2.2" ["CP.MA.N2.1"; "CP.MA.C1.1"]
       None (Some "Calculs avec des fractions"))
  ].

Definition CE1_COMPETENCES_2025_mathematiques_calcul : CE1CompetenceDomain :=
  [
  ("CE1.MA.C1.1",
     mkCE1 "CE1.MA.C1.1" ["CP.MA.C1.1"; "CP.MA.C1.2"]
       (Some "Automatisation des tables d'addition") None);
  ("CE1.MA.C1.2",
     mkCE1 "CE1.MA.C1.2" ["CP.MA.C1.3"; "CP.MA.C1.4"]
       None (Some "Introduction de la retenue dans la soustraction"));
  ("CE1.MA.C2.1",
     mkCE1 "CE1.MA.C2.1" ["CP.MA.C2.1"; "CP.MA.C2.2"]
       None (Some "Introduction de la multiplication et division"));
  ("CE1.MA.C3.1",
     mkCE1 "CE1.MA.C3.1" ["CP.MA.C3.1"; "CP.MA.C3.2"]
       (Some "Amélioration de la fluence en calcul mental") None)
  ].

Definition CE1_COMPETENCES_2025_mathematiques_problemes : CE1CompetenceDomain :=
  [
  ("CE1.MA.P1.1",
     mkCE1 "CE1.MA.P1.1" ["CP.MA.P1.1"; "CP.MA.P1.2"]
       (Some "Augmentation du volume de problèmes résolus") None);
  ("CE1.MA.P1.2",
     mkCE1 "CE1.MA.P1.2" ["CP.MA.P1.3"; "CP.MA.P1.4"]
       (Some "Passage de représentations simples à des modélisations") None);
  ("CE1.MA.P2.1",
     mkCE1 "CE1.MA.P2.1" ["CP.MA.P2.1"; "CP.MA.C2.1"]
       None (Some "Introduction des problèmes multiplicatifs et de partage"))
  ].

Definition CE1_COMPETENCES_2025_mathematiques_grandeurs_mesures : CE1CompetenceDomain :=
  [
  ("CE1.MA.GM1.1",
     mkCE1 "CE1.MA.GM1.1" ["CP.MA.GM1.1"; "CP.MA.GM1.2"]
       None (Some "Introduction des unités de mesure standardisées"));
  ("CE1.MA.GM1.2",
     mkCE1 "CE1.MA.GM1.2" ["CP.MA.GM1.3"; "CP.MA.GM1.4"]
       None (Some "Introduction des unités de masse"));
  ("CE1.MA.GM2.1",
     mkCE1 "CE1.MA.GM2.1" ["CP.MA.GM2.1"; "CP.MA.N2.1"]
       None (Some "Lecture de l'heure sur horloge analogique"));
  ("CE1.MA.GM3.1",
     mkCE1 "CE1.MA.GM3.1" ["CP.MA.GM3.1"; "CP.MA.GM3.2"]
       None (Some "Introduction de l'écriture décimale"))
  ].

Definition CE1_COMPETENCES_2025_mathematiques_espace_geometrie : CE1CompetenceDomain :=
  [
  ("CE1.MA.EG1.1",
     mkCE1 "CE1.MA.EG1.1" ["CP.MA.EG1.1"; "CP.MA.EG1.2"]
       (Some "Passage de formes générales à des figures géométriques précises") None);
  ("CE1.MA.EG1.2",
     mkCE1 "CE1.MA.EG1.2" ["CP.MA.EG1.3"; "CP.MA.EG1.4"]
       None (Some "Introduction de la notion d'angle droit"));
  ("CE1.MA.EG2.1",
     mkCE1 "CE1.MA.EG2.1" ["CP.MA.EG2.1"; "CP.MA.EG2.2"]
       None (Some "Introduction des solides géométriques"));
  ("CE1.MA.EG3.1",
     mkCE1 "CE1.MA.EG3.1" ["CP.MA.EG3.1"; "CP.MA.EG3.2"]
       (Some "Passage du repérage à la reproduction de figures") None)
  ].

Definition CE1_COMPETENCES_2025_mathematiques_organisation_donnees : CE1CompetenceDomain :=
  [
  ("CE1.MA.OGD1.1",
     mkCE1 "CE1.MA.OGD1.1" ["CP.MA.OGD1.1"; "CP.MA.OGD1.2"]
       (Some "Passage de la construction à l'interprétation de graphiques") None);
  ("CE1.MA.OGD1.2",
     mkCE1 "CE1.MA.OGD1.2" ["CP.MA.OGD1.3"; "CP.MA.OGD1.4"]
       (Some "Passage de diagrammes simples à des diagrammes en barres") None);
  ("CE1.MA.OGD2.1",
     mkCE1 "CE1.MA.OGD2.1" ["CP.MA.OGD2.1"; "CP.MA.N1.2"]
       (Some "Passage de la découverte à l'utilisation des droites graduées") None)
  ].

Definition CE1_COMPETENCES_2025 : CE1CompetenceFramework :=
  {| francais :=
    [("oral", CE1_COMPETENCES_2025_francais_oral);
     ("lecture", CE1_COMPETENCES_2025_francais_lecture);
     ("ecriture", CE1_COMPETENCES_2025_francais_ecriture);
     ("vocabulaire", CE1_COMPETENCES_2025_francais_vocabulaire);
     ("grammaire", CE1_COMPETENCES_2025_francais_grammaire)];
     mathematiques :=
    [("nombres", CE1_COMPETENCES_2025_mathematiques_nombres);
     ("calcul", CE1_COMPETENCES_2025_mathematiques_calcul);
     ("problemes", CE1_COMPETENCES_2025_mathematiques_problemes);
     ("grandeurs_mesures", CE1_COMPETENCES_2025_mathematiques_grandeurs_mesures);
     ("espace_geometrie", CE1_COMPETENCES_2025_mathematiques_espace_geometrie);
     ("organisation_donnees", CE1_COMPETENCES_2025_mathematiques_organisation_donnees)] |}.
(** *** The CE2 table (data/ce2-competences-2026.ts) *)

Definition CE2_COMPETENCES_2026_francais_oral : CompetenceDomain :=
  [
  ("CE2.FR.O.1.1",
     mkCE2 "CE2.FR.O.1.1" ["CE1.FR.O1.1"; "CE1.FR.O1.2"]
       (Some "Passage de la compréhension linéaire aux inférences complexes") None);
  ("CE2.FR.O.2.1",
     mkCE2 "CE2.FR.O.2.1" ["CE1.FR.O2.1"; "CE1.FR.O2.2"]
       (Some "Structuration avancée du discours oral") None);
  ("CE2.FR.O.3.1",
     mkCE2 "CE2.FR.O.3.1" ["CE1.FR.O2.1"]
       None (Some "Introduction de nouveaux types d'échanges (interviews, débats)"))
  ].

Definition CE2_COMPETENCES_2026_francais_lecture : CompetenceDomain :=
  [
  ("CE2.FR.L.1.1",
     mkCE2 "CE2.FR.L.1.1" ["CE1.FR.L1.2"]
       (Some "Passage de 70 à 90 mots/minute") None);
  ("CE2.FR.L.1.2",
     mkCE2 "CE2.FR.L.1.2" ["CE1.FR.L1.1"]
       (Some "Automatisation totale libérant les ressources cognitives pour la compréhension") None);
  ("CE2.FR.L.2.1",
     mkCE2 "CE2.FR.L.2.1" ["CE1.FR.L2.1"; "CE1.FR.L2.2"]
       (Some "Analyse fine de textes complexes incluant de nouveaux genres") (Some "Introduction des pièces de théâtre"))
  ].

Definition CE2_COMPETENCES_2026_francais_ecriture : CompetenceDomain :=
  [
  ("CE2.FR.E.1.1",
     mkCE2 "CE2.FR.E.1.1" ["CE1.FR.E1.1"; "CE1.FR.E1.2"]
       (Some "Perfectionnement de l'endurance et rapidité d'écriture") None);
  ("CE2.FR.E.2.1",
     mkCE2 "CE2.FR.E.2.1" ["CE1.FR.E2.1"; "CE1.FR.E2.2"]
       (Some "Passage à l'autonomie créative structurée avec méthodologie complète") None)
  ].

Definition CE2_COMPETENCES_2026_francais_vocabulaire : CompetenceDomain :=
  [
  ("CE2.FR.V.1.1",
     mkCE2 "CE2.FR.V.1.1" ["CE1.FR.V1.1"]
       None None);
  ("CE2.FR.V.2.1",
     mkCE2 "CE2.FR.V.2.1" ["CE1.FR.V1.2"]
       (Some "Analyse morphologique des mots pour comprendre leur formation") None);
  ("CE2.FR.V.3.1",
     mkCE2 "CE2.FR.V.3.1" ["CE1.FR.V2.1"]
       None (Some "Introduction sens propre/figuré et polysémie"))
  ].

Definition CE2_COMPETENCES_2026_francais_grammaire : CompetenceDomain :=
  [
  ("CE2.FR.G.1.1",
     mkCE2 "CE2.FR.G.1.1" ["CE1.FR.G1.1"]
       None (Some "Introduction des adverbes"));
  ("CE2.FR.G.2.1",
     mkCE2 "CE2.FR.G.2.1" ["CE1.FR.G1.1"; "CE1.FR.G1.2"]
       (Some "Passage de l'identification à l'analyse syntaxique") None);
  ("CE2.FR.G.3.1",
     mkCE2 "CE2.FR.G.3.1" ["CE1.FR.G2.1"; "CE1.FR.G2.2"]
       (Some "Automatisation et complexification des chaînes d'accords") None)
  ].

Definition CE2_COMPETENCES_2026_francais_orthographe : CompetenceDomain :=
  [
  ("CE2.FR.O.1.1",
     mkCE2 "CE2.FR.O.1.1" ["CE1.FR.G2.2"; "CE1.FR.G2.3"]
       None (Some "Passé composé y compris verbes 3e groupe"));
  ("CE2.FR.O.2.1",
     mkCE2 "CE2.FR.O.2.1" ["CE1.FR.V3.1"]
       (Some "Utilisation de stratégies morphologiques") None)
  ].

Definition CE2_COMPETENCES_2026_mathematiques_nombres : CompetenceDomain :=
  [
  ("CE2.MA.N.1.1",
     mkCE2 "CE2.MA.N.1.1" ["CE1.MA.N1.1"]
       (Some "Gestion des nombres à 4 chiffres et positionnement des milliers") None);
  ("CE2.MA.N.2.1",
     mkCE2 "CE2.MA.N.2.1" ["CE1.MA.GM3.1"]
       (Some "Première introduction systématique de l'écriture à virgule") None);
  ("CE2.MA.N.3.1",
     mkCE2 "CE2.MA.N.3.1" ["CE1.MA.N2.1"]
       (Some "Passage du partage d'objets à la mesure de longueurs") None);
  ("CE2.MA.N.4.1",
     mkCE2 "CE2.MA.N.4.1" ["CE1.MA.N2.2"]
       (Some "Passage à l'opératoire sur les fractions") None)
  ].

Definition CE2_COMPETENCES_2026_mathematiques_calcul : CompetenceDomain :=
  [
  ("CE2.MA.C.1.1",
     mkCE2 "CE2.MA.C.1.1" ["CE1.MA.C1.1"]
       (Some "Automatisation complète avec contrainte temporelle") None);
  ("CE2.MA.C.2.1",
     mkCE2 "CE2.MA.C.2.1" ["CE1.MA.C1.2"; "CE1.MA.C2.1"]
       (Some "Introduction multiplication posée et division comme opération inverse") (Some "Algorithme de multiplication posée"))
  ].

Definition CE2_COMPETENCES_2026_mathematiques_problemes : CompetenceDomain :=
  [
  ("CE2.MA.P.1.1",
     mkCE2 "CE2.MA.P.1.1" ["CE1.MA.P1.1"; "CE1.MA.P1.2"]
       (Some "Reconnaissance de types et transfert de stratégies") None);
  ("CE2.MA.P.2.1",
     mkCE2 "CE2.MA.P.2.1" ["CE1.MA.P2.1"]
       (Some "Élargissement à tous les types de problèmes des deux champs") None)
  ].

Definition CE2_COMPETENCES_2026_mathematiques_grandeurs_mesures : CompetenceDomain :=
  [
  ("CE2.MA.GM.1.1",
     mkCE2 "CE2.MA.GM.1.1" ["CE1.MA.GM1.1"]
       (Some "Conversions complexes et fractions d'unités") (Some "Introduction du millimètre"));
  ("CE2.MA.GM.2.1",
     mkCE2 "CE2.MA.GM.2.1" ["CE1.MA.GM1.2"]
       None (Some "Introduction de la tonne"));
  ("CE2.MA.GM.3.1",
     mkCE2 "CE2.MA.GM.3.1" ["CE1.MA.GM3.1"]
       (Some "Passage de la manipulation séparée à l'écriture décimale unifiée") None)
  ].

Definition CE2_COMPETENCES_2026_mathematiques_espace_geometrie : CompetenceDomain :=
  [
  ("CE2.MA.EG.1.1",
     mkCE2 "CE2.MA.EG.1.1" ["CE1.MA.EG1.1"]
       None (Some "Le losange comme nouvelle figure"));
  ("CE2.MA.EG.2.1",
     mkCE2 "CE2.MA.EG.2.1" ["CE1.MA.EG1.2"]
       (Some "Diversification et classification des angles") None);
  ("CE2.MA.EG.3.1",
     mkCE2 "CE2.MA.EG.3.1" []
       (Some "Concept géométrique entièrement nouveau") (Some "Suppression de la symétrie en CE1 dans les programmes 2025"));
  ("CE2.MA.EG.4.1",
     mkCE2 "CE2.MA.EG.4.1" ["CE1.MA.EG3.1"]
       (Some "Passage de la reproduction au calcul de mesures") None)
  ].

Definition CE2_COMPETENCES_2026_mathematiques_organisation_donnees : CompetenceDomain :=
  [
  ("CE2.MA.OGD.1.1",
     mkCE2 "CE2.MA.OGD.1.1" ["CE1.MA.OGD1.1"; "CE1.MA.OGD1.2"]
       (Some "Passage de la lecture à l'exploitation pour résoudre") None);
  ("CE2.MA.OGD.2.1",
     mkCE2 "CE2.MA.OGD.2.1" ["CE1.MA.OGD2.1"]
       (Some "Passage de l'utilisation à la construction autonome") None)
  ].

Definition CE2_COMPETENCES_2026 : CompetenceFramework :=
  {| francais :=
    [("oral", CE2_COMPETENCES_2026_francais_oral);
     ("lecture", CE2_COMPETENCES_2026_francais_lecture);
     ("ecriture", CE2_COMPETENCES_2026_francais_ecriture);
     ("vocabulaire", CE2_COMPETENCES_2026_francais_vocabulaire);
     ("grammaire", CE2_COMPETENCES_2026_francais_grammaire);
     ("orthographe", CE2_COMPETENCES_2026_francais_orthographe)];
     mathematiques :=
    [("nombres", CE2_COMPETENCES_2026_mathematiques_nombres);
     ("calcul", CE2_COMPETENCES_2026_mathematiques_calcul);
     ("problemes", CE2_COMPETENCES_2026_mathematiques_problemes);
     ("grandeurs_mesures", CE2_COMPETENCES_2026_mathematiques_grandeurs_mesures);
     ("espace_geometrie", CE2_COMPETENCES_2026_mathematiques_espace_geometrie);
     ("organisation_donnees", CE2_COMPETENCES_2026_mathematiques_organisation_donnees)] |}.

(** *** Helper functions of data/ce1-competences-2025.ts *)

Module CE1Competences2025.
Import JS.

Section WithFramework.
Variable CE1_COMPETENCES : CE1CompetenceFramework.

Definition getAllCE1CompetenceCodes : list string :=
  let codes : list string := [] in
  let codes :=
    forEach (R := unit) (Object_values (francais CE1_COMPETENCES))
      (fun domain codes =>
         (forEach (R := unit) (Object_keys domain)
            (fun code codes => (push code codes, Normal)) codes, Normal))
      codes in
  let codes :=
    forEach (R := unit) (Object_values (mathematiques CE1_COMPETENCES))
      (fun domain codes =>
         (forEach (R := unit) (Object_keys domain)
            (fun code codes => (push code codes, Normal)) codes, Normal))
      codes in
  codes.

(** The two scans pass arrow functions to [forEach]; the [return]
    inside an arrow function ends that callback only. *)
Definition getCE1CompetenceByCode (code : string)
  : option CE1CompetenceData :=
  let _ :=
    forEach (Object_values (francais CE1_COMPETENCES))
      (fun domain (s : unit) =>
         match prop domain code with
         | Some c => (s, Return (Some c))
         | None => (s, Normal)
         end) tt in
  let _ :=
    forEach (Object_values (mathematiques CE1_COMPETENCES))
      (fun domain (s : unit) =>
         match prop domain code with
         | Some c => (s, Return (Some c))
         | None => (s, Normal)
         end) tt in
  None.

Definition getCE1PrerequisitesForCompetence (code : string) : list string :=
  match getCE1CompetenceByCode code with
  | Some competence => prerequis_cp competence
  | None => []
  end.

Definition hasCE1MajorQualitativeLeap (code : string) : bool :=
  match getCE1CompetenceByCode code with
  | Some competence => truthy_str (ce1_saut_qualitatif competence)
  | None => false
  end.

Definition getCE1CompetencesWithMajorLeaps : list CE1CompetenceData :=
  let scan (subject : list (string * CE1CompetenceDomain)) leaps :=
    forEach (R := unit) (Object_values subject)
      (fun domain leaps =>
         (forEach (R := unit) (Object_values domain)
            (fun competence leaps =>
               if truthy_str (ce1_saut_qualitatif competence)
               then (push competence leaps, Normal)
               else (leaps, Normal)) leaps, Normal))
      leaps in
  scan (mathematiques CE1_COMPETENCES) (scan (francais CE1_COMPETENCES) []).

Definition getCE1CompetencesByDomain (domain : string)
  : list CE1CompetenceData :=
  let competences : list CE1CompetenceData := [] in
  let scan (subject : list (string * CE1CompetenceDomain)) competences :=
    forEach (R := unit) (Object_values subject)
      (fun subDomain competences =>
         (forEach (R := unit) (Object_values subDomain)
            (fun competence competences =>
               (push competence competences, Normal)) competences, Normal))
      competences in
  if String.eqb domain "francais"
  then scan (francais CE1_COMPETENCES) competences
  else if String.eqb domain "mathematiques"
  then scan (mathematiques CE1_COMPETENCES) competences
  else competences.

End WithFramework.
End CE1Competences2025.

(** *** Helper functions of data/ce2-competences-2026.ts *)

Module CE2Competences2026.
Import JS.

(** A prerequisite relationship as generated for the seed (no key yet). *)
Record CompetencePrerequisite := {
  competenceCode : string;
  prerequisiteCode : string;
  weight : Q;
  description : string
}.

Section WithFramework.
Variable CE2_COMPETENCES : CompetenceFramework.

(** [{...francais, ...mathematiques}]: the sub-domain names of the two
    subjects are distinct, so the spread is their concatenation. *)
Definition getCompetenceByCode (code : string) : option CompetenceData :=
  let allDomains :=
    (francais CE2_COMPETENCES ++ mathematiques CE2_COMPETENCES)%list in
  match
    for_of (Object_values allDomains)
      (fun domain (s : unit) =>
         match prop domain code with
         | Some c => (s, Return (Some c))
         | None => (s, Normal)
         end) tt
  with
  | (_, Return r) => r
  | (_, Normal) => None
  end.

Definition getPrerequisitesForCompetence (code : string) : list string :=
  match getCompetenceByCode code with
  | Some competence => prerequis_ce1 competence
  | None => []
  end.

Definition hasMajorQualitativeLeap (code : string) : bool :=
  match getCompetenceByCode code with
  | Some competence =>
      truthy_str (ce2_saut_qualitatif competence)
      || truthy_str (ce2_nouveaute competence)
  | None => false
  end.

Definition getCompetencesWithMajorLeaps : list CompetenceData :=
  let scan (subject : list (string * CompetenceDomain)) leaps :=
    forEach (R := unit) (Object_values subject)
      (fun domain leaps =>
         (forEach (R := unit) (Object_values domain)
            (fun competence leaps =>
               if hasMajorQualitativeLeap (ce2_code competence)
               then (push competence leaps, Normal)
               else (leaps, Normal)) leaps, Normal))
      leaps in
  scan (mathematiques CE2_COMPETENCES) (scan (francais CE2_COMPETENCES) []).

Definition getAllCompetenceCodes : list string :=
  let scan (subject : list (string * CompetenceDomain)) codes :=
    forEach (R := unit) (Object_values subject)
      (fun domain codes =>
         (forEach (R := unit) (Object_values domain)
            (fun competence codes =>
               (push (ce2_code competence) codes, Normal)) codes, Normal))
      codes in
  scan (mathematiques CE2_COMPETENCES) (scan (francais CE2_COMPETENCES) []).

(** The inner helper of [generatePrerequisites]. *)
Definition addPrerequisites (code : string) (prerequisCodes : list string)
    (prerequisites : list CompetencePrerequisite)
  : list CompetencePrerequisite :=
  forEach (R := unit) (withIndex prerequisCodes)
    (fun '(index, prereqCode) prerequisites =>
       (push {| competenceCode := code;
                prerequisiteCode := prereqCode;
                weight := (1 - inject_Z index * 0.1)%Q;
                description := "Prérequis CE1 pour " ++ code |}
          prerequisites, Normal))
    prerequisites.

Definition generatePrerequisites : list CompetencePrerequisite :=
  let scan (subject : list (string * CompetenceDomain)) prerequisites :=
    forEach (R := unit) (Object_values subject)
      (fun domain prerequisites =>
         (forEach (R := unit) (Object_values domain)
            (fun competence prerequisites =>
               (if (0 <? Z.of_nat (List.length (prerequis_ce1 competence)))%Z
                then addPrerequisites (ce2_code competence)
                       (prerequis_ce1 competence) prerequisites
                else prerequisites, Normal))
            prerequisites, Normal))
      prerequisites in
  scan (mathematiques CE2_COMPETENCES) (scan (francais CE2_COMPETENCES) []).

End WithFramework.
End CE2Competences2026.


(* ================================================================== *)
(** ** The database *)
(* ================================================================== *)

Definition Date := Z.
Definition DAY_MS : Z := 86400000.

(** [n] days of 24 hours after [d]. *)
Definition addDays (d : Date) (n : Z) : Date := d + n * DAY_MS.

(** [d.setDate(d.getDate() + n)]: the instant with the same wall-clock time
    [n] days later on the calendar of the host's time zone.  Across a clock
    change a calendar day is not 24 hours long, so the result depends on
    the zone: the zone's calendar is a parameter of the functions that call
    [setDate]. *)
Definition Calendar := Date -> Z -> Date.

(** The calendar of a zone without clock changes, such as UTC. *)
Definition utc : Calendar := addDays.

Inductive MasteryLevel := not_started | in_progress | mastered.

Definition MasteryLevel_eqb (a b : MasteryLevel) : bool :=
  match a, b with
  | not_started, not_started | in_progress, in_progress
  | mastered, mastered => true
  | _, _ => false
  end.

Module ExerciseOutcome.
Record row := mk {
  id : Z;
  studentId : Z;
  exerciseId : Z;
  competenceCode : string;
  isCorrect : bool;
  hintsUsed : Z;
  timeSpentSec : Z;
  quality : Q;
  errorTags : list string;
  attemptedAt : Date
}.
End ExerciseOutcome.

Module ErrorPattern.
Record row := mk {
  id : Z;
  studentId : Z;
  competenceCode : string;
  tag : string;
  occurrences : Z;
  lastSeenAt : Date
}.
End ErrorPattern.

Module StudentProgress.
Record row := mk {
  id : Z;
  studentId : Z;
  exerciseId : Z;
  competenceCode : string;
  progressPercent : Q;
  masteryLevel : MasteryLevel;
  totalAttempts : Z;
  successfulAttempts : Z;
  averageScore : Q;
  totalTimeSpent : Z;
  lastAttemptAt : option Date;
  masteredAt : option Date;
  needsReview : bool;
  createdAt : Date;
  updatedAt : Date
}.
End StudentProgress.

Module SpacedRepetitionCard.
Record row := mk {
  id : Z;
  studentId : Z;
  competenceCode : string;
  easinessFactor : Q;
  repetitionNumber : Z;
  intervalDays : Z;
  lastReviewAt : Date;
  nextReviewAt : Date;
  lastQuality : Q;
  createdAt : Date;
  updatedAt : Date
}.
End SpacedRepetitionCard.

Module CompetencePrerequisite.
Record row := mk {
  id : Z;
  competenceCode : string;
  prerequisiteCode : string;
  weight : Q;
  description : string
}.
End CompetencePrerequisite.

Record Db := mkDb {
  exerciseOutcomes : list ExerciseOutcome.row;
  errorPatterns : list ErrorPattern.row;
  studentProgress : list StudentProgress.row;
  spacedRepetitionCards : list SpacedRepetitionCard.row;
  competencePrerequisites : list CompetencePrerequisite.row
}.

Definition emptyDb : Db := mkDb [] [] [] [] [].

(** *** Query and write primitives *)

(** Auto-increment primary key: one more than every key in the table. *)
Definition nextId (ids : list Z) : Z := 1 + fold_right Z.max 0 ids.

(** [ORDER BY]: a stable insertion sort; [le a b] says that [a] may stay
    before [b]. *)
Fixpoint insert_sorted {A : Type} (le : A -> A -> bool) (x : A) (l : list A)
  : list A :=
  match l with
  | [] => [x]
  | y :: rest => if le x y then x :: y :: rest else y :: insert_sorted le x rest
  end.

Definition orderBy {A : Type} (le : A -> A -> bool) (l : list A) : list A :=
  fold_right (insert_sorted le) [] l.

(** [Array.prototype.sort(compare)]: stable; [a] stays before [b] when
    [compare(a, b) <= 0]. *)
Definition Array_sort {A : Type} (compare : A -> A -> Z) (l : list A) : list A :=
  orderBy (fun a b => compare a b <=? 0) l.

Definition limit {A : Type} (n : nat) (l : list A) : list A := firstn n l.

(** [UPDATE ... SET ... WHERE cond]. *)
Definition update_where {A : Type} (cond : A -> bool) (set : A -> A)
    (table : list A) : list A :=
  map (fun r => if cond r then set r else r) table.

(** Steps over the database. *)
Definition DbM (A : Type) : Type := Db -> A * Db.

Definition ret {A : Type} (a : A) : DbM A := fun db => (a, db).

Definition bind {A B : Type} (m : DbM A) (k : A -> DbM B) : DbM B :=
  fun db => let r := m db in k (fst r) (snd r).

Definition select {A : Type} (q : Db -> A) : DbM A := fun db => (q db, db).

Notation "x <- m ;; k" := (bind m (fun x => k))
  (at level 61, m at next level, right associativity).
Notation "m ;;; k" := (bind m (fun _ => k))
  (at level 61, right associativity).

Fixpoint forM_ {A : Type} (l : list A) (body : A -> DbM unit) : DbM unit :=
  match l with
  | [] => ret tt
  | x :: rest => body x ;;; forM_ rest body
  end.

Definition exec {A : Type} (m : DbM A) (db : Db) : Db := snd (m db).
Definition eval {A : Type} (m : DbM A) (db : Db) : A := fst (m db).

Definition insert_exerciseOutcome (mkrow : Z -> ExerciseOutcome.row)
  : DbM ExerciseOutcome.row :=
  fun db =>
    let r := mkrow (nextId (map ExerciseOutcome.id (exerciseOutcomes db))) in
    (r, mkDb (exerciseOutcomes db ++ [r])%list (errorPatterns db)
          (studentProgress db) (spacedRepetitionCards db)
          (competencePrerequisites db)).

Definition insert_errorPattern (mkrow : Z -> ErrorPattern.row) : DbM unit :=
  fun db =>
    let r := mkrow (nextId (map ErrorPattern.id (errorPatterns db))) in
    (tt, mkDb (exerciseOutcomes db) (errorPatterns db ++ [r])%list
           (studentProgress db) (spacedRepetitionCards db)
           (competencePrerequisites db)).

Definition update_errorPatterns (cond : ErrorPattern.row -> bool)
    (set : ErrorPattern.row -> ErrorPattern.row) : DbM unit :=
  fun db =>
    (tt, mkDb (exerciseOutcomes db) (update_where cond set (errorPatterns db))
           (studentProgress db) (spacedRepetitionCards db)
           (competencePrerequisites db)).

Definition insert_studentProgress (mkrow : Z -> StudentProgress.row)
  : DbM unit :=
  fun db =>
    let r := mkrow (nextId (map StudentProgress.id (studentProgress db))) in
    (tt, mkDb (exerciseOutcomes db) (errorPatterns db)
           (studentProgress db ++ [r])%list (spacedRepetitionCards db)
           (competencePrerequisites db)).

Definition update_studentProgress (cond : StudentProgress.row -> bool)
    (set : StudentProgress.row -> StudentProgress.row) : DbM unit :=
  fun db =>
    (tt, mkDb (exerciseOutcomes db) (errorPatterns db)
           (update_where cond set (studentProgress db))
           (spacedRepetitionCards db) (competencePrerequisites db)).

Definition insert_spacedRepetitionCard (mkrow : Z -> SpacedRepetitionCard.row)
  : DbM SpacedRepetitionCard.row :=
  fun db =>
    let r :=
      mkrow (nextId (map SpacedRepetitionCard.id (spacedRepetitionCards db))) in
    (r, mkDb (exerciseOutcomes db) (errorPatterns db) (studentProgress db)
          (spacedRepetitionCards db ++ [r])%list (competencePrerequisites db)).

Definition update_spacedRepetitionCards (cond : SpacedRepetitionCard.row -> bool)
    (set : SpacedRepetitionCard.row -> SpacedRepetitionCard.row) : DbM unit :=
  fun db =>
    (tt, mkDb (exerciseOutcomes db) (errorPatterns db) (studentProgress db)
           (update_where cond set (spacedRepetitionCards db))
           (competencePrerequisites db)).

(** The argument object of [recordOutcome] and [updateMastery]. *)
Record OutcomeInput := {
  studentId : Z;
  exerciseId : Z;
  competenceCode : string;
  isCorrect : bool;
  hintsUsed : Z;
  timeSpentSec : Z;
  quality : Q;
  errorTags : list string
}.

(** Rows of one learner-skill pair. *)
Definition outcomesOf (s : Z) (c : string) (db : Db) : list ExerciseOutcome.row :=
  filter (fun o => (ExerciseOutcome.studentId o =? s)
                   && String.eqb (ExerciseOutcome.competenceCode o) c)
    (exerciseOutcomes db).

Definition progressOf (s : Z) (c : string) (db : Db) : list StudentProgress.row :=
  filter (fun p => (StudentProgress.studentId p =? s)
                   && String.eqb (StudentProgress.competenceCode p) c)
    (studentProgress db).

Definition cardsOf (s : Z) (c : string) (db : Db)
  : list SpacedRepetitionCard.row :=
  filter (fun k => (SpacedRepetitionCard.studentId k =? s)
                   && String.eqb (SpacedRepetitionCard.competenceCode k) c)
    (spacedRepetitionCards db).

(** [ORDER BY attemptedAt DESC]. *)
Definition newestFirst (l : list ExerciseOutcome.row) : list ExerciseOutcome.row :=
  orderBy (fun a b => ExerciseOutcome.attemptedAt b <=? ExerciseOutcome.attemptedAt a) l.

(** [x || d] on numbers: [d] when [x] is zero. *)
Definition or_else (x d : Z) : Z := if x =? 0 then d else x.

Definition Qgeb (x y : Q) : bool := Qle_bool y x.
Definition Qltb (x y : Q) : bool := negb (Qle_bool y x).

(* ================================================================== *)
(** ** services/ErrorPatternService.ts *)
(* ================================================================== *)

Module ErrorPatternService.

(** The inserted row takes its [attemptedAt] from the column default, the
    time of insertion. *)
Definition recordOutcome (now : Date) (a : OutcomeInput)
  : DbM ExerciseOutcome.row :=
  outcome <- insert_exerciseOutcome (fun id =>
    ExerciseOutcome.mk id (studentId a) (exerciseId a) (competenceCode a)
      (isCorrect a) (hintsUsed a) (timeSpentSec a) (quality a) (errorTags a)
      now) ;;
  (if (0 <? Z.of_nat (List.length (errorTags a))) then
     forM_ (errorTags a) (fun tag =>
       existing <- select (fun db =>
         limit 1 (filter (fun e =>
           (ErrorPattern.studentId e =? studentId a)
           && String.eqb (ErrorPattern.competenceCode e) (competenceCode a)
           && String.eqb (ErrorPattern.tag e) tag) (errorPatterns db))) ;;
       match existing with
       | e0 :: _ =>
           update_errorPatterns
             (fun e => ErrorPattern.id e =? ErrorPattern.id e0)
             (fun e => ErrorPattern.mk (ErrorPattern.id e)
                         (ErrorPattern.studentId e)
                         (ErrorPattern.competenceCode e) (ErrorPattern.tag e)
                         (or_else (ErrorPattern.occurrences e0) 0 + 1) now)
       | [] =>
           insert_errorPattern (fun id =>
             ErrorPattern.mk id (studentId a) (competenceCode a) tag 1 now)
       end)
   else ret tt) ;;;
  ret outcome.

Definition getTopErrorPatterns (student : Z) (lim : nat) (db : Db)
  : list ErrorPattern.row :=
  limit lim
    (orderBy (fun a b => ErrorPattern.occurrences b <=? ErrorPattern.occurrences a)
       (filter (fun e => ErrorPattern.studentId e =? student) (errorPatterns db))).

Record RemedialPractice := {
  action : string;
  reason : string;
  practiceCode : string
}.

(** The third field is [competenceCode] in the source. *)
Definition suggestRemediation (student : Z) (db : Db) : list RemedialPractice :=
  let patterns := getTopErrorPatterns student 5 db in
  map (fun p =>
         {| action := "Remedial practice";
            reason := "Frequent error: " ++ ErrorPattern.tag p;
            practiceCode := ErrorPattern.competenceCode p |}) patterns.

End ErrorPatternService.

(* ================================================================== *)
(** ** repositories/ReviewQueueRepo.ts *)
(* ================================================================== *)

Module ReviewQueueRepo.

Definition getDueCards (now : Date) (student : Z) (lim : nat) (db : Db)
  : list SpacedRepetitionCard.row :=
  limit lim
    (orderBy (fun a b => SpacedRepetitionCard.nextReviewAt a
                         <=? SpacedRepetitionCard.nextReviewAt b)
       (filter (fun k => (SpacedRepetitionCard.studentId k =? student)
                         && (SpacedRepetitionCard.nextReviewAt k <? now))
          (spacedRepetitionCards db))).

Definition updateCardSchedule (now : Date) (cardId : Z)
    (nextReviewAt : Date) (intervalDays repetitionNumber : Z)
    (easinessFactor lastQuality : Q) : DbM unit :=
  update_spacedRepetitionCards
    (fun k => SpacedRepetitionCard.id k =? cardId)
    (fun k => SpacedRepetitionCard.mk (SpacedRepetitionCard.id k)
                (SpacedRepetitionCard.studentId k)
                (SpacedRepetitionCard.competenceCode k)
                easinessFactor repetitionNumber intervalDays
                now nextReviewAt lastQuality
                (SpacedRepetitionCard.createdAt k) now).

Definition createCard (setDate_plus : Calendar) (now : Date) (student : Z)
    (code : string) : DbM SpacedRepetitionCard.row :=
  let tomorrow := setDate_plus now 1 in
  insert_spacedRepetitionCard (fun id =>
    SpacedRepetitionCard.mk id student code (2.5)%Q 0 1 now tomorrow 0%Q now now).

End ReviewQueueRepo.

(* ================================================================== *)
(** ** services/supermemo.service.ts *)
(* ================================================================== *)

Module SuperMemoService.

(** Modelled from the spec: the result of
    [SuperMemoService.calculateNextReview], of which [updateMastery] reads
    [nextReviewDate], [interval], [repetitionNumber] and [easinessFactor]
    (services/supermemo.service.ts is imported by MasteryService.ts but its
    text is not among the sources). *)
Record SuperMemoResult := {
  nextReviewDate : Date;
  interval : Z;
  repetitionNumber : Z;
  easinessFactor : Q
}.

(** Modelled from the spec: the easiness-factor rule of section 4.3,
    [newEF = EF + (0.1 - (5 - quality) * (0.08 + (5 - quality) * 0.02))],
    clamped to a floor of 1.3; the function that computes it,
    [SuperMemoService.calculateNextReview], is missing. *)
Definition newEasinessFactor (EF q : Q) : Q :=
  (Qmax (1.3) (EF + (0.1 - (5 - q) * (0.08 + (5 - q) * 0.02))))%Q.

(** Modelled from the spec: [SuperMemoService.calculateNextReview], missing
    from the sources.  Section 4.3: a quality below 3 is a lapse
    (repetition 0, interval 1 day); otherwise the repetition number grows
    by one and the interval is 1 day at repetition 1, 6 days at repetition
    2 and [round(previous interval * new EF)] after that; the next review
    is [interval] days from now. *)
Definition calculateNextReview (now : Date) (card : SpacedRepetitionCard.row)
    (q : Q) : SuperMemoResult :=
  let newEF := newEasinessFactor (SpacedRepetitionCard.easinessFactor card) q in
  let rep :=
    if Qltb q 3 then 0 else SpacedRepetitionCard.repetitionNumber card + 1 in
  let ivl :=
    if Qltb q 3 then 1
    else if rep =? 1 then 1
    else if rep =? 2 then 6
    else JS.Math_round
           (inject_Z (SpacedRepetitionCard.intervalDays card) * newEF)%Q in
  {| nextReviewDate := addDays now ivl;
     interval := ivl;
     repetitionNumber := rep;
     easinessFactor := newEF |}.

End SuperMemoService.

(* ================================================================== *)
(** ** services/PrerequisiteService.ts *)
(* ================================================================== *)

Module PrerequisiteService.

Record Remediation := {
  action : string;
  prerequisiteCode : string;
  weight : Q;
  reason : string
}.

(** [ORDER BY weight DESC]. *)
Definition getPrerequisites (code : string) (db : Db)
  : list CompetencePrerequisite.row :=
  orderBy (fun a b => Qle_bool (CompetencePrerequisite.weight b)
                        (CompetencePrerequisite.weight a))
    (filter (fun p => String.eqb (CompetencePrerequisite.competenceCode p) code)
       (competencePrerequisites db)).

Definition isBlocked (student : Z) (code : string) (db : Db) : bool :=
  let outcomes := limit 5 (newestFirst (outcomesOf student code db)) in
  let fails :=
    Z.of_nat (List.length (filter (fun o => negb (ExerciseOutcome.isCorrect o))
                        outcomes)) in
  3 <=? fails.

Definition getRemediation (student : Z) (code : string) (db : Db)
  : option (list Remediation) :=
  let blocked := isBlocked student code db in
  if negb blocked then None
  else
    let prereqs := getPrerequisites code db in
    Some (map (fun p =>
      {| action := "Review prerequisite";
         prerequisiteCode := CompetencePrerequisite.prerequisiteCode p;
         weight := CompetencePrerequisite.weight p;
         reason := "Student blocked on " ++ code ++ ", needs "
                   ++ CompetencePrerequisite.prerequisiteCode p |}) prereqs).

End PrerequisiteService.

(* ================================================================== *)
(** ** services/MasteryService.ts *)
(* ================================================================== *)

Module MasteryService.

Record MasterySnapshot := {
  percent : Q;
  level : MasteryLevel;
  averageQuality : Q;
  needsReview : bool
}.

(** The [difficulty] field copied from the scheduler's result is not
    described anywhere and is left out. *)
Record SpacedRepetitionInfo := {
  nextReview : Date;
  intervalDays : Z;
  repetitionNumber : Z
}.

Record UpdateResult := {
  mastery : MasterySnapshot;
  spacedRepetition : SpacedRepetitionInfo;
  status : string;
  remediation : option (list PrerequisiteService.Remediation)
}.

(** The aggregates computed from the window of outcomes (lines 51-67). *)
Definition totalAttemptsOf (outcomes : list ExerciseOutcome.row) : Z :=
  or_else (Z.of_nat (List.length outcomes)) 1.

Definition successfulAttemptsOf (outcomes : list ExerciseOutcome.row) : Z :=
  Z.of_nat (List.length (filter ExerciseOutcome.isCorrect outcomes)).

Definition averageQualityOf (outcomes : list ExerciseOutcome.row) : Q :=
  JS.divide
    (fold_left (fun sum o => JS.plus sum (JS.Number (ExerciseOutcome.quality o)))
       outcomes 0%Q)
    (inject_Z (totalAttemptsOf outcomes)).

Definition totalTimeSpentOf (outcomes : list ExerciseOutcome.row) : Z :=
  fold_left (fun sum o => sum + or_else (ExerciseOutcome.timeSpentSec o) 0)
    outcomes 0.

Definition masteryPercentOf (outcomes : list ExerciseOutcome.row) (hints : Z)
  : Q :=
  let masteryPercent :=
    (inject_Z (successfulAttemptsOf outcomes)
     / inject_Z (totalAttemptsOf outcomes) * 100)%Q in
  let masteryPercent :=
    (masteryPercent - JS.Math_min 10 (inject_Z hints * 2))%Q in
  JS.Math_max 0 (JS.Math_min 100 masteryPercent).

Definition masteryLevelOf (masteryPercent averageQuality : Q) : MasteryLevel :=
  if Qgeb masteryPercent 90 && Qgeb averageQuality 3 then mastered
  else if Qgeb masteryPercent 50 then in_progress
  else not_started.

Definition needsReviewOf (masteryPercent averageQuality : Q) : bool :=
  Qltb masteryPercent 80 || Qltb averageQuality (2.5).

Section WithScheduler.

Variable setDate_plus : Calendar.
Variable calculateNextReview :
  Date -> SpacedRepetitionCard.row -> Q -> SuperMemoService.SuperMemoResult.

Definition updateMastery (now : Date) (a : OutcomeInput) : DbM UpdateResult :=
  ErrorPatternService.recordOutcome now a ;;;
  outcomes <- select (fun db =>
    limit 20 (newestFirst (outcomesOf (studentId a) (competenceCode a) db))) ;;
  let totalAttempts := totalAttemptsOf outcomes in
  let successfulAttempts := successfulAttemptsOf outcomes in
  let averageQuality := averageQualityOf outcomes in
  let totalTimeSpent := totalTimeSpentOf outcomes in
  let masteryPercent := masteryPercentOf outcomes (hintsUsed a) in
  let masteryLevel := masteryLevelOf masteryPercent averageQuality in
  let needsReview := needsReviewOf masteryPercent averageQuality in
  let averageScore :=
    JS.round2 (inject_Z successfulAttempts / inject_Z totalAttempts * 100)%Q in
  existing <- select (progressOf (studentId a) (competenceCode a)) ;;
  match existing with
  | prev :: _ =>
      update_studentProgress
        (fun p => StudentProgress.id p =? StudentProgress.id prev)
        (fun p =>
           StudentProgress.mk (StudentProgress.id p)
             (StudentProgress.studentId p) (exerciseId a)
             (StudentProgress.competenceCode p)
             masteryPercent masteryLevel totalAttempts successfulAttempts
             averageScore totalTimeSpent (Some now)
             (if MasteryLevel_eqb masteryLevel mastered
              then match StudentProgress.masteredAt prev with
                   | Some t => Some t
                   | None => Some now
                   end
              else StudentProgress.masteredAt prev)
             needsReview (StudentProgress.createdAt p) now)
  | [] =>
      insert_studentProgress (fun id =>
        StudentProgress.mk id (studentId a) (exerciseId a) (competenceCode a)
          masteryPercent masteryLevel totalAttempts successfulAttempts
          averageScore totalTimeSpent (Some now)
          (if MasteryLevel_eqb masteryLevel mastered then Some now else None)
          needsReview now now)
  end ;;;
  cards <- select (cardsOf (studentId a) (competenceCode a)) ;;
  card <- match cards with
          | card :: _ => ret card
          | [] => ReviewQueueRepo.createCard setDate_plus now (studentId a)
                    (competenceCode a)
          end ;;
  let smResult := calculateNextReview now card (quality a) in
  ReviewQueueRepo.updateCardSchedule now (SpacedRepetitionCard.id card)
    (SuperMemoService.nextReviewDate smResult)
    (SuperMemoService.interval smResult)
    (SuperMemoService.repetitionNumber smResult)
    (SuperMemoService.easinessFactor smResult)
    (quality a) ;;;
  blocked <- select
    (PrerequisiteService.isBlocked (studentId a) (competenceCode a)) ;;
  remediation <-
    (if blocked : bool
     then select (PrerequisiteService.getRemediation (studentId a)
                    (competenceCode a))
     else ret None) ;;
  ret {| mastery :=
           {| percent := JS.round2 masteryPercent;
              level := masteryLevel;
              averageQuality := JS.round2 averageQuality;
              needsReview := needsReview |};
         spacedRepetition :=
           {| nextReview := SuperMemoService.nextReviewDate smResult;
              intervalDays := SuperMemoService.interval smResult;
              repetitionNumber := SuperMemoService.repetitionNumber smResult |};
         status := if blocked then "blocked" else "progressing";
         remediation := remediation |}.

End WithScheduler.
End MasteryService.

(* ================================================================== *)
(** ** Calls that overlap *)
(* ================================================================== *)

(** The service functions are [async].  A call runs up to its next
    [await], the database performs the awaited operation, and the call
    resumes with the result; operations of other calls may take place
    between two operations of one call.  A [Task] is a call in that form, a
    sequence of awaited database operations.  [run] executes a task without
    interruption: the [DbM] definitions above are the service functions run
    that way.  [overlap] executes two tasks whose operations alternate as a
    schedule says. *)
Module Async.

Inductive Task (A : Type) : Type :=
| Done : A -> Task A
| Await : forall X : Type, DbM X -> (X -> Task A) -> Task A.
Arguments Done {A} _.
Arguments Await {A X} _ _.

Definition await {X : Type} (operation : DbM X) : Task X :=
  Await operation Done.

Fixpoint then_ {A B : Type} (t : Task A) (k : A -> Task B) : Task B :=
  match t with
  | Done a => k a
  | Await operation resume => Await operation (fun x => then_ (resume x) k)
  end.

Notation "x <~ t ;; k" := (then_ t (fun x => k))
  (at level 61, t at next level, right associativity).
Notation "t ;;~ k" := (then_ t (fun _ => k))
  (at level 61, right associativity).

(** [for (const x of l) { await ... }]. *)
Fixpoint for_each {A : Type} (l : list A) (body : A -> Task unit) : Task unit :=
  match l with
  | [] => Done tt
  | x :: rest => body x ;;~ for_each rest body
  end.

Fixpoint run {A : Type} (t : Task A) : DbM A :=
  match t with
  | Done a => ret a
  | Await operation resume => x <- operation ;; run (resume x)
  end.

(** The next awaited operation of a task takes place. *)
Definition advance {A : Type} (t : Task A) (db : Db) : Task A * Db :=
  match t with
  | Done a => (Done a, db)
  | Await operation resume =>
      let r := operation db in (resume (fst r), snd r)
  end.

(** Two calls in flight: at each entry of the schedule the next operation
    of the first ([true]) or of the second ([false]) call takes place; when
    the schedule is used up the first call runs to its end, then the
    second. *)
Fixpoint overlap {A B : Type} (schedule : list bool) (t1 : Task A)
    (t2 : Task B) (db : Db) : Db :=
  match schedule with
  | [] => exec (run t2) (exec (run t1) db)
  | true :: rest =>
      let r := advance t1 db in overlap rest (fst r) t2 (snd r)
  | false :: rest =>
      let r := advance t2 db in overlap rest t1 (fst r) (snd r)
  end.

(** [ErrorPatternService.recordOutcome], await by await. *)
Definition recordOutcome (now : Date) (a : OutcomeInput)
  : Task ExerciseOutcome.row :=
  outcome <~ await (insert_exerciseOutcome (fun id =>
    ExerciseOutcome.mk id (studentId a) (exerciseId a) (competenceCode a)
      (isCorrect a) (hintsUsed a) (timeSpentSec a) (quality a) (errorTags a)
      now)) ;;
  (if (0 <? Z.of_nat (List.length (errorTags a))) then
     for_each (errorTags a) (fun tag =>
       existing <~ await (select (fun db =>
         limit 1 (filter (fun e =>
           (ErrorPattern.studentId e =? studentId a)
           && String.eqb (ErrorPattern.competenceCode e) (competenceCode a)
           && String.eqb (ErrorPattern.tag e) tag) (errorPatterns db)))) ;;
       match existing with
       | e0 :: _ =>
           await (update_errorPatterns
             (fun e => ErrorPattern.id e =? ErrorPattern.id e0)
             (fun e => ErrorPattern.mk (ErrorPattern.id e)
                         (ErrorPattern.studentId e)
                         (ErrorPattern.competenceCode e) (ErrorPattern.tag e)
                         (or_else (ErrorPattern.occurrences e0) 0 + 1) now))
       | [] =>
           await (insert_errorPattern (fun id =>
             ErrorPattern.mk id (studentId a) (competenceCode a) tag 1 now))
       end)
   else Done tt) ;;~
  Done outcome.

(** [PrerequisiteService.getRemediation]: the check and the query are two
    awaited reads. *)
Definition getRemediation (student : Z) (code : string)
  : Task (option (list PrerequisiteService.Remediation)) :=
  blocked <~ await (select (PrerequisiteService.isBlocked student code)) ;;
  if negb blocked then Done None
  else
    prereqs <~ await (select (PrerequisiteService.getPrerequisites code)) ;;
    Done (Some (map (fun p =>
      {| PrerequisiteService.action := "Review prerequisite";
         PrerequisiteService.prerequisiteCode :=
           CompetencePrerequisite.prerequisiteCode p;
         PrerequisiteService.weight := CompetencePrerequisite.weight p;
         PrerequisiteService.reason :=
           "Student blocked on " ++ code ++ ", needs "
           ++ CompetencePrerequisite.prerequisiteCode p |}) prereqs)).

Section WithScheduler.

Variable setDate_plus : Calendar.
Variable calculateNextReview :
  Date -> SpacedRepetitionCard.row -> Q -> SuperMemoService.SuperMemoResult.

(** [MasteryService.updateMastery], await by await. *)
Definition updateMastery (now : Date) (a : OutcomeInput)
  : Task MasteryService.UpdateResult :=
  recordOutcome now a ;;~
  outcomes <~ await (select (fun db =>
    limit 20 (newestFirst (outcomesOf (studentId a) (competenceCode a) db)))) ;;
  let totalAttempts := MasteryService.totalAttemptsOf outcomes in
  let successfulAttempts := MasteryService.successfulAttemptsOf outcomes in
  let averageQuality := MasteryService.averageQualityOf outcomes in
  let totalTimeSpent := MasteryService.totalTimeSpentOf outcomes in
  let masteryPercent :=
    MasteryService.masteryPercentOf outcomes (hintsUsed a) in
  let masteryLevel :=
    MasteryService.masteryLevelOf masteryPercent averageQuality in
  let needsReview :=
    MasteryService.needsReviewOf masteryPercent averageQuality in
  let averageScore :=
    JS.round2 (inject_Z successfulAttempts / inject_Z totalAttempts * 100)%Q in
  existing <~ await (select (progressOf (studentId a) (competenceCode a))) ;;
  match existing with
  | prev :: _ =>
      await (update_studentProgress
        (fun p => StudentProgress.id p =? StudentProgress.id prev)
        (fun p =>
           StudentProgress.mk (StudentProgress.id p)
             (StudentProgress.studentId p) (exerciseId a)
             (StudentProgress.competenceCode p)
             masteryPercent masteryLevel totalAttempts successfulAttempts
             averageScore totalTimeSpent (Some now)
             (if MasteryLevel_eqb masteryLevel mastered
              then match StudentProgress.masteredAt prev with
                   | Some t => Some t
                   | None => Some now
                   end
              else StudentProgress.masteredAt prev)
             needsReview (StudentProgress.createdAt p) now))
  | [] =>
      await (insert_studentProgress (fun id =>
        StudentProgress.mk id (studentId a) (exerciseId a) (competenceCode a)
          masteryPercent masteryLevel totalAttempts successfulAttempts
          averageScore totalTimeSpent (Some now)
          (if MasteryLevel_eqb masteryLevel mastered then Some now else None)
          needsReview now now))
  end ;;~
  cards <~ await (select (cardsOf (studentId a) (competenceCode a))) ;;
  card <~ match cards with
          | card :: _ => Done card
          | [] => await (ReviewQueueRepo.createCard setDate_plus now
                           (studentId a) (competenceCode a))
          end ;;
  let smResult := calculateNextReview now card (quality a) in
  await (ReviewQueueRepo.updateCardSchedule now (SpacedRepetitionCard.id card)
           (SuperMemoService.nextReviewDate smResult)
           (SuperMemoService.interval smResult)
           (SuperMemoService.repetitionNumber smResult)
           (SuperMemoService.easinessFactor smResult)
           (quality a)) ;;~
  blocked <~ await (select
    (PrerequisiteService.isBlocked (studentId a) (competenceCode a))) ;;
  remediation <~
    (if blocked : bool
     then getRemediation (studentId a) (competenceCode a)
     else Done None) ;;
  Done {| MasteryService.mastery :=
            {| MasteryService.percent := JS.round2 masteryPercent;
               MasteryService.level := masteryLevel;
               MasteryService.averageQuality := JS.round2 averageQuality;
               MasteryService.needsReview := needsReview |};
          MasteryService.spacedRepetition :=
            {| MasteryService.nextReview :=
                 SuperMemoService.nextReviewDate smResult;
               MasteryService.intervalDays :=
                 SuperMemoService.interval smResult;
               MasteryService.repetitionNumber :=
                 SuperMemoService.repetitionNumber smResult |};
          MasteryService.status := if blocked then "blocked" else "progressing";
          MasteryService.remediation := remediation |}.

End WithScheduler.
End Async.

(* ================================================================== *)
(** ** services/CompetenceFrameworkService.ts *)
(* ================================================================== *)

Module CompetenceFrameworkService.
Import JS.

Inductive Niveau := CP | CE1 | CE2.

Record UnifiedCompetenceData := {
  code : string;
  niveau : Niveau;
  domaine : string;
  sousDomaine : string;
  prerequis : list string;
  saut_qualitatif : option string;
  nouveaute : option string
}.

Inductive Priority := high | medium | low.
Inductive RecommendationType := review | new | remediation | prerequisite.

Record Recommendation := {
  priority : Priority;
  competenceCode : string;
  reason : string;
  type : RecommendationType
}.

(** The object returned by [isBlocked]; its first field is [isBlocked] in
    the source. *)
Record Blocked := {
  isBlocked_ : bool;
  blockingPrerequisites : list string;
  missingPrerequisites : list string
}.

Definition getDomainFromCode (code : string) : string :=
  if startsWith code "CP.FR." then "francais"
  else if startsWith code "CP.MA." then "mathematiques"
  else if startsWith code "CE1.FR." then "francais"
  else if startsWith code "CE1.MA." then "mathematiques"
  else if startsWith code "CE2.FR." then "francais"
  else if startsWith code "CE2.MA." then "mathematiques"
  else "unknown".

Definition getSubDomainFromCode (code : string) : string :=
  let parts := split "."%char code in
  if (3 <=? Z.of_nat (List.length parts)) then toLowerCase (nth 2 parts "")
  else "unknown".

Definition priorityOrder (p : Priority) : Z :=
  match p with high => 3 | medium => 2 | low => 1 end.

Section WithCurriculum.

Variable cpCompetences : CPReference.
Variable ce1Competences : CE1CompetenceFramework.
Variable ce2Competences : CompetenceFramework.

Definition unifiedCP (code : string) (data : CPCompetence)
  : UnifiedCompetenceData :=
  {| code := code;
     niveau := CP;
     domaine := getDomainFromCode code;
     sousDomaine := getSubDomainFromCode code;
     prerequis := match cp_prerequis data with Some l => l | None => [] end;
     saut_qualitatif := None;
     nouveaute := None |}.

Definition getCompetencesByLevel (niv : Niveau) : list UnifiedCompetenceData :=
  let competences : list UnifiedCompetenceData := [] in
  match niv with
  | CP =>
      forEach (R := unit) (Object_entries cpCompetences)
        (fun '(code, data) competences =>
           (push (unifiedCP code data) competences, Normal))
        competences
  | CE1 =>
      let scan (subject : string) (domains : list (string * CE1CompetenceDomain))
               competences :=
        forEach (R := unit) (Object_entries domains)
          (fun '(domainKey, domain) competences =>
             (forEach (R := unit) (Object_values domain)
                (fun competence competences =>
                   (push {| code := ce1_code competence;
                            niveau := CE1;
                            domaine := subject;
                            sousDomaine := domainKey;
                            prerequis := prerequis_cp competence;
                            saut_qualitatif := ce1_saut_qualitatif competence;
                            nouveaute := ce1_nouveaute competence |}
                      competences, Normal))
                competences, Normal))
          competences in
      scan "mathematiques" (mathematiques ce1Competences)
        (scan "francais" (francais ce1Competences) competences)
  | CE2 =>
      let scan (subject : string) (domains : list (string * CompetenceDomain))
               competences :=
        forEach (R := unit) (Object_entries domains)
          (fun '(domainKey, domain) competences =>
             (forEach (R := unit) (Object_values domain)
                (fun competence competences =>
                   (push {| code := ce2_code competence;
                            niveau := CE2;
                            domaine := subject;
                            sousDomaine := domainKey;
                            prerequis := prerequis_ce1 competence;
                            saut_qualitatif := ce2_saut_qualitatif competence;
                            nouveaute := ce2_nouveaute competence |}
                      competences, Normal))
                competences, Normal))
          competences in
      scan "mathematiques" (mathematiques ce2Competences)
        (scan "francais" (francais ce2Competences) competences)
  end.

Definition getCompetenceByCode (code : string) : option UnifiedCompetenceData :=
  match prop cpCompetences code with
  | Some data => Some (unifiedCP code data)
  | None =>
      match CE1Competences2025.getCE1CompetenceByCode ce1Competences code with
      | Some ce1Competence =>
          Some {| code := ce1_code ce1Competence;
                  niveau := CE1;
                  domaine := getDomainFromCode code;
                  sousDomaine := getSubDomainFromCode code;
                  prerequis := prerequis_cp ce1Competence;
                  saut_qualitatif := ce1_saut_qualitatif ce1Competence;
                  nouveaute := ce1_nouveaute ce1Competence |}
      | None =>
          match CE2Competences2026.getCompetenceByCode ce2Competences code with
          | Some ce2Competence =>
              Some {| code := ce2_code ce2Competence;
                      niveau := CE2;
                      domaine := getDomainFromCode code;
                      sousDomaine := getSubDomainFromCode code;
                      prerequis := prerequis_ce1 ce2Competence;
                      saut_qualitatif := ce2_saut_qualitatif ce2Competence;
                      nouveaute := ce2_nouveaute ce2Competence |}
          | None => None
          end
      end
  end.

Definition getPrerequisites (competenceCode : string) (db : Db) : list string :=
  let dbPrerequisites :=
    filter (fun p => String.eqb (CompetencePrerequisite.competenceCode p)
                       competenceCode)
      (competencePrerequisites db) in
  let dbPrereqCodes := map CompetencePrerequisite.prerequisiteCode dbPrerequisites in
  let frameworkPrereqs :=
    match getCompetenceByCode competenceCode with
    | Some competence => prerequis competence
    | None => []
    end in
  dedupe (dbPrereqCodes ++ frameworkPrereqs)%list.

(** Whether the [if] of the loop in [isBlocked] fires for a prerequisite. *)
Definition notMastered (student : Z) (prereqCode : string) (db : Db) : bool :=
  let prereqProgress := progressOf student prereqCode db in
  (Z.of_nat (List.length prereqProgress) =? 0)
  || match prereqProgress with
     | p :: _ => negb (MasteryLevel_eqb (StudentProgress.masteryLevel p) mastered)
     | [] => true
     end.

Definition isBlocked (student : Z) (competenceCode : string) (db : Db)
  : Blocked :=
  let prerequisites := getPrerequisites competenceCode db in
  let '(blocking, missing) :=
    fst (for_of (R := unit) prerequisites
           (fun prereqCode '(blocking, missing) =>
              if notMastered student prereqCode db
              then ((push prereqCode blocking, push prereqCode missing), Normal)
              else ((blocking, missing), Normal))
           ([], [])) in
  {| isBlocked_ := 0 <? Z.of_nat (List.length blocking);
     blockingPrerequisites := blocking;
     missingPrerequisites := missing |}.

(** [new Map(pairs).get(key)]: a later pair replaces an earlier one with the
    same key. *)
Definition Map_get {V : Type} (pairs : list (string * V)) (key : string)
  : option V := prop (rev pairs) key.

Definition getRecommendations (student : Z) (niv : Niveau) (db : Db)
  : list Recommendation :=
  let recommendations : list Recommendation := [] in
  let competences := getCompetencesByLevel niv in
  let studentProgress :=
    filter (fun p => StudentProgress.studentId p =? student)
      (studentProgress db) in
  let progressMap :=
    map (fun p => (StudentProgress.competenceCode p, p)) studentProgress in
  let recommendations :=
    fst (for_of (R := unit) studentProgress
           (fun progress recommendations =>
              if StudentProgress.needsReview progress
              then (push {| priority := high;
                            competenceCode := StudentProgress.competenceCode progress;
                            reason := "Besoin de révision - performance faible";
                            type := review |} recommendations, Normal)
              else (recommendations, Normal))
           recommendations) in
  let recommendations :=
    fst (for_of (R := unit) competences
           (fun competence recommendations =>
              match Map_get progressMap (code competence) with
              | Some _ => (recommendations, Normal)
              | None =>
                  let blocked := isBlocked student (code competence) db in
                  if negb (isBlocked_ blocked)
                  then (push {| priority := medium;
                                competenceCode := code competence;
                                reason := "Nouvelle compétence disponible";
                                type := new |} recommendations, Normal)
                  else (push {| priority := low;
                                competenceCode := code competence;
                                reason := "Prérequis manquants: "
                                          ++ join ", " (missingPrerequisites blocked);
                                type := prerequisite |} recommendations, Normal)
              end)
           recommendations) in
  let leaps : list string :=
    match niv with
    | CE1 => map ce1_code
               (CE1Competences2025.getCE1CompetencesWithMajorLeaps ce1Competences)
    | CE2 => map ce2_code
               (CE2Competences2026.getCompetencesWithMajorLeaps ce2Competences)
    | CP => []
    end in
  let recommendations :=
    fst (for_of (R := unit) leaps
           (fun leapCode recommendations =>
              match Map_get progressMap leapCode with
              | Some progress =>
                  if MasteryLevel_eqb (StudentProgress.masteryLevel progress)
                       in_progress
                  then (push {| priority := high;
                                competenceCode := leapCode;
                                reason := "Saut qualitatif majeur - priorité élevée";
                                type := remediation |} recommendations, Normal)
                  else (recommendations, Normal)
              | None => (recommendations, Normal)
              end)
           recommendations) in
  Array_sort (fun a b => priorityOrder (priority b) - priorityOrder (priority a))
    recommendations.

Definition getCompetencesWithLeaps (niv : Niveau) : list UnifiedCompetenceData :=
  let competences := getCompetencesByLevel niv in
  match niv with
  | CE1 =>
      filter (fun c => CE1Competences2025.hasCE1MajorQualitativeLeap
                         ce1Competences (code c)) competences
  | CE2 =>
      filter (fun c => CE2Competences2026.hasMajorQualitativeLeap
                         ce2Competences (code c)) competences
  | CP => filter (fun c => 0 <? Z.of_nat (List.length (prerequis c))) competences
  end.

(** [sousDomaine] is optional; an absent or empty one filters on the domain
    only. *)
Definition getCompetencesByDomain (niv : Niveau) (dom : string)
    (sousDom : option string) : list UnifiedCompetenceData :=
  let competences := getCompetencesByLevel niv in
  filter (fun c =>
            if truthy_str sousDom
            then String.eqb (domaine c) dom
                 && match sousDom with
                    | Some sd => String.eqb (sousDomaine c) sd
                    | None => false
                    end
            else String.eqb (domaine c) dom) competences.

End WithCurriculum.

(** An entry of [LearningPath.competences]. *)
Module CompetenceProgress.
Record t := mk {
  competenceCode : string;
  niveau : Niveau;
  progressPercent : Q;
  masteryLevel : MasteryLevel;
  totalAttempts : Z;
  successfulAttempts : Z;
  averageQuality : Q;
  needsReview : bool;
  lastAttemptAt : option Date;
  masteredAt : option Date;
  isBlocked : bool;
  blockingPrerequisites : list string
}.
End CompetenceProgress.

(** [overallProgress] is a number or [NaN] (here [None]): the quotient
    [mastered / competences.length] is [0 / 0] for a level without
    competences. *)
Module Summary.
Record t := mk {
  totalCompetences : Z;
  mastered : Z;
  inProgress : Z;
  notStarted : Z;
  blocked : Z;
  overallProgress : option Q
}.
End Summary.

Module LearningPath.
Record t := mk {
  studentId : Z;
  niveau : Niveau;
  competences : list CompetenceProgress.t;
  recommendations : list Recommendation;
  summary : Summary.t
}.
End LearningPath.

Section WithCurriculumPath.

Variable cpCompetences : CPReference.
Variable ce1Competences : CE1CompetenceFramework.
Variable ce2Competences : CompetenceFramework.

Definition getLearningPath (student : Z) (niv : Niveau) (db : Db)
  : LearningPath.t :=
  let competences :=
    getCompetencesByLevel cpCompetences ce1Competences ce2Competences niv in
  let studentProgress :=
    filter (fun p => StudentProgress.studentId p =? student)
      (studentProgress db) in
  let progressMap :=
    map (fun p => (StudentProgress.competenceCode p, p)) studentProgress in
  let competenceProgress :=
    fst (for_of (R := unit) competences
           (fun competence competenceProgress =>
              let progress := Map_get progressMap (code competence) in
              let blocked :=
                isBlocked cpCompetences ce1Competences ce2Competences student
                  (code competence) db in
              let field {V : Type} (get : StudentProgress.row -> V) (dflt : V) :=
                match progress with
                | Some p => get p
                | None => dflt
                end in
              (push (CompetenceProgress.mk (code competence) niv
                       (field StudentProgress.progressPercent 0%Q)
                       (field StudentProgress.masteryLevel not_started)
                       (field StudentProgress.totalAttempts 0)
                       (field StudentProgress.successfulAttempts 0)
                       (field StudentProgress.averageScore 0%Q)
                       (field StudentProgress.needsReview false)
                       (field StudentProgress.lastAttemptAt None)
                       (field StudentProgress.masteredAt None)
                       (isBlocked_ blocked)
                       (blockingPrerequisites blocked))
                 competenceProgress, Normal))
           []) in
  let recommendations :=
    getRecommendations cpCompetences ce1Competences ce2Competences student niv
      db in
  let count (keep : CompetenceProgress.t -> bool) : Z :=
    Z.of_nat (List.length (filter keep competenceProgress)) in
  let mastered :=
    count (fun c => MasteryLevel_eqb (CompetenceProgress.masteryLevel c)
                      mastered) in
  let inProgress :=
    count (fun c => MasteryLevel_eqb (CompetenceProgress.masteryLevel c)
                      in_progress) in
  let notStarted :=
    count (fun c => MasteryLevel_eqb (CompetenceProgress.masteryLevel c)
                      not_started) in
  let blocked := count CompetenceProgress.isBlocked in
  let total := Z.of_nat (List.length competences) in
  let overallProgress :=
    if total =? 0 then None
    else Some (JS.round2 (inject_Z mastered / inject_Z total * 100)%Q) in
  LearningPath.mk student niv competenceProgress recommendations
    (Summary.mk total mastered inProgress notStarted blocked overallProgress).

End WithCurriculumPath.
End CompetenceFrameworkService.

(* ================================================================== *)
(** ** routes/competence-framework.ts *)
(* ================================================================== *)

Module CompetenceFrameworkRoutes.

(** What a handler answers: [{ success: true, data }], or
    [reply.status(status).send({ success: false, error })].  The [catch]
    branches (status 500) guard against exceptions, which the service
    functions embedded here do not raise. *)
Inductive Reply (A : Type) : Type :=
| Success : A -> Reply A
| Failure : Z -> string -> Reply A.
Arguments Success {A} _.
Arguments Failure {A} _ _.

Record Stats := {
  total : Z;
  byDomain : list (string * Z);
  bySubDomain : list (string * Z);
  withPrerequisites : Z;
  withLeaps : Z
}.

(** [obj[key] = value] on an object with string keys: an existing key keeps
    its place, a new key goes last. *)
Fixpoint assign (obj : list (string * Z)) (key : string) (value : Z)
  : list (string * Z) :=
  match obj with
  | [] => [(key, value)]
  | (k, v) :: rest =>
      if String.eqb k key then (k, value) :: rest
      else (k, v) :: assign rest key value
  end.

(** [obj[key] = (obj[key] || 0) + 1]. *)
Definition increment (obj : list (string * Z)) (key : string)
  : list (string * Z) :=
  assign obj key
    (match JS.prop obj key with
     | Some n => or_else n 0
     | None => 0
     end + 1).

Section WithCurriculum.

Variable cpCompetences : CPReference.
Variable ce1Competences : CE1CompetenceFramework.
Variable ce2Competences : CompetenceFramework.

(** [GET /competences/code/:code]. *)
Definition getCompetenceByCode (code : string)
  : Reply CompetenceFrameworkService.UnifiedCompetenceData :=
  match CompetenceFrameworkService.getCompetenceByCode cpCompetences
          ce1Competences ce2Competences code with
  | None => Failure 404 "Competence not found"
  | Some competence => Success competence
  end.

(** [GET /competences/:niveau/stats]. *)
Definition getStats (niv : CompetenceFrameworkService.Niveau) : Reply Stats :=
  let competences :=
    CompetenceFrameworkService.getCompetencesByLevel cpCompetences
      ce1Competences ce2Competences niv in
  let counters :=
    JS.forEach (R := unit) competences
      (fun c '(byDomain, bySubDomain) =>
         ((increment byDomain (CompetenceFrameworkService.domaine c),
           increment bySubDomain (CompetenceFrameworkService.sousDomaine c)),
          JS.Normal))
      ([], []) in
  Success
    {| total := Z.of_nat (List.length competences);
       byDomain := fst counters;
       bySubDomain := snd counters;
       withPrerequisites :=
         Z.of_nat (List.length
                     (filter (fun c =>
                                0 <? Z.of_nat (List.length
                                                 (CompetenceFrameworkService.prerequis c)))
                        competences));
       withLeaps :=
         Z.of_nat (List.length
                     (CompetenceFrameworkService.getCompetencesWithLeaps
                        cpCompetences ce1Competences ce2Competences niv)) |}.

End WithCurriculum.
End CompetenceFrameworkRoutes.

(* ================================================================== *)
(** * Vocabulary of the statements *)
(* ================================================================== *)

Definition resolvesAs (niv : CompetenceFrameworkService.Niveau)
    (r : option CompetenceFrameworkService.UnifiedCompetenceData) : bool :=
  match r with
  | Some u =>
      match CompetenceFrameworkService.niveau u, niv with
      | CompetenceFrameworkService.CP, CompetenceFrameworkService.CP
      | CompetenceFrameworkService.CE1, CompetenceFrameworkService.CE1
      | CompetenceFrameworkService.CE2, CompetenceFrameworkService.CE2 => true
      | _, _ => false
      end
  | None => false
  end.

(** The row written by [recordOutcome]. *)
Definition outcomeRow (now : Date) (a : OutcomeInput) (db : Db)
  : ExerciseOutcome.row :=
  ExerciseOutcome.mk (nextId (map ExerciseOutcome.id (exerciseOutcomes db)))
    (studentId a) (exerciseId a) (competenceCode a) (isCorrect a) (hintsUsed a)
    (timeSpentSec a) (quality a) (errorTags a) now.

(** The recency window of a learner-skill pair: the query of lines 39-49 of
    MasteryService.ts. *)
Definition window (s : Z) (c : string) (db : Db) : list ExerciseOutcome.row :=
  limit 20 (newestFirst (outcomesOf s c db)).

(** The outcomes of the pair that fall out of the window. *)
Definition olderThanWindow (s : Z) (c : string) (db : Db)
  : list ExerciseOutcome.row :=
  skipn 20 (newestFirst (outcomesOf s c db)).

(** The Progress row and the ReviewCard of a pair: the first row that the
    queries on the pair return. *)
Definition progressRow (s : Z) (c : string) (db : Db)
  : option StudentProgress.row := hd_error (progressOf s c db).

Definition cardRow (s : Z) (c : string) (db : Db)
  : option SpacedRepetitionCard.row := hd_error (cardsOf s c db).

(** The [SET] clause and the [VALUES] clause of the Progress upsert. *)
Definition setProgress (now : Date) (a : OutcomeInput)
    (w : list ExerciseOutcome.row) (prev p : StudentProgress.row)
  : StudentProgress.row :=
  let pct := MasteryService.masteryPercentOf w (hintsUsed a) in
  let avg := MasteryService.averageQualityOf w in
  let lvl := MasteryService.masteryLevelOf pct avg in
  StudentProgress.mk (StudentProgress.id p) (StudentProgress.studentId p)
    (exerciseId a) (StudentProgress.competenceCode p) pct lvl
    (MasteryService.totalAttemptsOf w) (MasteryService.successfulAttemptsOf w)
    (JS.round2 (inject_Z (MasteryService.successfulAttemptsOf w)
                / inject_Z (MasteryService.totalAttemptsOf w) * 100)%Q)
    (MasteryService.totalTimeSpentOf w) (Some now)
    (if MasteryLevel_eqb lvl mastered
     then match StudentProgress.masteredAt prev with
          | Some t => Some t
          | None => Some now
          end
     else StudentProgress.masteredAt prev)
    (MasteryService.needsReviewOf pct avg) (StudentProgress.createdAt p) now.

Definition newProgress (now : Date) (a : OutcomeInput)
    (w : list ExerciseOutcome.row) (id : Z) : StudentProgress.row :=
  let pct := MasteryService.masteryPercentOf w (hintsUsed a) in
  let avg := MasteryService.averageQualityOf w in
  let lvl := MasteryService.masteryLevelOf pct avg in
  StudentProgress.mk id (studentId a) (exerciseId a) (competenceCode a) pct lvl
    (MasteryService.totalAttemptsOf w) (MasteryService.successfulAttemptsOf w)
    (JS.round2 (inject_Z (MasteryService.successfulAttemptsOf w)
                / inject_Z (MasteryService.totalAttemptsOf w) * 100)%Q)
    (MasteryService.totalTimeSpentOf w) (Some now)
    (if MasteryLevel_eqb lvl mastered then Some now else None)
    (MasteryService.needsReviewOf pct avg) now now.

(** The card inserted by [createCard], and a card as rewritten by
    [updateCardSchedule] from the scheduler's answer for [card]. *)
Definition defaultCard (tz : Calendar) (now : Date) (s : Z) (c : string)
    (id : Z) : SpacedRepetitionCard.row :=
  SpacedRepetitionCard.mk id s c (2.5)%Q 0 1 now (tz now 1) 0%Q now now.

Definition scheduled
    (calc : Date -> SpacedRepetitionCard.row -> Q
            -> SuperMemoService.SuperMemoResult)
    (now : Date) (q : Q) (card k : SpacedRepetitionCard.row)
  : SpacedRepetitionCard.row :=
  let r := calc now card q in
  SpacedRepetitionCard.mk (SpacedRepetitionCard.id k)
    (SpacedRepetitionCard.studentId k) (SpacedRepetitionCard.competenceCode k)
    (SuperMemoService.easinessFactor r) (SuperMemoService.repetitionNumber r)
    (SuperMemoService.interval r) now (SuperMemoService.nextReviewDate r) q
    (SpacedRepetitionCard.createdAt k) now.

(** [clamp(x, lo, hi)]. *)
Definition clamp (x lo hi : Q) : Q := Qmax lo (Qmin hi x).

(** Number of correct outcomes and sum of the qualities of a window. *)
Fixpoint countCorrect (w : list ExerciseOutcome.row) : Z :=
  match w with
  | [] => 0
  | o :: rest =>
      (if ExerciseOutcome.isCorrect o then 1 else 0) + countCorrect rest
  end.

Fixpoint sumQuality (w : list ExerciseOutcome.row) : Q :=
  match w with
  | [] => 0%Q
  | o :: rest => (ExerciseOutcome.quality o + sumQuality rest)%Q
  end.

(** [mean(quality)] over [max(1, count)] attempts. *)
Definition meanQuality (w : list ExerciseOutcome.row) : Q :=
  (sumQuality w / inject_Z (Z.max 1 (Z.of_nat (List.length w))))%Q.

(** The same mean evaluated in double precision, the way JavaScript
    evaluates it: the qualities are added one by one in the order of the
    window, starting from 0, and the sum is divided by [max(1, count)],
    every intermediate result being rounded to a double. *)
Fixpoint doubleSum (acc : Q) (w : list ExerciseOutcome.row) : Q :=
  match w with
  | [] => acc
  | o :: rest =>
      doubleSum (JS.double (acc + JS.double (ExerciseOutcome.quality o))) rest
  end.

Definition doubleMean (w : list ExerciseOutcome.row) : Q :=
  JS.double (doubleSum 0 w / inject_Z (Z.max 1 (Z.of_nat (List.length w)))).

(** A window of correct outcomes with the given qualities, newest
    first. *)
Definition graded (qualities : list Q) : list ExerciseOutcome.row :=
  map (fun q => ExerciseOutcome.mk 1 1 9 "CP.FR.L1.1" true 0 40 q [] 0)
    qualities.







(** How far a stored percentage may be from the exact value of its
    formula: the rounding of the double-precision operations that compute
    it is far below this. *)
Definition roundingTolerance : Q := 1 # 1000000000.

Definition upToRounding (x y : Q) : Prop :=
  (y - roundingTolerance <= x <= y + roundingTolerance)%Q.

Definition onPair (s : Z) (c : string) (o : ExerciseOutcome.row) : Prop :=
  ExerciseOutcome.studentId o = s /\ ExerciseOutcome.competenceCode o = c.

Definition noOlderThan (x y : ExerciseOutcome.row) : Prop :=
  ExerciseOutcome.attemptedAt y <= ExerciseOutcome.attemptedAt x.

(** A sequence of [updateMastery] calls, each with its own clock reading. *)
Definition runUpdates
    (tz : Calendar)
    (calc : Date -> SpacedRepetitionCard.row -> Q
            -> SuperMemoService.SuperMemoResult)
    (calls : list (Date * OutcomeInput)) (db : Db) : Db :=
  fold_left (fun d call =>
               exec (MasteryService.updateMastery tz calc (fst call) (snd call)) d)
    calls db.

Definition callOnPair (s : Z) (c : string) (call : Date * OutcomeInput) : Prop :=
  studentId (snd call) = s /\ competenceCode (snd call) = c.

(** The [masteredAt] that an upsert must leave, given the row it found. *)
Definition stickyMasteredAt (prev : option StudentProgress.row)
    (p : StudentProgress.row) (now : Date) : Prop :=
  match prev with
  | Some {| StudentProgress.masteredAt := Some t |} =>
      StudentProgress.masteredAt p = Some t
  | _ =>
      StudentProgress.masteredAt p
      = if MasteryLevel_eqb (StudentProgress.masteryLevel p) mastered
        then Some now else None
  end.

(** The successive states of a card under a sequence of scheduling calls
    (scheduler of the specification, write of [updateCardSchedule]). *)
Fixpoint scheduleTrace (card : SpacedRepetitionCard.row)
    (steps : list (Date * Q)) : list SpacedRepetitionCard.row :=
  match steps with
  | [] => []
  | (now, q) :: rest =>
      let k := scheduled SuperMemoService.calculateNextReview now q card card in
      k :: scheduleTrace k rest
  end.

Definition easinessAtLeast (bound : Q) (k : SpacedRepetitionCard.row) : Prop :=
  (bound <= SpacedRepetitionCard.easinessFactor k)%Q.

(** An outcome whose fields are out of range. *)
Definition malformed (a : OutcomeInput) : Prop :=
  ~ (0 <= quality a <= 5)%Q \/ hintsUsed a < 0 \/ timeSpentSec a < 0.

(** No write reached any of the four tables. *)
Definition nothingPersisted (db db' : Db) : Prop :=
  exerciseOutcomes db' = exerciseOutcomes db
  /\ errorPatterns db' = errorPatterns db
  /\ studentProgress db' = studentProgress db
  /\ spacedRepetitionCards db' = spacedRepetitionCards db.

(** "A malformed outcome is rejected before any write", for one call. *)
Definition rejectedBeforeAnyWrite (now : Date) (a : OutcomeInput) (db : Db)
  : Prop :=
  malformed a ->
  nothingPersisted db (exec (ErrorPatternService.recordOutcome now a) db)
  /\ nothingPersisted db
       (exec (MasteryService.updateMastery utc
                SuperMemoService.calculateNextReview now a) db).

(** The key of an ErrorPattern counter. *)
Definition patternKey (s : Z) (c tag : string) (e : ErrorPattern.row) : bool :=
  (ErrorPattern.studentId e =? s)
  && String.eqb (ErrorPattern.competenceCode e) c
  && String.eqb (ErrorPattern.tag e) tag.

Definition hasPattern (s : Z) (c : string) (db : Db) (tag : string) : Prop :=
  existsb (patternKey s c tag) (errorPatterns db) = true.

(** An attempt with a quality of 7, a negative hint count and a negative
    duration. *)
Definition malformedAttempt : OutcomeInput :=
  {| studentId := 1; exerciseId := 7; competenceCode := "CP.FR.L1.1";
     isCorrect := true; hintsUsed := -1; timeSpentSec := -5;
     quality := 7%Q; errorTags := ["inversion"] |}.

(** Recommendations built by the rules of [getRecommendations]. *)
Definition reviewRecommendation (p : StudentProgress.row)
  : CompetenceFrameworkService.Recommendation :=
  {| CompetenceFrameworkService.priority := CompetenceFrameworkService.high;
     CompetenceFrameworkService.competenceCode :=
       StudentProgress.competenceCode p;
     CompetenceFrameworkService.reason :=
       "Besoin de révision - performance faible";
     CompetenceFrameworkService.type := CompetenceFrameworkService.review |}.

Definition newRecommendation (code : string)
  : CompetenceFrameworkService.Recommendation :=
  {| CompetenceFrameworkService.priority := CompetenceFrameworkService.medium;
     CompetenceFrameworkService.competenceCode := code;
     CompetenceFrameworkService.reason := "Nouvelle compétence disponible";
     CompetenceFrameworkService.type := CompetenceFrameworkService.new |}.

Definition prerequisiteRecommendation (code : string) (missing : list string)
  : CompetenceFrameworkService.Recommendation :=
  {| CompetenceFrameworkService.priority := CompetenceFrameworkService.low;
     CompetenceFrameworkService.competenceCode := code;
     CompetenceFrameworkService.reason :=
       "Prérequis manquants: " ++ JS.join ", " missing;
     CompetenceFrameworkService.type :=
       CompetenceFrameworkService.prerequisite |}.

(** The learner has no Progress row for the skill. *)
Definition unseen (student : Z) (db : Db) (code : string) : bool :=
  match progressOf student code db with
  | [] => true
  | _ :: _ => false
  end.

Definition byPriorityDescending
    (x y : CompetenceFrameworkService.Recommendation) : Prop :=
  CompetenceFrameworkService.priorityOrder (CompetenceFrameworkService.priority y)
  <= CompetenceFrameworkService.priorityOrder (CompetenceFrameworkService.priority x).

(** A sample value for the CP table [competenceReference], which the
    functions of [CompetenceFrameworkService] take as a parameter here
    (data/cp2025-competences.ts is not among the sources): one entry, under
    a code that the tests of the service look up. *)
Definition cpExcerpt : CPReference :=
  [("CP.FR.L1.1", {| cp_prerequis := None |})].

(** The entries of the third rule of [getRecommendations]. *)
Definition leapRecommendation (r : CompetenceFrameworkService.Recommendation)
  : Prop :=
  CompetenceFrameworkService.priority r = CompetenceFrameworkService.high
  /\ CompetenceFrameworkService.type r = CompetenceFrameworkService.remediation.

(** "Remediation actions are returned exactly when the learner is blocked,
    one per blocking prerequisite, and none otherwise", for a given answer
    to "is the learner blocked" and a given list of blocking
    prerequisites. *)
Definition remediationAsStated (blocked : bool) (blocking : list string)
    (r : option (list PrerequisiteService.Remediation)) : Prop :=
  (blocked = true ->
   exists acts,
     r = Some acts
     /\ Permutation (map PrerequisiteService.prerequisiteCode acts) blocking
     /\ Forall (fun x => PrerequisiteService.action x = "Review prerequisite")
          acts)
  /\ (blocked = false -> r = None \/ r = Some []).

(** The database edges of a skill and the number of failures among its five
    most recent outcomes. *)
Definition edgesOf (code : string) (db : Db) : list CompetencePrerequisite.row :=
  filter (fun e => String.eqb (CompetencePrerequisite.competenceCode e) code)
    (competencePrerequisites db).

Definition recentFailures (student : Z) (code : string) (db : Db) : Z :=
  Z.of_nat (List.length
              (filter (fun o => negb (ExerciseOutcome.isCorrect o))
                 (limit 5 (newestFirst (outcomesOf student code db))))).

Definition remediationFor (code : string) (x : PrerequisiteService.Remediation)
  : Prop :=
  PrerequisiteService.action x = "Review prerequisite"
  /\ PrerequisiteService.reason x
     = "Student blocked on " ++ code ++ ", needs "
       ++ PrerequisiteService.prerequisiteCode x.

Definition byWeightDescending (x y : PrerequisiteService.Remediation) : Prop :=
  (PrerequisiteService.weight y <= PrerequisiteService.weight x)%Q.

(** Learner 1 and the skill CE2.MA.P.1.1, whose two prerequisite edges are
    those that the seed derives from the CE2 table.  The learner has
    mastered CE1.MA.P1.1 and has no Progress row for CE1.MA.P1.2. *)
Definition seededEdges : list CompetencePrerequisite.row :=
  [CompetencePrerequisite.mk 1 "CE2.MA.P.1.1" "CE1.MA.P1.1" 1%Q
     "Prérequis CE1 pour CE2.MA.P.1.1";
   CompetencePrerequisite.mk 2 "CE2.MA.P.1.1" "CE1.MA.P1.2" (0.9)%Q
     "Prérequis CE1 pour CE2.MA.P.1.1"].

Definition masteredRow : StudentProgress.row :=
  StudentProgress.mk 1 1 3 "CE1.MA.P1.1" 100%Q mastered 4 4 100%Q 120
    (Some 500) (Some 500) false 100 500.

Definition failedAttempt (id : Z) (at_ : Date) : ExerciseOutcome.row :=
  ExerciseOutcome.mk id 1 9 "CE2.MA.P.1.1" false 0 40 1%Q [] at_.

(** Three failed attempts on the skill ... *)
Definition dbStruggling : Db :=
  mkDb [failedAttempt 1 1000; failedAttempt 2 2000; failedAttempt 3 3000]
    [] [masteredRow] [] seededEdges.

(** ... and no attempt on it yet. *)
Definition dbNoAttempt : Db := mkDb [] [] [masteredRow] [] seededEdges.

(** Attempts of learner 1 on CP.FR.L1.1, without hints or error tags. *)
Definition attempt (ok : bool) (q : Q) : OutcomeInput :=
  {| studentId := 1; exerciseId := 7; competenceCode := "CP.FR.L1.1";
     isCorrect := ok; hintsUsed := 0; timeSpentSec := 30;
     quality := q; errorTags := [] |}.

(** Nineteen attempts of quality 4, the first two failed, one per second. *)
Definition nineteenAttempts : list (Date * OutcomeInput) :=
  map (fun i => (1000 * Z.of_nat i, attempt (Nat.ltb 2 i) 4%Q)) (seq 1 19).

Definition dbNineteen : Db :=
  runUpdates utc SuperMemoService.calculateNextReview nineteenAttempts emptyDb.

(** One perfect attempt, which masters the skill at time 1000. *)
Definition dbMastered : Db :=
  exec (MasteryService.updateMastery utc SuperMemoService.calculateNextReview 1000
          (attempt true 5%Q)) emptyDb.

(* ------------------------------------------------------------------ *)
(** ** Vocabulary of the further properties *)
(* ------------------------------------------------------------------ *)

(** Cards of a learner that are due at [now]. *)
Definition dueCard (now : Date) (student : Z) (k : SpacedRepetitionCard.row)
  : Prop :=
  SpacedRepetitionCard.studentId k = student
  /\ SpacedRepetitionCard.nextReviewAt k < now.

Definition dueCardsOf (now : Date) (student : Z) (db : Db)
  : list SpacedRepetitionCard.row :=
  filter (fun k => (SpacedRepetitionCard.studentId k =? student)
                   && (SpacedRepetitionCard.nextReviewAt k <? now))
    (spacedRepetitionCards db).

Definition dueNoLater (x y : SpacedRepetitionCard.row) : Prop :=
  SpacedRepetitionCard.nextReviewAt x <= SpacedRepetitionCard.nextReviewAt y.

(** Error patterns of a learner. *)
Definition patternsOfStudent (student : Z) (db : Db) : list ErrorPattern.row :=
  filter (fun e => ErrorPattern.studentId e =? student) (errorPatterns db).

Definition seenNoLess (x y : ErrorPattern.row) : Prop :=
  ErrorPattern.occurrences y <= ErrorPattern.occurrences x.

(** The counter of an error tag for a pair: the first row that the lookup of
    [recordOutcome] finds, and its number of occurrences. *)
Definition patternOf (s : Z) (c tag : string) (db : Db)
  : option ErrorPattern.row :=
  hd_error (filter (patternKey s c tag) (errorPatterns db)).

Definition counterOf (s : Z) (c tag : string) (db : Db) : option Z :=
  option_map ErrorPattern.occurrences (patternOf s c tag db).

Definition counterBase (counter : option Z) : Z :=
  match counter with
  | Some n => n
  | None => 0
  end.

(** Primary keys are unique in a table. *)
Definition uniquePatternIds (db : Db) : Prop :=
  NoDup (map ErrorPattern.id (errorPatterns db)).

(** An attempt of learner 1 with a repeated error tag. *)
Definition taggedAttempt : OutcomeInput :=
  {| studentId := 1; exerciseId := 7; competenceCode := "CP.FR.L1.1";
     isCorrect := false; hintsUsed := 1; timeSpentSec := 45;
     quality := 2%Q; errorTags := ["inversion"; "omission"; "inversion"] |}.

Definition uniqueOutcomeIds (db : Db) : Prop :=
  NoDup (map ExerciseOutcome.id (exerciseOutcomes db)).

Definition uniqueProgressIds (db : Db) : Prop :=
  NoDup (map StudentProgress.id (studentProgress db)).

Definition uniqueCardIds (db : Db) : Prop :=
  NoDup (map SpacedRepetitionCard.id (spacedRepetitionCards db)).

Definition uniqueIds (db : Db) : Prop :=
  uniqueOutcomeIds db /\ uniquePatternIds db
  /\ uniqueProgressIds db /\ uniqueCardIds db.

(** Every pair has at most one Progress row and at most one ReviewCard. *)
Definition onePerPair (db : Db) : Prop :=
  forall s c,
    (List.length (progressOf s c db) <= 1)%nat
    /\ (List.length (cardsOf s c db) <= 1)%nat.

(** Two calls in flight that take turns at their operations, the first
    call first, for eight operations each. *)
Definition takingTurns : list bool :=
  flat_map (fun _ => [true; false]) (seq 0 8).

(** An attempt of learner 1 on another skill. *)
Definition otherAttempt : OutcomeInput :=
  {| studentId := 1; exerciseId := 8; competenceCode := "CP.FR.L1.2";
     isCorrect := false; hintsUsed := 0; timeSpentSec := 20;
     quality := 1%Q; errorTags := [] |}.

(** Every earlier outcome of the pair was attempted strictly before [now]. *)
Definition clockAhead (now : Date) (s : Z) (c : string) (db : Db) : Prop :=
  Forall (fun o => ExerciseOutcome.attemptedAt o < now) (outcomesOf s c db).

(** A window holding one correct attempt. *)
Definition oneSuccess : list ExerciseOutcome.row :=
  [ExerciseOutcome.mk 1 1 9 "CP.FR.L1.1" true 0 40 5%Q [] 1000].

(** Number of failed outcomes of a pair, over its whole history. *)
Definition failuresOf (s : Z) (c : string) (db : Db) : Z :=
  Z.of_nat (List.length
              (filter (fun o => negb (ExerciseOutcome.isCorrect o))
                 (outcomesOf s c db))).

(** The competences of a subject, each with the name of its sub-domain, in
    declaration order; and the same without the names. *)
Definition subjectEntries {V : Type} (domains : list (string * list (string * V)))
  : list (string * V) :=
  flat_map (fun d => map (fun kv => (fst d, snd kv)) (snd d)) domains.

Definition subjectValues {V : Type} (domains : list (string * list (string * V)))
  : list V :=
  flat_map (fun d => map snd (snd d)) domains.

Definition subjectKeys {V : Type} (domains : list (string * list (string * V)))
  : list string :=
  flat_map (fun d => map fst (snd d)) domains.

(** The unified view of a CE1 and of a CE2 competence, as
    [getCompetencesByLevel] builds it. *)
Definition unifiedCE1 (subject : string) (entry : string * CE1CompetenceData)
  : CompetenceFrameworkService.UnifiedCompetenceData :=
  {| CompetenceFrameworkService.code := ce1_code (snd entry);
     CompetenceFrameworkService.niveau := CompetenceFrameworkService.CE1;
     CompetenceFrameworkService.domaine := subject;
     CompetenceFrameworkService.sousDomaine := fst entry;
     CompetenceFrameworkService.prerequis := prerequis_cp (snd entry);
     CompetenceFrameworkService.saut_qualitatif :=
       ce1_saut_qualitatif (snd entry);
     CompetenceFrameworkService.nouveaute := ce1_nouveaute (snd entry) |}.

Definition unifiedCE2 (subject : string) (entry : string * CompetenceData)
  : CompetenceFrameworkService.UnifiedCompetenceData :=
  {| CompetenceFrameworkService.code := ce2_code (snd entry);
     CompetenceFrameworkService.niveau := CompetenceFrameworkService.CE2;
     CompetenceFrameworkService.domaine := subject;
     CompetenceFrameworkService.sousDomaine := fst entry;
     CompetenceFrameworkService.prerequis := prerequis_ce1 (snd entry);
     CompetenceFrameworkService.saut_qualitatif :=
       ce2_saut_qualitatif (snd entry);
     CompetenceFrameworkService.nouveaute := ce2_nouveaute (snd entry) |}.

(** The first Progress row of the learner for a skill says "mastered". *)
Definition hasMastered (student : Z) (skill : string) (db : Db) : Prop :=
  match progressOf student skill db with
  | row :: _ => StudentProgress.masteryLevel row = mastered
  | [] => False
  end.

(** The prerequisite codes that the database records for a competence, and
    those that the curriculum lookup finds for it. *)
Definition recordedPrerequisites (code : string) (db : Db) : list string :=
  map CompetencePrerequisite.prerequisiteCode
    (filter (fun e => String.eqb (CompetencePrerequisite.competenceCode e) code)
       (competencePrerequisites db)).

Definition curriculumPrerequisites (cp : CPReference)
    (ce1 : CE1CompetenceFramework) (ce2 : CompetenceFramework) (code : string)
  : list string :=
  match CompetenceFrameworkService.getCompetenceByCode cp ce1 ce2 code with
  | Some u => CompetenceFrameworkService.prerequis u
  | None => []
  end.

(** The sub-domains of the two subjects of a CE2 table have distinct
    names. *)
Definition distinctSubDomains (ce2 : CompetenceFramework) : Prop :=
  NoDup (JS.Object_keys (francais ce2 ++ mathematiques ce2)%list).

(** All the sub-domains of a CE2 table. *)
Definition subDomains (ce2 : CompetenceFramework) : list CompetenceDomain :=
  JS.Object_values (francais ce2 ++ mathematiques ce2)%list.

(** The count recorded under a key of a counter object (0 when the key is
    absent), and the sum of all recorded counts. *)
Definition countOf (obj : list (string * Z)) (key : string) : Z :=
  match JS.prop obj key with
  | Some n => n
  | None => 0
  end.

Definition sumCounts (obj : list (string * Z)) : Z :=
  fold_right Z.add 0 (map snd obj).

(** All the competences of a CE2 table, in declaration order (French
    first). *)
Definition allCompetences (ce2 : CompetenceFramework) : list CompetenceData :=
  (subjectValues (francais ce2) ++ subjectValues (mathematiques ce2))%list.

(** The edge that a generated relationship stands for. *)
Definition edgeOf (e : CE2Competences2026.CompetencePrerequisite)
  : string * string :=
  (CE2Competences2026.competenceCode e, CE2Competences2026.prerequisiteCode e).

Definition lighterThan (a b : CE2Competences2026.CompetencePrerequisite)
  : Prop :=
  (CE2Competences2026.weight b < CE2Competences2026.weight a)%Q.

(* ================================================================== *)
(** * Properties *)
(* ================================================================== *)

(** ** Loops *)

Section Loops.
Context {A S : Type}.

(** A [for ... of] body without [return] is a left fold. *)
Lemma for_of_normal {R : Type} (step : A -> S -> S) (arr : list A) (s : S) :
  JS.for_of (R := R) arr (fun x acc => (step x acc, JS.Normal)) s
  = (fold_left (fun acc x => step x acc) arr s, JS.Normal).
Proof.
  revert s. induction arr as [|x arr IH]; intros s; simpl; [reflexivity|].
  apply IH.
Qed.

Lemma for_of_ext {R : Type} (f g : A -> S -> S * JS.completion R) arr s :
  (forall x acc, f x acc = g x acc) ->
  JS.for_of arr f s = JS.for_of arr g s.
Proof.
  intros H. revert s.
  induction arr as [|x arr IH]; intros s; simpl; [reflexivity|].
  rewrite H. destruct (g x s) as [s' [|v]]; [apply IH | reflexivity].
Qed.

End Loops.

Lemma fold_left_push_if {A B : Type} (keep : A -> bool) (f : A -> B)
    (arr : list A) (s : list B) :
  fold_left (fun acc x => if keep x then JS.push (f x) acc else acc) arr s
  = (s ++ map f (filter keep arr))%list.
Proof.
  revert s. induction arr as [|x arr IH]; intros s; simpl.
  - now rewrite app_nil_r.
  - rewrite IH. unfold JS.push.
    destruct (keep x); simpl; [now rewrite <- app_assoc | reflexivity].
Qed.

(** ** [ORDER BY] and [Array.prototype.sort] *)

Section OrderBy.
Context {A : Type} (le : A -> A -> bool).

Lemma insert_sorted_perm x l : Permutation (insert_sorted le x l) (x :: l).
Proof.
  induction l as [|y l IH]; simpl; [reflexivity|].
  destruct (le x y); [reflexivity|].
  rewrite IH. apply perm_swap.
Qed.

Lemma orderBy_perm l : Permutation (orderBy le l) l.
Proof.
  induction l as [|x l IH]; simpl; [constructor|].
  rewrite insert_sorted_perm. now constructor.
Qed.

Lemma orderBy_In x l : In x (orderBy le l) <-> In x l.
Proof.
  split; apply Permutation_in;
    [apply orderBy_perm | apply Permutation_sym, orderBy_perm].
Qed.

Hypothesis le_total : forall a b, le a b = true \/ le b a = true.
Hypothesis le_trans : forall a b c, le a b = true -> le b c = true -> le a c = true.

Lemma insert_sorted_sorted x l :
  StronglySorted (fun a b => le a b = true) l ->
  StronglySorted (fun a b => le a b = true) (insert_sorted le x l).
Proof.
  induction 1 as [|y l Hs IH Hall]; simpl.
  - repeat constructor.
  - destruct (le x y) eqn:E.
    + constructor; [now constructor|].
      constructor; [exact E|].
      eapply Forall_impl; [|exact Hall]. intros z Hz. eapply le_trans; eauto.
    + constructor; [exact IH|].
      assert (Hyx : le y x = true)
        by (destruct (le_total x y) as [H|H]; [congruence | exact H]).
      rewrite Forall_forall in *. intros z Hz.
      apply (Permutation_in _ (insert_sorted_perm x l)) in Hz.
      destruct Hz as [<-|Hz]; auto.
Qed.

Lemma orderBy_sorted l :
  StronglySorted (fun a b => le a b = true) (orderBy le l).
Proof.
  induction l as [|x l IH]; simpl; [constructor|].
  now apply insert_sorted_sorted.
Qed.

End OrderBy.

(** ** The CE1 lookup never finds anything *)

Lemma getCE1CompetenceByCode_None fw code :
  CE1Competences2025.getCE1CompetenceByCode fw code = None.
Proof. reflexivity. Qed.

Lemma filter_false {A : Type} (l : list A) : filter (fun _ => false) l = [].
Proof. induction l; simpl; auto. Qed.

(** C10.  For every CE1 framework and every code, [getCE1CompetenceByCode]
    returns null: the [return] statements sit in [forEach] callbacks, whose
    results are dropped.  Hence [hasCE1MajorQualitativeLeap] is false for
    every code, [CompetenceFrameworkService.getCompetenceByCode] never
    answers with a CE1 competence, and [getCompetencesWithLeaps('CE1')] is
    empty, although the CE1 table of the repository lists 44 competences of
    which 25 declare [saut_qualitatif] (the ones
    [getCE1CompetencesWithMajorLeaps] collects), and a code of that table
    such as CE1.FR.O1.1 is found by a direct property lookup. *)
Theorem C10_ce1_lookup_always_null :
  (forall fw code, CE1Competences2025.getCE1CompetenceByCode fw code = None)
  /\ (forall fw code,
        CE1Competences2025.hasCE1MajorQualitativeLeap fw code = false)
  /\ (forall cp fw ce2 code,
        resolvesAs CompetenceFrameworkService.CE1
          (CompetenceFrameworkService.getCompetenceByCode cp fw ce2 code)
        = false)
  /\ (forall cp fw ce2,
        CompetenceFrameworkService.getCompetencesWithLeaps cp fw ce2
          CompetenceFrameworkService.CE1 = [])
  /\ (forall cp ce2,
        List.length (CompetenceFrameworkService.getCompetencesByLevel cp
                       CE1_COMPETENCES_2025 ce2 CompetenceFrameworkService.CE1)
        = 44%nat)
  /\ List.length (CE1Competences2025.getCE1CompetencesWithMajorLeaps
                    CE1_COMPETENCES_2025) = 25%nat
  /\ option_map ce1_code
       (JS.prop CE1_COMPETENCES_2025_francais_oral "CE1.FR.O1.1")
     = Some "CE1.FR.O1.1"
  /\ CE1Competences2025.getCE1CompetenceByCode CE1_COMPETENCES_2025
       "CE1.FR.O1.1" = None.
Proof.
  repeat split.
  - intros cp fw ce2 code.
    unfold CompetenceFrameworkService.getCompetenceByCode.
    rewrite getCE1CompetenceByCode_None.
    destruct (JS.prop cp code); [reflexivity|].
    destruct (CE2Competences2026.getCompetenceByCode ce2 code); reflexivity.
  - intros cp fw ce2.
    unfold CompetenceFrameworkService.getCompetencesWithLeaps.
    apply filter_false.
Qed.

(** ** The database monad *)

Lemma exec_bind {A B : Type} (m : DbM A) (k : A -> DbM B) db :
  exec (bind m k) db = exec (k (eval m db)) (exec m db).
Proof. reflexivity. Qed.

Lemma eval_bind {A B : Type} (m : DbM A) (k : A -> DbM B) db :
  eval (bind m k) db = eval (k (eval m db)) (exec m db).
Proof. reflexivity. Qed.

Lemma exec_select {A : Type} (q : Db -> A) db : exec (select q) db = db.
Proof. reflexivity. Qed.

Lemma eval_select {A : Type} (q : Db -> A) db : eval (select q) db = q db.
Proof. reflexivity. Qed.

Lemma exec_ret {A : Type} (x : A) db : exec (ret x) db = db.
Proof. reflexivity. Qed.

Lemma forM__preserves {A B : Type} (f : Db -> B) (body : A -> DbM unit) l db :
  (forall x d, f (exec (body x) d) = f d) ->
  f (exec (forM_ l body) db) = f db.
Proof.
  intros H. revert db.
  induction l as [|x l IH]; intros db; simpl; [reflexivity|].
  rewrite exec_bind, IH. apply H.
Qed.

(** ** Tables *)

Lemma filter_update_where {A : Type} (P cond : A -> bool) (set : A -> A) l :
  (forall r, P (set r) = P r) ->
  filter P (update_where cond set l) = update_where cond set (filter P l).
Proof.
  intros H. unfold update_where.
  induction l as [|r l IH]; simpl; [reflexivity|].
  assert (E : P (if cond r then set r else r) = P r)
    by (destruct (cond r); auto).
  rewrite E. destruct (P r); simpl; now rewrite IH.
Qed.

Lemma update_where_none {A : Type} (cond : A -> bool) (set : A -> A) l :
  Forall (fun r => cond r = false) l -> update_where cond set l = l.
Proof.
  unfold update_where. induction 1 as [|r l Hr _ IH]; simpl; [reflexivity|].
  now rewrite Hr, IH.
Qed.

Lemma update_where_app {A : Type} (cond : A -> bool) (set : A -> A) l1 l2 :
  update_where cond set (l1 ++ l2)
  = (update_where cond set l1 ++ update_where cond set l2)%list.
Proof. apply map_app. Qed.

Lemma nextId_fresh ids : Forall (fun i => i < nextId ids) ids.
Proof.
  unfold nextId. induction ids as [|i ids IH]; constructor; cbn [fold_right].
  - lia.
  - eapply Forall_impl; [|exact IH]. cbv beta. intros; lia.
Qed.

Lemma pair_key_refl (s : Z) (c : string) : (s =? s) && String.eqb c c = true.
Proof. now rewrite Z.eqb_refl, String.eqb_refl. Qed.

(** ** What [recordOutcome] writes *)

Lemma recordOutcome_tables now a db :
  let db1 := exec (ErrorPatternService.recordOutcome now a) db in
  exerciseOutcomes db1 = (exerciseOutcomes db ++ [outcomeRow now a db])%list
  /\ studentProgress db1 = studentProgress db
  /\ spacedRepetitionCards db1 = spacedRepetitionCards db
  /\ competencePrerequisites db1 = competencePrerequisites db
  /\ eval (ErrorPatternService.recordOutcome now a) db = outcomeRow now a db.
Proof.
  cbv zeta. unfold ErrorPatternService.recordOutcome.
  rewrite !exec_bind, !eval_bind, exec_ret.
  set (d0 := exec (insert_exerciseOutcome _) db).
  match goal with |- context [exec ?m d0] => set (loop := m) end.
  assert (Hbody : forall (B : Type) (f : Db -> B),
             (forall cond set d, f (exec (update_errorPatterns cond set) d) = f d) ->
             (forall mk d, f (exec (insert_errorPattern mk) d) = f d) ->
             f (exec loop d0) = f d0).
  { intros B f Hu Hi. subst loop. destruct (0 <? _); [|reflexivity].
    apply forM__preserves. intros tag d.
    rewrite exec_bind, exec_select, eval_select.
    destruct (limit 1 _); [apply Hi | apply Hu]. }
  repeat split; try (rewrite Hbody; [reflexivity | reflexivity | reflexivity]).
Qed.

(** ** What [updateMastery] writes *)

Section UpdateMastery.
Variable tz : Calendar.
Variable calc :
  Date -> SpacedRepetitionCard.row -> Q -> SuperMemoService.SuperMemoResult.
Variables (now : Date) (a : OutcomeInput) (db : Db).

Lemma updateMastery_exec :
  let s := studentId a in
  let c := competenceCode a in
  let db1 := exec (ErrorPatternService.recordOutcome now a) db in
  let w := window s c db1 in
  exec (MasteryService.updateMastery tz calc now a) db
  = mkDb (exerciseOutcomes db1) (errorPatterns db1)
      (match progressOf s c db1 with
       | prev :: _ =>
           update_where
             (fun p => StudentProgress.id p =? StudentProgress.id prev)
             (setProgress now a w prev) (studentProgress db1)
       | [] =>
           (studentProgress db1
            ++ [newProgress now a w
                  (nextId (map StudentProgress.id (studentProgress db1)))])%list
       end)
      (match cardsOf s c db1 with
       | card :: _ =>
           update_where
             (fun k => SpacedRepetitionCard.id k =? SpacedRepetitionCard.id card)
             (scheduled calc now (quality a) card) (spacedRepetitionCards db1)
       | [] =>
           let c0 :=
             defaultCard tz now s c
               (nextId (map SpacedRepetitionCard.id (spacedRepetitionCards db1))) in
           update_where
             (fun k => SpacedRepetitionCard.id k =? SpacedRepetitionCard.id c0)
             (scheduled calc now (quality a) c0)
             (spacedRepetitionCards db1 ++ [c0])%list
       end)
      (competencePrerequisites db1).
Proof.
  intros s c db1 w.
  unfold MasteryService.updateMastery.
  rewrite exec_bind. fold db1. cbv beta.
  rewrite exec_bind, exec_select, eval_select. cbv beta zeta.
  rewrite exec_bind, exec_select, eval_select. cbv beta zeta.
  fold s c. fold (window s c db1). fold w.
  rewrite exec_bind. cbv beta.
  set (d2 := exec _ db1).
  assert (Hd2 : d2 = mkDb (exerciseOutcomes db1) (errorPatterns db1)
      (match progressOf s c db1 with
       | prev :: _ =>
           update_where
             (fun p => StudentProgress.id p =? StudentProgress.id prev)
             (setProgress now a w prev) (studentProgress db1)
       | [] =>
           (studentProgress db1
            ++ [newProgress now a w
                  (nextId (map StudentProgress.id (studentProgress db1)))])%list
       end) (spacedRepetitionCards db1) (competencePrerequisites db1)).
  { subst d2. destruct (progressOf s c db1); reflexivity. }
  assert (Hc2 : cardsOf s c d2 = cardsOf s c db1) by (rewrite Hd2; reflexivity).
  rewrite exec_bind, exec_select, eval_select. cbv beta zeta.
  rewrite Hc2.
  rewrite exec_bind. cbv beta.
  rewrite exec_bind. cbv beta.
  rewrite exec_bind, exec_select, eval_select. cbv beta zeta.
  rewrite exec_bind. cbv beta. rewrite exec_ret.
  match goal with
  | |- exec ?m ?d = _ =>
      assert (Hm : forall d', exec m d' = d') by
        (intros d'; destruct (PrerequisiteService.isBlocked _ _ _); reflexivity);
      rewrite Hm; clear Hm
  end.
  destruct (cardsOf s c db1) as [|card rest']; rewrite Hd2; reflexivity.
Qed.

(** The window that the aggregates were computed from is the window of the
    pair in the resulting database. *)
Lemma updateMastery_window :
  window (studentId a) (competenceCode a)
    (exec (MasteryService.updateMastery tz calc now a) db)
  = window (studentId a) (competenceCode a)
      (exec (ErrorPatternService.recordOutcome now a) db).
Proof. rewrite updateMastery_exec. reflexivity. Qed.

Lemma updateMastery_progressOf :
  let s := studentId a in
  let c := competenceCode a in
  let w := window s c (exec (MasteryService.updateMastery tz calc now a) db) in
  progressOf s c (exec (MasteryService.updateMastery tz calc now a) db)
  = match progressOf s c db with
    | prev :: rest =>
        setProgress now a w prev prev
        :: update_where
             (fun p => StudentProgress.id p =? StudentProgress.id prev)
             (setProgress now a w prev) rest
    | [] =>
        [newProgress now a w
           (nextId (map StudentProgress.id (studentProgress db)))]
    end.
Proof.
  intros s c w. subst w s c. rewrite updateMastery_window.
  rewrite updateMastery_exec. cbv zeta.
  set (s := studentId a). set (c := competenceCode a).
  destruct (recordOutcome_tables now a db) as (_ & Hsp & _).
  set (db1 := exec (ErrorPatternService.recordOutcome now a) db) in *.
  assert (Hprev : progressOf s c db1 = progressOf s c db)
    by (unfold progressOf; now rewrite Hsp).
  unfold progressOf at 1. cbn [studentProgress].
  rewrite Hprev, Hsp.
  destruct (progressOf s c db) as [|prev rest] eqn:E.
  - rewrite filter_app. fold (progressOf s c db). rewrite E.
    cbn [filter newProgress StudentProgress.studentId
         StudentProgress.competenceCode app].
    fold s c. now rewrite pair_key_refl.
  - rewrite filter_update_where by reflexivity.
    fold (progressOf s c db). rewrite E.
    cbn [update_where map]. now rewrite Z.eqb_refl.
Qed.

Lemma updateMastery_cardsOf :
  let s := studentId a in
  let c := competenceCode a in
  cardsOf s c (exec (MasteryService.updateMastery tz calc now a) db)
  = match cardsOf s c db with
    | card :: rest =>
        scheduled calc now (quality a) card card
        :: update_where
             (fun k => SpacedRepetitionCard.id k =? SpacedRepetitionCard.id card)
             (scheduled calc now (quality a) card) rest
    | [] =>
        let c0 :=
          defaultCard tz now s c
            (nextId (map SpacedRepetitionCard.id (spacedRepetitionCards db))) in
        [scheduled calc now (quality a) c0 c0]
    end.
Proof.
  intros s c. subst s c. rewrite updateMastery_exec. cbv zeta.
  set (s := studentId a). set (c := competenceCode a).
  destruct (recordOutcome_tables now a db) as (_ & _ & Hk & _).
  set (db1 := exec (ErrorPatternService.recordOutcome now a) db) in *.
  assert (Hprev : cardsOf s c db1 = cardsOf s c db)
    by (unfold cardsOf; now rewrite Hk).
  unfold cardsOf at 1. cbn [spacedRepetitionCards].
  rewrite Hprev, Hk.
  destruct (cardsOf s c db) as [|card rest] eqn:E.
  - rewrite filter_update_where by reflexivity.
    rewrite filter_app. fold (cardsOf s c db). rewrite E.
    cbn [filter defaultCard SpacedRepetitionCard.studentId
         SpacedRepetitionCard.competenceCode app].
    rewrite pair_key_refl. cbn [update_where map SpacedRepetitionCard.id].
    now rewrite Z.eqb_refl.
  - rewrite filter_update_where by reflexivity.
    fold (cardsOf s c db). rewrite E.
    cbn [update_where map]. now rewrite Z.eqb_refl.
Qed.

End UpdateMastery.

(** ** The aggregates *)

Lemma totalAttemptsOf_max w :
  MasteryService.totalAttemptsOf w = Z.max 1 (Z.of_nat (List.length w)).
Proof.
  unfold MasteryService.totalAttemptsOf, or_else.
  destruct (Z.of_nat (List.length w) =? 0) eqn:E; lia.
Qed.

Lemma successfulAttemptsOf_count w :
  MasteryService.successfulAttemptsOf w = countCorrect w.
Proof.
  unfold MasteryService.successfulAttemptsOf.
  induction w as [|o w IH]; [reflexivity|].
  cbn [filter countCorrect]. rewrite <- IH.
  destruct (ExerciseOutcome.isCorrect o); cbn [List.length]; lia.
Qed.

Lemma countCorrect_bounds w : 0 <= countCorrect w <= Z.of_nat (List.length w).
Proof.
  induction w as [|o w IH]; cbn [countCorrect List.length]; [lia|].
  destruct (ExerciseOutcome.isCorrect o); lia.
Qed.

(** ** The mean quality in double precision *)






Opaque JS.double.



Lemma masteryPercentOf_clamp w hints :
  (MasteryService.masteryPercentOf w hints
   == clamp (100 * inject_Z (MasteryService.successfulAttemptsOf w)
             / inject_Z (MasteryService.totalAttemptsOf w)
             - Qmin 10 (2 * inject_Z hints)) 0 100)%Q.
Proof.
  unfold MasteryService.masteryPercentOf, clamp, JS.Math_max, JS.Math_min.
  apply Q.max_compat; [reflexivity|].
  apply Q.min_compat; [reflexivity|].
  unfold Qminus. apply Qplus_comp.
  - unfold Qdiv. ring.
  - apply Qopp_comp. apply Q.min_compat; [reflexivity | ring].
Qed.

Lemma clamp_bounds x lo hi : (lo <= hi -> lo <= clamp x lo hi <= hi)%Q.
Proof.
  intros H. unfold clamp. split.
  - apply Q.le_max_l.
  - apply Q.max_lub; [exact H | apply Q.le_min_l].
Qed.

Lemma StronglySorted_impl {A : Type} (R R' : A -> A -> Prop) l :
  (forall x y, R x y -> R' x y) -> StronglySorted R l -> StronglySorted R' l.
Proof.
  intros H. induction 1 as [|x l Hs IH Hall]; constructor; [exact IH|].
  eapply Forall_impl; [|exact Hall]. intros y. apply H.
Qed.

Lemma newestFirst_sorted l : StronglySorted noOlderThan (newestFirst l).
Proof.
  unfold newestFirst.
  eapply StronglySorted_impl; [|apply orderBy_sorted].
  - intros x y Hxy. unfold noOlderThan. now apply Z.leb_le.
  - intros x y. destruct (Z.leb_spec (ExerciseOutcome.attemptedAt y)
                            (ExerciseOutcome.attemptedAt x)); [now left|].
    right. apply Z.leb_le. lia.
  - intros x y z Hxy Hyz. apply Z.leb_le in Hxy, Hyz. apply Z.leb_le. lia.
Qed.

Lemma window_spec s c db :
  (List.length (window s c db) <= 20)%nat
  /\ StronglySorted noOlderThan (window s c db ++ olderThanWindow s c db)
  /\ Permutation (window s c db ++ olderThanWindow s c db) (outcomesOf s c db)
  /\ Forall (onPair s c) (window s c db).
Proof.
  unfold window, olderThanWindow, limit.
  rewrite firstn_skipn. repeat split.
  - apply firstn_le_length.
  - apply newestFirst_sorted.
  - apply orderBy_perm.
  - rewrite Forall_forall. intros o Ho.
    assert (Hin : In o (outcomesOf s c db)).
    { apply (orderBy_In (fun a b => ExerciseOutcome.attemptedAt b
                                    <=? ExerciseOutcome.attemptedAt a)).
      rewrite <- (firstn_skipn 20 (orderBy _ _)).
      apply in_or_app. left. exact Ho. }
    unfold outcomesOf in Hin. apply filter_In in Hin. destruct Hin as [_ Hk].
    apply andb_true_iff in Hk. destruct Hk as [Hs Hc].
    split; [now apply Z.eqb_eq | now apply String.eqb_eq].
Qed.

Lemma StronglySorted_app_inv {A : Type} (R : A -> A -> Prop) l1 l2 :
  StronglySorted R (l1 ++ l2) -> Forall (fun x => Forall (R x) l2) l1.
Proof.
  induction l1 as [|x l1 IH]; cbn [app]; intros H; [constructor|].
  apply StronglySorted_inv in H. destruct H as [Hrest Hx].
  constructor; [|now apply IH].
  apply Forall_app in Hx. tauto.
Qed.

Lemma window_sub s c db o :
  In o (window s c db) -> In o (exerciseOutcomes db).
Proof.
  intros Ho.
  assert (Hin : In o (outcomesOf s c db)).
  { apply (orderBy_In (fun a b => ExerciseOutcome.attemptedAt b
                                  <=? ExerciseOutcome.attemptedAt a)).
    unfold window, limit, newestFirst in Ho.
    rewrite <- (firstn_skipn 20 (orderBy _ _)).
    apply in_or_app. left. exact Ho. }
  unfold outcomesOf in Hin. apply filter_In in Hin. tauto.
Qed.

Lemma window_covers s c db o :
  In o (exerciseOutcomes db) -> onPair s c o ->
  In o (window s c db)
  \/ (List.length (window s c db) = 20%nat
      /\ Forall (fun x => noOlderThan x o) (window s c db)).
Proof.
  intros Ho [Hs Hc].
  destruct (window_spec s c db) as (_ & Hsorted & Hperm & _).
  assert (Hin : In o (outcomesOf s c db)).
  { unfold outcomesOf. apply filter_In. split; [exact Ho|].
    rewrite Hs, Hc. apply pair_key_refl. }
  apply (Permutation_in _ (Permutation_sym Hperm)) in Hin.
  apply in_app_or in Hin. destruct Hin as [Hin|Hin]; [now left | right].
  split.
  - unfold window, olderThanWindow, limit in *.
    set (l := newestFirst (outcomesOf s c db)) in *.
    rewrite length_firstn.
    assert (Hlen : (20 < List.length l)%nat).
    { destruct (Nat.le_gt_cases (List.length l) 20) as [Hle|Hgt];
        [|exact Hgt].
      rewrite (skipn_all2 l Hle) in Hin. contradiction. }
    lia.
  - apply StronglySorted_app_inv in Hsorted.
    eapply Forall_impl; [|exact Hsorted].
    intros x Hx. rewrite Forall_forall in Hx. now apply Hx.
Qed.

(** C1.  After every [updateMastery] call, for the pair of the recorded
    attempt: the outcome table is the earlier table followed by the
    recorded attempt; the window holds at most 20 rows of that table, all
    of the pair, newest first; every row of the pair in the table is in the
    window unless the window is full of rows that are at least as recent,
    so the window is never empty and holds the recorded attempt unless 20
    rows of the pair are dated now or later.  The stored row has
    [totalAttempts = max(1, window count)], [successfulAttempts] = the
    number of correct outcomes of the window, and [progressPercent] is
    [clamp(100 * successfulAttempts / totalAttempts - min(10, 2 *
    hintsUsed), 0, 100)], with the [hintsUsed] of the attempt just
    recorded, up to the rounding of double-precision arithmetic; so
    [progressPercent] is within [0, 100] and
    [successfulAttempts <= totalAttempts]. *)
Theorem C1_updateMastery_window_aggregates
    (tz : Calendar)
    (calc : Date -> SpacedRepetitionCard.row -> Q
            -> SuperMemoService.SuperMemoResult)
    (now : Date) (a : OutcomeInput) (db : Db) :
  let s := studentId a in
  let c := competenceCode a in
  let db' := exec (MasteryService.updateMastery tz calc now a) db in
  let w := window s c db' in
  let recorded := outcomeRow now a db in
  exerciseOutcomes db' = (exerciseOutcomes db ++ [recorded])%list
  /\ (1 <= List.length w <= 20)%nat
  /\ StronglySorted noOlderThan (w ++ olderThanWindow s c db')
  /\ Permutation (w ++ olderThanWindow s c db') (outcomesOf s c db')
  /\ Forall (fun o => In o (exerciseOutcomes db') /\ onPair s c o) w
  /\ Forall (fun o =>
               onPair s c o ->
               In o w
               \/ (List.length w = 20%nat
                   /\ Forall (fun x => noOlderThan x o) w))
       (exerciseOutcomes db')
  /\ (In recorded w
      \/ (List.length w = 20%nat
          /\ Forall (fun x => now <= ExerciseOutcome.attemptedAt x) w))
  /\ exists p,
       progressRow s c db' = Some p
       /\ StudentProgress.totalAttempts p = Z.max 1 (Z.of_nat (List.length w))
       /\ StudentProgress.successfulAttempts p = countCorrect w
       /\ upToRounding (StudentProgress.progressPercent p)
            (clamp (100 * inject_Z (StudentProgress.successfulAttempts p)
                    / inject_Z (StudentProgress.totalAttempts p)
                    - Qmin 10 (2 * inject_Z (hintsUsed a))) 0 100)
       /\ (0 <= StudentProgress.progressPercent p <= 100)%Q
       /\ 0 <= StudentProgress.successfulAttempts p
          <= StudentProgress.totalAttempts p.
Proof.
  intros s c db' w recorded.
  destruct (window_spec s c db') as (Hlen & Hsorted & Hperm & Hpair).
  assert (Htable : exerciseOutcomes db'
                   = (exerciseOutcomes db ++ [recorded])%list).
  { subst db'. rewrite updateMastery_exec. cbv zeta.
    cbn [exerciseOutcomes].
    now destruct (recordOutcome_tables now a db) as (-> & _). }
  assert (Hrec : In recorded (exerciseOutcomes db') /\ onPair s c recorded).
  { rewrite Htable. split; [apply in_or_app; right; now left|].
    now split. }
  assert (Hcover : In recorded w
                   \/ (List.length w = 20%nat
                       /\ Forall (fun x => noOlderThan x recorded) w)).
  { apply window_covers; tauto. }
  split; [exact Htable|].
  split.
  { split; [|exact Hlen].
    destruct Hcover as [Hin|[H20 _]]; [|lia].
    destruct w; [contradiction | cbn [List.length]; lia]. }
  split; [exact Hsorted|]. split; [exact Hperm|].
  split.
  { rewrite Forall_forall in *. intros o Ho.
    split; [apply (window_sub s c); exact Ho | apply Hpair; exact Ho]. }
  split.
  { apply Forall_forall. intros o Ho Hp. apply window_covers; assumption. }
  split; [exact Hcover|].
  assert (Hrow : exists p,
             progressRow s c db' = Some p
             /\ StudentProgress.totalAttempts p = MasteryService.totalAttemptsOf w
             /\ StudentProgress.successfulAttempts p
                = MasteryService.successfulAttemptsOf w
             /\ StudentProgress.progressPercent p
                = MasteryService.masteryPercentOf w (hintsUsed a)).
  { unfold progressRow. subst db' s c.
    rewrite updateMastery_progressOf. cbv zeta. fold w.
    destruct (progressOf _ _ db); eexists; (split; [reflexivity|]);
      repeat split. }
  destruct Hrow as (p & Hp & Ht & Hs & Hpct).
  exists p. split; [exact Hp|].
  rewrite Ht, Hs, Hpct.
  split; [apply totalAttemptsOf_max|].
  split; [apply successfulAttemptsOf_count|].
  split.
  { unfold upToRounding, roundingTolerance.
    rewrite masteryPercentOf_clamp.
    set (exact := clamp _ 0 100). split; lra. }
  split.
  - rewrite masteryPercentOf_clamp. apply clamp_bounds. discriminate.
  - rewrite successfulAttemptsOf_count, totalAttemptsOf_max.
    pose proof (countCorrect_bounds w). lia.
Qed.

(** The twentieth attempt after nineteen: the window holds the twenty
    outcomes, the recorded one among them, 18 of them correct. *)
Lemma C1_updateMastery_window_aggregates_witness :
  let db' :=
    exec (MasteryService.updateMastery utc SuperMemoService.calculateNextReview
            20000 (attempt true 4%Q)) dbNineteen in
  In (outcomeRow 20000 (attempt true 4%Q) dbNineteen)
    (window 1 "CP.FR.L1.1" db')
  /\ exists p,
       progressRow 1 "CP.FR.L1.1" db' = Some p
       /\ StudentProgress.totalAttempts p = 20
       /\ StudentProgress.successfulAttempts p = 18.
Proof.
  destruct (C1_updateMastery_window_aggregates utc
              SuperMemoService.calculateNextReview 20000 (attempt true 4%Q)
              dbNineteen)
    as (_ & _ & _ & _ & _ & _ & Hrecorded & p & Hp & Ht & Hs & _).
  split.
  - destruct Hrecorded as [Hin|[_ Hall]]; [exact Hin|].
    exfalso. revert Hall. vm_compute. intros Hall.
    inversion Hall as [|? ? _ Hrest]; subst.
    inversion Hrest as [|? ? Hold _]; subst.
    now apply Hold.
  - exists p. split; [exact Hp|]. split.
    + rewrite Ht. vm_compute. reflexivity.
    + rewrite Hs. vm_compute. reflexivity.
Defined.

(** ** Classification *)

Lemma Qgeb_true x y : Qgeb x y = true <-> (y <= x)%Q.
Proof. unfold Qgeb. apply Qle_bool_iff. Qed.

Lemma Qgeb_false x y : Qgeb x y = false <-> ~ (y <= x)%Q.
Proof.
  unfold Qgeb. rewrite <- Qle_bool_iff. now rewrite not_true_iff_false.
Qed.

Lemma Qltb_true x y : Qltb x y = true <-> (x < y)%Q.
Proof.
  unfold Qltb. rewrite negb_true_iff, <- not_true_iff_false, Qle_bool_iff.
  split; [apply Qnot_le_lt | apply Qlt_not_le].
Qed.

Lemma masteryLevelOf_spec pct avg avg' :
  (avg == avg')%Q ->
  (MasteryService.masteryLevelOf pct avg = mastered
   <-> (90 <= pct /\ 3 <= avg')%Q)
  /\ (MasteryService.masteryLevelOf pct avg = in_progress
      <-> ~ (90 <= pct /\ 3 <= avg')%Q /\ (50 <= pct)%Q)
  /\ (MasteryService.masteryLevelOf pct avg = not_started
      <-> ~ (90 <= pct /\ 3 <= avg')%Q /\ ~ (50 <= pct)%Q).
Proof.
  intros E. rewrite <- E. clear E avg'.
  unfold MasteryService.masteryLevelOf.
  destruct (Qgeb pct 90) eqn:E90; destruct (Qgeb avg 3) eqn:E3;
    destruct (Qgeb pct 50) eqn:E50; cbn [andb];
    rewrite ?Qgeb_true, ?Qgeb_false in *;
    repeat split; intros; try discriminate; try tauto.
Qed.

Lemma needsReviewOf_spec pct avg avg' :
  (avg == avg')%Q ->
  MasteryService.needsReviewOf pct avg = true
  <-> (pct < 80 \/ avg' < 2.5)%Q.
Proof.
  intros E. rewrite <- E.
  unfold MasteryService.needsReviewOf.
  now rewrite orb_true_iff, !Qltb_true.
Qed.

(** Rounding shows: the qualities 3.8, 4.6 and 0.6 have the exact mean 3;
    added in this order in double precision they give 8.999999999999998
    and the mean 2.9999999999999996, added in the opposite order they give
    9 and the mean 3. *)
Lemma doubleMean_rounds :
  (meanQuality (graded [3.8; 4.6; 0.6]) == 3)%Q
  /\ (doubleMean (graded [3.8; 4.6; 0.6])
      == 6755399441055743 # 2251799813685248)%Q
  /\ (doubleMean (graded [3.8; 4.6; 0.6]) < 3)%Q
  /\ (doubleMean (graded [0.6; 4.6; 3.8]) == 3)%Q.
Proof. repeat split; vm_compute; reflexivity. Qed.







(** ** [masteredAt] *)

Lemma updateMastery_masteredAt tz calc now a db :
  let s := studentId a in
  let c := competenceCode a in
  exists p,
    progressRow s c (exec (MasteryService.updateMastery tz calc now a) db) = Some p
    /\ stickyMasteredAt (progressRow s c db) p now.
Proof.
  intros s c. unfold progressRow. subst s c.
  rewrite updateMastery_progressOf. cbv zeta.
  destruct (progressOf _ _ db) as [|prev rest];
    eexists; (split; [reflexivity|]); cbn [hd_error stickyMasteredAt].
  - cbn [newProgress StudentProgress.masteredAt StudentProgress.masteryLevel].
    reflexivity.
  - destruct prev as [? ? ? ? ? ? ? ? ? ? ? [t|] ? ? ?];
      cbn [setProgress StudentProgress.masteredAt StudentProgress.masteryLevel];
      [destruct (MasteryLevel_eqb _ _); reflexivity | reflexivity].
Qed.

(** C4.  [masteredAt] is sticky.  One [updateMastery] call leaves the
    [masteredAt] of the pair as it found it when it was set, and otherwise
    sets it to the current time exactly when the recomputed level is
    [mastered]; so through any sequence of calls on the pair a [masteredAt]
    that is set keeps its value, whatever the later levels are. *)
Theorem C4_masteredAt_sticky
    (tz : Calendar)
    (calc : Date -> SpacedRepetitionCard.row -> Q
            -> SuperMemoService.SuperMemoResult)
    (s : Z) (c : string) :
  (forall now a db,
     studentId a = s -> competenceCode a = c ->
     exists p,
       progressRow s c (exec (MasteryService.updateMastery tz calc now a) db)
       = Some p
       /\ stickyMasteredAt (progressRow s c db) p now)
  /\ (forall calls db prev t,
        Forall (callOnPair s c) calls ->
        progressRow s c db = Some prev ->
        StudentProgress.masteredAt prev = Some t ->
        exists p,
          progressRow s c (runUpdates tz calc calls db) = Some p
          /\ StudentProgress.masteredAt p = Some t).
Proof.
  split.
  - intros now a db <- <-. apply updateMastery_masteredAt.
  - intros calls. induction calls as [|[now a] calls IH];
      intros db prev t Hcalls Hprev Ht.
    + exists prev. now split.
    + inversion Hcalls as [|? ? [Hs Hc] Hrest]; subst. cbn [fst snd] in *.
      destruct (updateMastery_masteredAt tz calc now a db) as (p & Hp & Hsticky).
      cbv zeta in Hp, Hsticky. rewrite Hprev in Hsticky.
      cbn [runUpdates fold_left fst snd].
      apply (IH _ p t Hrest Hp).
      destruct prev as [? ? ? ? ? ? ? ? ? ? ? m ? ? ?].
      cbn [stickyMasteredAt StudentProgress.masteredAt] in *. now subst m.
Qed.

(** Two failed attempts after the skill was mastered at time 1000. *)
Lemma C4_masteredAt_sticky_witness :
  exists p,
    progressRow 1 "CP.FR.L1.1"
      (runUpdates utc SuperMemoService.calculateNextReview
         [(2000, attempt false 1%Q); (3000, attempt false 1%Q)] dbMastered)
    = Some p
    /\ StudentProgress.masteredAt p = Some 1000.
Proof.
  eapply (proj2 (C4_masteredAt_sticky utc SuperMemoService.calculateNextReview
                   1 "CP.FR.L1.1")).
  - repeat constructor.
  - vm_compute. reflexivity.
  - reflexivity.
Defined.


(** Two failed attempts after mastery do leave the mastered level: the
    level is back to [not_started] while [masteredAt] still reads 1000. *)
Example masteredAt_survives_regression :
  option_map (fun p => (StudentProgress.masteryLevel p,
                        StudentProgress.masteredAt p))
    (progressRow 1 "CP.FR.L1.1"
       (runUpdates utc SuperMemoService.calculateNextReview
          [(2000, attempt false 1%Q); (3000, attempt false 1%Q)] dbMastered))
  = Some (not_started, Some 1000).
Proof. vm_compute. reflexivity. Qed.

(** ** Review cards *)

Lemma Qltb_compat x x' y : (x == x')%Q -> Qltb x y = Qltb x' y.
Proof.
  intros E. destruct (Qltb x' y) eqn:H.
  - apply Qltb_true. rewrite E. now apply Qltb_true.
  - apply not_true_iff_false. rewrite Qltb_true, E, <- Qltb_true. congruence.
Qed.

Lemma newEasinessFactor_floor EF q :
  (1.3 <= SuperMemoService.newEasinessFactor EF q)%Q.
Proof. unfold SuperMemoService.newEasinessFactor. apply Q.le_max_l. Qed.

Lemma updateMastery_creates_card tz calc now a db :
  let s := studentId a in
  let c := competenceCode a in
  let c0 :=
    defaultCard tz now s c
      (nextId (map SpacedRepetitionCard.id (spacedRepetitionCards db))) in
  cardsOf s c db = [] ->
  spacedRepetitionCards (exec (MasteryService.updateMastery tz calc now a) db)
  = (spacedRepetitionCards db ++ [scheduled calc now (quality a) c0 c0])%list.
Proof.
  intros s c c0 Hnone. rewrite updateMastery_exec. cbv zeta.
  cbn [spacedRepetitionCards].
  destruct (recordOutcome_tables now a db) as (_ & _ & Hk & _).
  set (db1 := exec (ErrorPatternService.recordOutcome now a) db) in *.
  assert (Hprev : cardsOf (studentId a) (competenceCode a) db1 = [])
    by (unfold cardsOf; rewrite Hk; exact Hnone).
  rewrite Hprev, Hk. fold s c. fold c0.
  rewrite update_where_app. f_equal.
  - apply update_where_none.
    pose proof (nextId_fresh
                  (map SpacedRepetitionCard.id (spacedRepetitionCards db))) as Hf.
    rewrite Forall_map in Hf. eapply Forall_impl; [|exact Hf].
    intros k Hlt. cbv beta in Hlt. apply Z.eqb_neq.
    subst c0. cbn [defaultCard SpacedRepetitionCard.id]. lia.
  - cbn [update_where map]. now rewrite Z.eqb_refl.
Qed.

(** C7.  When the pipeline runs for a pair that has no ReviewCard,
    [createCard] inserts exactly one card, with easiness factor 2.5,
    repetition 0, interval 1 day and next review one day from now, and the
    scheduler is applied to that card: afterwards the table holds one more
    row, the only card of the pair.  "One day from now" is what
    [setDate(getDate() + 1)] yields on the calendar of the host, which is
    24 hours from now on a host without clock changes.  With the scheduler
    of the specification and a first outcome of quality 2 the card ends
    with repetition 0, interval 1 day and next review one day (24 hours)
    from now. *)
Theorem C7_first_attempt_creates_default_card
    (tz : Calendar)
    (calc : Date -> SpacedRepetitionCard.row -> Q
            -> SuperMemoService.SuperMemoResult)
    (now : Date) (a : OutcomeInput) (db : Db) :
  let s := studentId a in
  let c := competenceCode a in
  let c0 :=
    defaultCard tz now s c
      (nextId (map SpacedRepetitionCard.id (spacedRepetitionCards db))) in
  cardsOf s c db = [] ->
  (eval (ReviewQueueRepo.createCard tz now s c) db = c0
   /\ spacedRepetitionCards (exec (ReviewQueueRepo.createCard tz now s c) db)
      = (spacedRepetitionCards db ++ [c0])%list
   /\ SpacedRepetitionCard.easinessFactor c0 = (2.5)%Q
   /\ SpacedRepetitionCard.repetitionNumber c0 = 0
   /\ SpacedRepetitionCard.intervalDays c0 = 1
   /\ SpacedRepetitionCard.nextReviewAt c0 = tz now 1
   /\ utc now 1 = now + DAY_MS)
  /\ (let db' := exec (MasteryService.updateMastery tz calc now a) db in
      spacedRepetitionCards db'
      = (spacedRepetitionCards db ++ [scheduled calc now (quality a) c0 c0])%list
      /\ cardsOf s c db' = [scheduled calc now (quality a) c0 c0])
  /\ (let db' :=
        exec (MasteryService.updateMastery tz
                SuperMemoService.calculateNextReview now a) db in
      (quality a == 2)%Q ->
      exists k,
        cardsOf s c db' = [k]
        /\ SpacedRepetitionCard.repetitionNumber k = 0
        /\ SpacedRepetitionCard.intervalDays k = 1
        /\ SpacedRepetitionCard.nextReviewAt k = now + DAY_MS).
Proof.
  intros s c c0 Hnone.
  assert (Hcards : forall calc',
             cardsOf s c (exec (MasteryService.updateMastery tz calc' now a) db)
             = [scheduled calc' now (quality a) c0 c0]).
  { intros calc'. subst s c. rewrite updateMastery_cardsOf. cbv zeta.
    now rewrite Hnone. }
  split; [|split].
  - repeat split.
  - cbv zeta. split; [now apply updateMastery_creates_card | apply Hcards].
  - cbv zeta. intros Hq. eexists. split; [apply Hcards|].
    cbn [scheduled SuperMemoService.calculateNextReview
         SpacedRepetitionCard.repetitionNumber SpacedRepetitionCard.intervalDays
         SpacedRepetitionCard.nextReviewAt SuperMemoService.repetitionNumber
         SuperMemoService.interval SuperMemoService.nextReviewDate].
    rewrite (Qltb_compat _ _ 3 Hq).
    change (Qltb 2 3) with true. cbv iota.
    repeat split.
Qed.

(** Scenario B: a first attempt of quality 2 in the empty database. *)
Lemma C7_first_attempt_creates_default_card_witness :
  exists k,
    cardsOf 1 "CP.FR.L1.1"
      (exec (MasteryService.updateMastery utc SuperMemoService.calculateNextReview
               1000 (attempt false 2%Q)) emptyDb) = [k]
    /\ SpacedRepetitionCard.repetitionNumber k = 0
    /\ SpacedRepetitionCard.intervalDays k = 1
    /\ SpacedRepetitionCard.nextReviewAt k = 1000 + DAY_MS.
Proof.
  destruct (C7_first_attempt_creates_default_card utc
              SuperMemoService.calculateNextReview 1000 (attempt false 2%Q)
              emptyDb eq_refl) as (_ & _ & Hq).
  apply Hq. reflexivity.
Defined.

Lemma scheduleTrace_floor card steps :
  Forall (easinessAtLeast (1.3)%Q) (scheduleTrace card steps).
Proof.
  revert card. induction steps as [|[now q] steps IH]; intros card;
    cbn [scheduleTrace]; constructor.
  - apply newEasinessFactor_floor.
  - apply IH.
Qed.

(** C9.  With the scheduler of the specification, each scheduling step
    stores [max(1.3, EF + (0.1 - (5 - q) * (0.08 + (5 - q) * 0.02)))], so
    after any sequence of scheduling calls, from any card and with any
    qualities, every stored easiness factor is at least 1.3; a run of
    quality-0 outcomes from a fresh card sits exactly at 1.3 from the second
    one on; and the card of the pair after any [updateMastery] call has an
    easiness factor of at least 1.3. *)
Theorem C9_easiness_factor_floor :
  (forall now card q,
     SuperMemoService.easinessFactor
       (SuperMemoService.calculateNextReview now card q)
     = Qmax (1.3)
         (SpacedRepetitionCard.easinessFactor card
          + (0.1 - (5 - q) * (0.08 + (5 - q) * 0.02)))%Q)
  /\ (forall card steps,
        Forall (easinessAtLeast (1.3)%Q) (scheduleTrace card steps))
  /\ (forall tz now s c id n,
        Forall (fun k => (SpacedRepetitionCard.easinessFactor k == 1.3)%Q)
          (skipn 1 (scheduleTrace (defaultCard tz now s c id)
                      (repeat (now, 0%Q) n))))
  /\ (forall tz now a db,
        match cardRow (studentId a) (competenceCode a)
                (exec (MasteryService.updateMastery tz
                         SuperMemoService.calculateNextReview now a) db) with
        | Some k => easinessAtLeast (1.3)%Q k
        | None => False
        end).
Proof.
  split; [reflexivity|]. split; [apply scheduleTrace_floor|]. split.
  - intros tz now s c id n. destruct n as [|n]; [constructor|].
    cbn [repeat scheduleTrace skipn].
    set (k1 := scheduled _ now 0%Q _ _).
    assert (H1 : (SpacedRepetitionCard.easinessFactor k1 <= 1.7)%Q)
      by (vm_compute; discriminate).
    clearbody k1. revert k1 H1.
    induction n as [|n IH]; intros k H; cbn [repeat scheduleTrace]; constructor.
    + cbn [scheduled SpacedRepetitionCard.easinessFactor
           SuperMemoService.calculateNextReview SuperMemoService.easinessFactor].
      unfold SuperMemoService.newEasinessFactor.
      apply Q.max_l.
      apply Qle_trans with (1.7 + (0.1 - (5 - 0) * (0.08 + (5 - 0) * 0.02)))%Q;
        [|discriminate].
      apply Qplus_le_compat; [exact H | apply Qle_refl].
    + apply IH.
      cbn [scheduled SpacedRepetitionCard.easinessFactor
           SuperMemoService.calculateNextReview SuperMemoService.easinessFactor].
      unfold SuperMemoService.newEasinessFactor.
      apply Q.max_lub; [discriminate|].
      apply Qle_trans with (1.7 + (0.1 - (5 - 0) * (0.08 + (5 - 0) * 0.02)))%Q;
        [|discriminate].
      apply Qplus_le_compat; [exact H | apply Qle_refl].
  - intros tz now a db. unfold cardRow.
    rewrite updateMastery_cardsOf. cbv zeta.
    destruct (cardsOf _ _ db); cbn [hd_error]; apply newEasinessFactor_floor.
Qed.

(** ** Recording an outcome *)

Lemma existsb_update_where {A : Type} (f cond : A -> bool) (set : A -> A) l :
  (forall r, f (set r) = f r) ->
  existsb f (update_where cond set l) = existsb f l.
Proof.
  intros H. unfold update_where.
  induction l as [|r l IH]; cbn [map existsb]; [reflexivity|].
  rewrite IH. destruct (cond r); [now rewrite H | reflexivity].
Qed.

Section RecordOutcome.
Variables (now : Date) (a : OutcomeInput).

(** One iteration of the loop over the error tags. *)
Let tagStep (tag : string) : DbM unit :=
  existing <- select (fun db =>
    limit 1 (filter (fun e =>
      (ErrorPattern.studentId e =? studentId a)
      && String.eqb (ErrorPattern.competenceCode e) (competenceCode a)
      && String.eqb (ErrorPattern.tag e) tag) (errorPatterns db))) ;;
  match existing with
  | e0 :: _ =>
      update_errorPatterns
        (fun e => ErrorPattern.id e =? ErrorPattern.id e0)
        (fun e => ErrorPattern.mk (ErrorPattern.id e)
                    (ErrorPattern.studentId e)
                    (ErrorPattern.competenceCode e) (ErrorPattern.tag e)
                    (or_else (ErrorPattern.occurrences e0) 0 + 1) now)
  | [] =>
      insert_errorPattern (fun id =>
        ErrorPattern.mk id (studentId a) (competenceCode a) tag 1 now)
  end.

Lemma tagStep_keeps s c t tag db :
  hasPattern s c db t -> hasPattern s c (exec (tagStep tag) db) t.
Proof.
  unfold hasPattern, tagStep. intros H.
  rewrite exec_bind, exec_select, eval_select.
  destruct (limit 1 _) as [|e0 ?].
  - cbn [exec snd insert_errorPattern errorPatterns].
    rewrite existsb_app, H. reflexivity.
  - cbn [exec snd update_errorPatterns errorPatterns].
    rewrite existsb_update_where; [exact H | reflexivity].
Qed.

Lemma tagStep_sets tag db :
  hasPattern (studentId a) (competenceCode a) (exec (tagStep tag) db) tag.
Proof.
  unfold hasPattern, tagStep.
  rewrite exec_bind, exec_select, eval_select.
  destruct (limit 1 _) as [|e0 ?] eqn:E.
  - cbn [exec snd insert_errorPattern errorPatterns].
    rewrite existsb_app. apply orb_true_iff. right.
    cbn [existsb]. unfold patternKey.
    cbn [ErrorPattern.studentId ErrorPattern.competenceCode ErrorPattern.tag].
    now rewrite Z.eqb_refl, !String.eqb_refl.
  - cbn [exec snd update_errorPatterns errorPatterns].
    rewrite existsb_update_where by reflexivity.
    apply existsb_exists. exists e0.
    assert (Hin' : In e0 (filter (patternKey (studentId a) (competenceCode a) tag)
                            (errorPatterns db))).
    { rewrite <- (firstn_skipn 1 (filter _ _)). apply in_or_app. left.
      unfold patternKey. unfold limit in E. rewrite E. now left. }
    apply filter_In in Hin'. exact Hin'.
Qed.

Lemma tagLoop_keeps s c t tags db :
  hasPattern s c db t -> hasPattern s c (exec (forM_ tags tagStep) db) t.
Proof.
  revert db. induction tags as [|tag tags IH]; intros db H; cbn [forM_].
  - exact H.
  - rewrite exec_bind. apply IH. now apply tagStep_keeps.
Qed.

Lemma tagLoop_sets tags db :
  Forall (hasPattern (studentId a) (competenceCode a)
            (exec (forM_ tags tagStep) db)) tags.
Proof.
  revert db. induction tags as [|tag tags IH]; intros db; cbn [forM_];
    constructor.
  - rewrite exec_bind. apply tagLoop_keeps. apply tagStep_sets.
  - rewrite exec_bind. apply IH.
Qed.

Lemma recordOutcome_patterns db :
  Forall (hasPattern (studentId a) (competenceCode a)
            (exec (ErrorPatternService.recordOutcome now a) db))
    (errorTags a).
Proof.
  unfold ErrorPatternService.recordOutcome.
  rewrite !exec_bind, exec_ret. fold tagStep.
  destruct (errorTags a) as [|tag tags] eqn:E; [constructor|].
  change (0 <? Z.of_nat (List.length (tag :: tags))) with true. cbv iota.
  apply tagLoop_sets.
Qed.

End RecordOutcome.

(** C3 (as amended).  [recordOutcome] checks nothing: for every outcome,
    whatever its quality, hint count and duration, it returns the inserted
    row, which carries those three values as given and is the one row added
    to the outcomes; afterwards an ErrorPattern row exists for each of its
    error tags; and [updateMastery] on the same outcome leaves that Outcome
    row, a Progress row and a ReviewCard for the pair. *)
Theorem C3_recordOutcome_accepts_every_outcome
    (tz : Calendar)
    (calc : Date -> SpacedRepetitionCard.row -> Q
            -> SuperMemoService.SuperMemoResult)
    (now : Date) (a : OutcomeInput) (db : Db) :
  let s := studentId a in
  let c := competenceCode a in
  let row := eval (ErrorPatternService.recordOutcome now a) db in
  let db1 := exec (ErrorPatternService.recordOutcome now a) db in
  let db' := exec (MasteryService.updateMastery tz calc now a) db in
  exerciseOutcomes db1 = (exerciseOutcomes db ++ [row])%list
  /\ ExerciseOutcome.quality row = quality a
  /\ ExerciseOutcome.hintsUsed row = hintsUsed a
  /\ ExerciseOutcome.timeSpentSec row = timeSpentSec a
  /\ Forall (hasPattern s c db1) (errorTags a)
  /\ exerciseOutcomes db' = (exerciseOutcomes db ++ [row])%list
  /\ (exists p, progressRow s c db' = Some p)
  /\ (exists k, cardRow s c db' = Some k).
Proof.
  intros s c row db1 db'.
  destruct (recordOutcome_tables now a db) as (Ho & _ & _ & _ & Hrow).
  fold db1 in Ho. fold row in Hrow. rewrite Hrow.
  split; [exact Ho|]. do 3 (split; [reflexivity|]).
  split; [apply recordOutcome_patterns|].
  split; [subst db'; rewrite updateMastery_exec; exact Ho|].
  split.
  - unfold progressRow. subst db' s c. rewrite updateMastery_progressOf.
    cbv zeta. destruct (progressOf _ _ db); eexists; reflexivity.
  - unfold cardRow. subst db' s c. rewrite updateMastery_cardsOf.
    cbv zeta. destruct (cardsOf _ _ db); eexists; reflexivity.
Qed.

(** C3 as stated fails: the attempt with quality 7, -1 hints and -5 seconds
    is recorded in the empty database like any other. *)
Lemma C3_counterexample : ~ rejectedBeforeAnyWrite 1000 malformedAttempt emptyDb.
Proof.
  intros H.
  assert (Hbad : malformed malformedAttempt) by (right; left; reflexivity).
  destruct (H Hbad) as [[Hout _] _].
  vm_compute in Hout. discriminate Hout.
Qed.

(** ** Prerequisites and blocking *)

Lemma Set_from_In seen arr x :
  In x (JS.Set_from seen arr) <-> In x arr /\ ~ In x seen.
Proof.
  revert seen. induction arr as [|y arr IH]; intros seen; cbn [JS.Set_from].
  - split; [intros [] | intros [[] _]].
  - destruct (existsb (String.eqb y) seen) eqn:E.
    + apply existsb_exists in E. destruct E as (z & Hz & Hyz).
      apply String.eqb_eq in Hyz. subst z.
      rewrite IH. cbn [In]. split; [tauto|].
      intros [[<-|H] Hn]; [contradiction | tauto].
    + assert (Hy : ~ In y seen).
      { intros Hy.
        assert (existsb (String.eqb y) seen = true)
          by (apply existsb_exists; exists y; split;
              [exact Hy | apply String.eqb_refl]).
        congruence. }
      cbn [In]. rewrite IH. cbn [In]. split.
      * intros [<-|[H Hn]]; [tauto|]. split; [tauto|]. intros Hx. apply Hn. tauto.
      * intros [[<-|H] Hn]; [tauto|].
        destruct (string_dec y x) as [->|Hne]; [tauto|].
        right. split; [exact H|]. intros [->|Hs]; tauto.
Qed.

Lemma Set_from_NoDup seen arr :
  NoDup (JS.Set_from seen arr).
Proof.
  revert seen. induction arr as [|y arr IH]; intros seen; cbn [JS.Set_from].
  - constructor.
  - destruct (existsb (String.eqb y) seen); [apply IH|].
    constructor; [|apply IH].
    rewrite Set_from_In. cbn [In]. tauto.
Qed.

Lemma dedupe_In arr x : In x (JS.dedupe arr) <-> In x arr.
Proof. unfold JS.dedupe. rewrite Set_from_In. cbn [In]. tauto. Qed.

Lemma dedupe_NoDup arr : NoDup (JS.dedupe arr).
Proof. apply Set_from_NoDup. Qed.

Section Blocking.
Variable cp : CPReference.
Variable ce1 : CE1CompetenceFramework.
Variable ce2 : CompetenceFramework.

(** The loop of [isBlocked] keeps the prerequisites that are not mastered,
    in order, in both lists. *)
Lemma isBlocked_filter student code db :
  let r := CompetenceFrameworkService.isBlocked cp ce1 ce2 student code db in
  let unmet :=
    filter (fun p => CompetenceFrameworkService.notMastered student p db)
      (CompetenceFrameworkService.getPrerequisites cp ce1 ce2 code db) in
  CompetenceFrameworkService.blockingPrerequisites r = unmet
  /\ CompetenceFrameworkService.missingPrerequisites r = unmet
  /\ CompetenceFrameworkService.isBlocked_ r
     = match unmet with [] => false | _ :: _ => true end.
Proof.
  cbv zeta. unfold CompetenceFrameworkService.isBlocked.
  set (prereqs := CompetenceFrameworkService.getPrerequisites cp ce1 ce2 code db).
  rewrite (for_of_ext _
             (fun prereqCode (acc : list string * list string) =>
                (if CompetenceFrameworkService.notMastered student prereqCode db
                 then (JS.push prereqCode (fst acc), JS.push prereqCode (snd acc))
                 else acc, JS.Normal))).
  2: { intros x [b m]. cbn [fst snd].
       destruct (CompetenceFrameworkService.notMastered student x db);
         reflexivity. }
  rewrite for_of_normal. cbn [fst].
  assert (H : forall l b m,
             fold_left
               (fun (acc : list string * list string) x =>
                  if CompetenceFrameworkService.notMastered student x db
                  then (JS.push x (fst acc), JS.push x (snd acc)) else acc)
               l (b, m)
             = ((b ++ filter (fun p => CompetenceFrameworkService.notMastered
                                         student p db) l)%list,
                (m ++ filter (fun p => CompetenceFrameworkService.notMastered
                                         student p db) l)%list)).
  { induction l as [|x l IH]; intros b m; cbn [fold_left filter].
    - now rewrite !app_nil_r.
    - destruct (CompetenceFrameworkService.notMastered student x db);
        cbn [fst snd]; rewrite IH; unfold JS.push;
        [now rewrite <- !app_assoc | reflexivity]. }
  rewrite H. cbn [app].
  cbn [CompetenceFrameworkService.blockingPrerequisites
       CompetenceFrameworkService.missingPrerequisites
       CompetenceFrameworkService.isBlocked_].
  repeat split. destruct (filter _ prereqs); reflexivity.
Qed.

(** The learner is blocked exactly when some prerequisite returned by
    [getPrerequisites] has no Progress row or a first row that is not
    [mastered]. *)
Lemma isBlocked_iff student code db :
  CompetenceFrameworkService.isBlocked_
    (CompetenceFrameworkService.isBlocked cp ce1 ce2 student code db) = true
  <-> exists p,
        In p (CompetenceFrameworkService.getPrerequisites cp ce1 ce2 code db)
        /\ CompetenceFrameworkService.notMastered student p db = true.
Proof.
  destruct (isBlocked_filter student code db) as (_ & _ & ->).
  destruct (filter _ _) as [|p rest] eqn:E.
  - split; [discriminate|]. intros (p & Hin & Hp).
    assert (Hf : In p [])
      by (rewrite <- E;
          apply (proj2 (filter_In
                   (fun q => CompetenceFrameworkService.notMastered student q db)
                   p _)); now split).
    destruct Hf.
  - split; [|reflexivity]. intros _. exists p.
    apply (proj1 (filter_In
                    (fun q => CompetenceFrameworkService.notMastered student q db)
                    p _)).
    rewrite E. now left.
Qed.

(** [getPrerequisites] is the duplicate-free union of the database edges
    and of the prerequisites of the competence that [getCompetenceByCode]
    resolves. *)
Lemma getPrerequisites_union code db p :
  In p (CompetenceFrameworkService.getPrerequisites cp ce1 ce2 code db)
  <-> In p (map CompetencePrerequisite.prerequisiteCode
              (filter (fun e => String.eqb
                                  (CompetencePrerequisite.competenceCode e) code)
                 (competencePrerequisites db)))
      \/ In p (match CompetenceFrameworkService.getCompetenceByCode cp ce1 ce2
                       code with
               | Some u => CompetenceFrameworkService.prerequis u
               | None => []
               end).
Proof.
  unfold CompetenceFrameworkService.getPrerequisites.
  rewrite dedupe_In. apply in_app_iff.
Qed.

(** Scenario C: a skill whose only prerequisite has no Progress row. *)
Lemma isBlocked_single_missing student code db prereq :
  CompetenceFrameworkService.getPrerequisites cp ce1 ce2 code db = [prereq] ->
  progressOf student prereq db = [] ->
  CompetenceFrameworkService.isBlocked cp ce1 ce2 student code db
  = {| CompetenceFrameworkService.isBlocked_ := true;
       CompetenceFrameworkService.blockingPrerequisites := [prereq];
       CompetenceFrameworkService.missingPrerequisites := [prereq] |}.
Proof.
  intros Hpre Hrow. unfold CompetenceFrameworkService.isBlocked.
  rewrite Hpre. cbn [JS.for_of].
  unfold CompetenceFrameworkService.notMastered. rewrite Hrow. reflexivity.
Qed.

End Blocking.

(** C5 (the code at the failing input).  CE1.FR.O1.1 declares the CP
    prerequisites CP.FR.O1.1 and CP.FR.O1.2 in the CE1 table.  Whenever the
    CP table has no entry under that code and the database records no edge
    for it, [isBlocked] reports the learner as not blocked, with no
    blocking and no missing prerequisite, even though the learner has no
    Progress row for either declared prerequisite: the CE1 lookup inside
    [getCompetenceByCode] never finds the competence. *)
Theorem C5_isBlocked_ignores_ce1_prerequisites
    (cp : CPReference) (student : Z) (db : Db) :
  JS.prop cp "CE1.FR.O1.1" = None ->
  filter (fun e => String.eqb (CompetencePrerequisite.competenceCode e)
                     "CE1.FR.O1.1") (competencePrerequisites db) = [] ->
  progressOf student "CP.FR.O1.1" db = [] ->
  progressOf student "CP.FR.O1.2" db = [] ->
  option_map prerequis_cp
    (JS.prop CE1_COMPETENCES_2025_francais_oral "CE1.FR.O1.1")
  = Some ["CP.FR.O1.1"; "CP.FR.O1.2"]
  /\ CompetenceFrameworkService.getPrerequisites cp CE1_COMPETENCES_2025
       CE2_COMPETENCES_2026 "CE1.FR.O1.1" db = []
  /\ CompetenceFrameworkService.isBlocked cp CE1_COMPETENCES_2025
       CE2_COMPETENCES_2026 student "CE1.FR.O1.1" db
     = {| CompetenceFrameworkService.isBlocked_ := false;
          CompetenceFrameworkService.blockingPrerequisites := [];
          CompetenceFrameworkService.missingPrerequisites := [] |}.
Proof.
  intros Hcp Hedges _ _.
  assert (Hpre : CompetenceFrameworkService.getPrerequisites cp
                   CE1_COMPETENCES_2025 CE2_COMPETENCES_2026 "CE1.FR.O1.1" db
                 = []).
  { unfold CompetenceFrameworkService.getPrerequisites,
      CompetenceFrameworkService.getCompetenceByCode.
    rewrite Hedges, Hcp, getCE1CompetenceByCode_None. reflexivity. }
  split; [reflexivity|]. split; [exact Hpre|].
  unfold CompetenceFrameworkService.isBlocked. rewrite Hpre. reflexivity.
Qed.

(** Learner 1, the empty database and the sample CP table. *)
Lemma C5_isBlocked_ignores_ce1_prerequisites_witness :
  CompetenceFrameworkService.isBlocked cpExcerpt CE1_COMPETENCES_2025
    CE2_COMPETENCES_2026 1 "CE1.FR.O1.1" emptyDb
  = {| CompetenceFrameworkService.isBlocked_ := false;
       CompetenceFrameworkService.blockingPrerequisites := [];
       CompetenceFrameworkService.missingPrerequisites := [] |}.
Proof.
  apply (C5_isBlocked_ignores_ce1_prerequisites cpExcerpt 1 emptyDb);
    reflexivity.
Defined.

(** ** Recommendations *)

Lemma existsb_rev' {A : Type} (f : A -> bool) l :
  existsb f (rev l) = existsb f l.
Proof.
  induction l as [|x l IH]; cbn [rev existsb]; [reflexivity|].
  rewrite existsb_app, IH. cbn [existsb].
  rewrite orb_false_r. apply orb_comm.
Qed.

Lemma prop_None_existsb {V : Type} (obj : list (string * V)) key :
  match JS.prop obj key with None => true | Some _ => false end
  = negb (existsb (fun kv => String.eqb (fst kv) key) obj).
Proof.
  induction obj as [|[k v] obj IH]; cbn [JS.prop existsb fst]; [reflexivity|].
  destruct (String.eqb k key); [reflexivity | exact IH].
Qed.

Lemma filter_nil_existsb {A : Type} (f : A -> bool) l :
  match filter f l with [] => true | _ :: _ => false end = negb (existsb f l).
Proof.
  induction l as [|x l IH]; cbn [filter existsb]; [reflexivity|].
  destruct (f x); [reflexivity | exact IH].
Qed.

Lemma Map_get_unseen student db key :
  match CompetenceFrameworkService.Map_get
          (map (fun p => (StudentProgress.competenceCode p, p))
             (filter (fun p => StudentProgress.studentId p =? student)
                (studentProgress db))) key with
  | None => true
  | Some _ => false
  end = unseen student db key.
Proof.
  unfold CompetenceFrameworkService.Map_get, unseen, progressOf.
  rewrite prop_None_existsb, existsb_rev', filter_nil_existsb. f_equal.
  induction (studentProgress db) as [|p rows IH]; [reflexivity|].
  cbn [filter existsb].
  destruct (StudentProgress.studentId p =? student);
    cbn [map existsb fst andb]; now rewrite IH.
Qed.

Lemma priority_le_total (a b : CompetenceFrameworkService.Recommendation) :
  (CompetenceFrameworkService.priorityOrder (CompetenceFrameworkService.priority b)
   - CompetenceFrameworkService.priorityOrder (CompetenceFrameworkService.priority a)
   <=? 0) = true
  \/ (CompetenceFrameworkService.priorityOrder (CompetenceFrameworkService.priority a)
      - CompetenceFrameworkService.priorityOrder (CompetenceFrameworkService.priority b)
      <=? 0) = true.
Proof. rewrite !Z.leb_le. lia. Qed.

Section Recommendations.
Variable cp : CPReference.
Variable ce1 : CE1CompetenceFramework.
Variable ce2 : CompetenceFramework.
Variables (student : Z) (niv : CompetenceFrameworkService.Niveau) (db : Db).

Let blockedOn (code : string) : CompetenceFrameworkService.Blocked :=
  CompetenceFrameworkService.isBlocked cp ce1 ce2 student code db.

Let forUnseen (comp : CompetenceFrameworkService.UnifiedCompetenceData)
  : CompetenceFrameworkService.Recommendation :=
  let code := CompetenceFrameworkService.code comp in
  if CompetenceFrameworkService.isBlocked_ (blockedOn code)
  then prerequisiteRecommendation code
         (CompetenceFrameworkService.missingPrerequisites (blockedOn code))
  else newRecommendation code.

(** The array that [getRecommendations] sorts: the review entries, then
    the entries for unseen skills, then the entries for qualitative leaps. *)
Lemma getRecommendations_unsorted :
  exists leapEntries,
    Forall leapRecommendation leapEntries
    /\ CompetenceFrameworkService.getRecommendations cp ce1 ce2 student niv db
    = Array_sort
        (fun a b =>
           CompetenceFrameworkService.priorityOrder
             (CompetenceFrameworkService.priority b)
           - CompetenceFrameworkService.priorityOrder
               (CompetenceFrameworkService.priority a))
        ((map reviewRecommendation
            (filter StudentProgress.needsReview
               (filter (fun p => StudentProgress.studentId p =? student)
                  (studentProgress db)))
          ++ map forUnseen
               (filter (fun comp =>
                          unseen student db (CompetenceFrameworkService.code comp))
                  (CompetenceFrameworkService.getCompetencesByLevel cp ce1 ce2 niv)))
         ++ leapEntries)%list.
Proof.
  unfold CompetenceFrameworkService.getRecommendations.
  set (rows := filter (fun p => StudentProgress.studentId p =? student)
                 (studentProgress db)).
  set (pm := map (fun p => (StudentProgress.competenceCode p, p)) rows).
  rewrite (for_of_ext _
             (fun p acc =>
                (if StudentProgress.needsReview p
                 then JS.push (reviewRecommendation p) acc else acc, JS.Normal))
             rows).
  2: { intros p acc. destruct (StudentProgress.needsReview p); reflexivity. }
  rewrite for_of_normal, fold_left_push_if. cbn [fst app].
  rewrite (for_of_ext _
             (fun comp acc =>
                (if unseen student db (CompetenceFrameworkService.code comp)
                 then JS.push (forUnseen comp) acc else acc, JS.Normal))).
  2: { intros comp acc.
       rewrite <- Map_get_unseen. fold rows. fold pm.
       destruct (CompetenceFrameworkService.Map_get pm _); [reflexivity|].
       unfold forUnseen, blockedOn. cbv zeta.
       destruct (CompetenceFrameworkService.isBlocked_ _); reflexivity. }
  rewrite for_of_normal, fold_left_push_if. cbn [fst].
  match goal with
  | |- context [JS.for_of ?l ?body ?init] =>
      rewrite (for_of_ext body
                 (fun leapCode acc =>
                    (if match CompetenceFrameworkService.Map_get pm leapCode with
                        | Some progress =>
                            MasteryLevel_eqb
                              (StudentProgress.masteryLevel progress) in_progress
                        | None => false
                        end
                     then JS.push
                            {| CompetenceFrameworkService.priority :=
                                 CompetenceFrameworkService.high;
                               CompetenceFrameworkService.competenceCode := leapCode;
                               CompetenceFrameworkService.reason :=
                                 "Saut qualitatif majeur - priorité élevée";
                               CompetenceFrameworkService.type :=
                                 CompetenceFrameworkService.remediation |} acc
                     else acc, JS.Normal)) l init)
  end.
  2: { intros leapCode acc.
       destruct (CompetenceFrameworkService.Map_get pm leapCode) as [p|];
         [destruct (MasteryLevel_eqb _ _)|]; reflexivity. }
  rewrite for_of_normal, fold_left_push_if. cbn [fst].
  eexists. split; [|reflexivity].
  rewrite Forall_map. apply Forall_forall. intros leapCode _. now split.
Qed.

End Recommendations.

(** The rules of [getRecommendations], with "blocked" as
    [CompetenceFrameworkService.isBlocked] answers it: every Progress row
    of the learner with [needsReview] contributes a (high, review) entry;
    every skill of the level for which the learner has no Progress row
    contributes a (medium, new) entry when [isBlocked] does not block it and
    a (low, prerequisite) entry whose reason lists the missing
    prerequisites when it does; the list is in descending order of
    priority; and it holds exactly one entry per such row and per such
    skill, next to the (high, remediation) entries of the qualitative
    leaps. *)
Lemma getRecommendations_rules
    (cp : CPReference) (ce1 : CE1CompetenceFramework) (ce2 : CompetenceFramework)
    (student : Z) (niv : CompetenceFrameworkService.Niveau) (db : Db) :
  let recs :=
    CompetenceFrameworkService.getRecommendations cp ce1 ce2 student niv db in
  Forall (fun p => In (reviewRecommendation p) recs)
    (filter StudentProgress.needsReview
       (filter (fun p => StudentProgress.studentId p =? student)
          (studentProgress db)))
  /\ Forall
       (fun comp =>
          let code := CompetenceFrameworkService.code comp in
          let blocked :=
            CompetenceFrameworkService.isBlocked cp ce1 ce2 student code db in
          In (if CompetenceFrameworkService.isBlocked_ blocked
              then prerequisiteRecommendation code
                     (CompetenceFrameworkService.missingPrerequisites blocked)
              else newRecommendation code) recs)
       (filter (fun comp =>
                  unseen student db (CompetenceFrameworkService.code comp))
          (CompetenceFrameworkService.getCompetencesByLevel cp ce1 ce2 niv))
  /\ StronglySorted byPriorityDescending recs
  /\ exists leapEntries,
       Forall leapRecommendation leapEntries
       /\ Permutation recs
            ((map reviewRecommendation
                (filter StudentProgress.needsReview
                   (filter (fun p => StudentProgress.studentId p =? student)
                      (studentProgress db)))
              ++ map (fun comp =>
                        let code := CompetenceFrameworkService.code comp in
                        let blocked :=
                          CompetenceFrameworkService.isBlocked cp ce1 ce2
                            student code db in
                        if CompetenceFrameworkService.isBlocked_ blocked
                        then prerequisiteRecommendation code
                               (CompetenceFrameworkService.missingPrerequisites
                                  blocked)
                        else newRecommendation code)
                   (filter (fun comp =>
                              unseen student db
                                (CompetenceFrameworkService.code comp))
                      (CompetenceFrameworkService.getCompetencesByLevel
                         cp ce1 ce2 niv)))
             ++ leapEntries)%list.
Proof.
  intros recs.
  destruct (getRecommendations_unsorted cp ce1 ce2 student niv db)
    as (leapEntries & Hleaps & Hrecs).
  fold recs in Hrecs. rewrite Hrecs. unfold Array_sort.
  split; [|split; [|split]].
  4: { exists leapEntries. split; [exact Hleaps | apply orderBy_perm]. }
  - rewrite Forall_forall. intros p Hp.
    apply orderBy_In. apply in_or_app. left. apply in_or_app. left.
    now apply in_map.
  - rewrite Forall_forall. intros comp Hcomp. cbv zeta.
    apply orderBy_In. apply in_or_app. left. apply in_or_app. right.
    apply in_map_iff. exists comp. split; [reflexivity | exact Hcomp].
  - eapply StronglySorted_impl; [|apply orderBy_sorted].
    + intros x y Hxy. unfold byPriorityDescending.
      apply Z.leb_le in Hxy. lia.
    + intros a b. apply priority_le_total.
    + intros a b c Hab Hbc. apply Z.leb_le in Hab, Hbc. apply Z.leb_le. lia.
Qed.


(** ** Remediation *)

Lemma StronglySorted_map {A B : Type} (R : B -> B -> Prop) (f : A -> B) l :
  StronglySorted (fun x y => R (f x) (f y)) l -> StronglySorted R (map f l).
Proof.
  induction 1 as [|x l Hs IH Hall]; cbn [map]; constructor; [exact IH|].
  now rewrite Forall_map.
Qed.

Lemma getPrerequisites_perm code db :
  Permutation (PrerequisiteService.getPrerequisites code db) (edgesOf code db).
Proof. apply orderBy_perm. Qed.

Lemma getPrerequisites_sorted code db :
  StronglySorted
    (fun a b => (CompetencePrerequisite.weight b
                 <= CompetencePrerequisite.weight a)%Q)
    (PrerequisiteService.getPrerequisites code db).
Proof.
  unfold PrerequisiteService.getPrerequisites.
  eapply StronglySorted_impl; [|apply orderBy_sorted].
  - intros x y Hxy. now apply Qle_bool_iff.
  - intros a b. rewrite !Qle_bool_iff.
    destruct (Qlt_le_dec (CompetencePrerequisite.weight a)
                (CompetencePrerequisite.weight b)) as [H|H];
      [right; now apply Qlt_le_weak | now left].
  - intros a b c. rewrite !Qle_bool_iff. intros Hab Hbc.
    eapply Qle_trans; eassumption.
Qed.

(** C8 (as amended).  [getRemediation] follows the learner's recent
    results on the skill itself: with fewer than 3 failures among the 5
    most recent outcomes on the skill it returns null; with 3 or more it
    returns one action per prerequisite edge that the database records for
    the skill (mastered by the learner or not), by descending weight, each
    with action "Review prerequisite", the code and weight of the edge and
    the reason "Student blocked on <skill>, needs <prerequisite>". *)
Theorem C8_remediation_follows_recent_failures
    (student : Z) (code : string) (db : Db) :
  (recentFailures student code db < 3 ->
   PrerequisiteService.getRemediation student code db = None)
  /\ (3 <= recentFailures student code db ->
      exists acts,
        PrerequisiteService.getRemediation student code db = Some acts
        /\ Permutation
             (map (fun x => (PrerequisiteService.prerequisiteCode x,
                             PrerequisiteService.weight x)) acts)
             (map (fun e => (CompetencePrerequisite.prerequisiteCode e,
                             CompetencePrerequisite.weight e))
                (edgesOf code db))
        /\ Forall (remediationFor code) acts
        /\ StronglySorted byWeightDescending acts).
Proof.
  unfold PrerequisiteService.getRemediation, PrerequisiteService.isBlocked.
  fold (recentFailures student code db).
  destruct (Z.leb_spec 3 (recentFailures student code db)) as [H|H];
    cbn [negb]; split; try lia.
  - intros _. eexists. split; [reflexivity|]. split; [|split].
    + rewrite map_map. cbn [PrerequisiteService.prerequisiteCode
                             PrerequisiteService.weight].
      apply Permutation_map, getPrerequisites_perm.
    + rewrite Forall_map. apply Forall_forall. intros e _. now split.
    + apply StronglySorted_map. apply getPrerequisites_sorted.
  - intros _. reflexivity.
Qed.

(** Learner 1 on CE2.MA.P.1.1: two actions after three failures, null
    before any attempt. *)
Lemma C8_remediation_follows_recent_failures_witness :
  (exists acts,
     PrerequisiteService.getRemediation 1 "CE2.MA.P.1.1" dbStruggling = Some acts
     /\ Forall (remediationFor "CE2.MA.P.1.1") acts
     /\ List.length acts = 2%nat)
  /\ PrerequisiteService.getRemediation 1 "CE2.MA.P.1.1" dbNoAttempt = None.
Proof.
  destruct (C8_remediation_follows_recent_failures 1 "CE2.MA.P.1.1" dbStruggling)
    as [_ Hblocked].
  destruct (C8_remediation_follows_recent_failures 1 "CE2.MA.P.1.1" dbNoAttempt)
    as [Hfree _].
  split.
  - destruct Hblocked as (acts & Hacts & Hperm & Hform & _).
    + apply Z.leb_le. reflexivity.
    + exists acts. split; [exact Hacts|]. split; [exact Hform|].
      apply Permutation_length in Hperm. rewrite !length_map in Hperm.
      exact Hperm.
  - apply Hfree. reflexivity.
Defined.

(** C8 as stated fails.  After three failures the learner gets an action
    for each of the two edges although only CE1.MA.P1.2 is a blocking
    prerequisite, whichever of the two notions of "blocked" is meant; and
    before any attempt the learner is blocked by that prerequisite and gets
    no action. *)
Lemma C8_counterexample :
  let skill := "CE2.MA.P.1.1" in
  let byPrerequisites db :=
    CompetenceFrameworkService.isBlocked cpExcerpt CE1_COMPETENCES_2025
      CE2_COMPETENCES_2026 1 skill db in
  ~ remediationAsStated
      (CompetenceFrameworkService.isBlocked_ (byPrerequisites dbStruggling))
      (CompetenceFrameworkService.blockingPrerequisites
         (byPrerequisites dbStruggling))
      (PrerequisiteService.getRemediation 1 skill dbStruggling)
  /\ ~ remediationAsStated
         (PrerequisiteService.isBlocked 1 skill dbStruggling)
         (CompetenceFrameworkService.blockingPrerequisites
            (byPrerequisites dbStruggling))
         (PrerequisiteService.getRemediation 1 skill dbStruggling)
  /\ ~ remediationAsStated
         (CompetenceFrameworkService.isBlocked_ (byPrerequisites dbNoAttempt))
         (CompetenceFrameworkService.blockingPrerequisites
            (byPrerequisites dbNoAttempt))
         (PrerequisiteService.getRemediation 1 skill dbNoAttempt).
Proof.
  cbv zeta. repeat split.
  - intros [H _]. destruct (H eq_refl) as (acts & Hacts & Hperm & _).
    vm_compute in Hacts. injection Hacts as <-.
    apply Permutation_length in Hperm. vm_compute in Hperm. discriminate Hperm.
  - intros [H _]. destruct (H eq_refl) as (acts & Hacts & Hperm & _).
    vm_compute in Hacts. injection Hacts as <-.
    apply Permutation_length in Hperm. vm_compute in Hperm. discriminate Hperm.
  - intros [H _]. destruct (H eq_refl) as (acts & Hacts & _).
    vm_compute in Hacts. discriminate Hacts.
Qed.

(* ================================================================== *)
(** * Further properties of the services *)
(* ================================================================== *)

(** ** Queries with [ORDER BY ... LIMIT] *)

(** The first [n] rows of a sorted selection: at most [n] rows, which
    together with the rows left out form the whole selection in sorted
    order; nothing is left out when the selection has at most [n] rows. *)
Lemma limit_orderBy_spec {A : Type} (le : A -> A -> bool) (n : nat) (l : list A) :
  (forall a b, le a b = true \/ le b a = true) ->
  (forall a b c, le a b = true -> le b c = true -> le a c = true) ->
  (List.length (limit n (orderBy le l)) <= n)%nat
  /\ exists rest,
       Permutation (limit n (orderBy le l) ++ rest) l
       /\ StronglySorted (fun a b => le a b = true)
            (limit n (orderBy le l) ++ rest)
       /\ ((n < List.length l)%nat \/ rest = []).
Proof.
  intros Htotal Htrans. unfold limit. split; [apply firstn_le_length|].
  exists (skipn n (orderBy le l)). rewrite firstn_skipn.
  split; [apply orderBy_perm|]. split; [now apply orderBy_sorted|].
  destruct (Nat.lt_ge_cases n (List.length l)) as [Hlt|Hge]; [now left|].
  right. apply skipn_all2.
  rewrite (Permutation_length (orderBy_perm le l)). exact Hge.
Qed.

(** X1.  [getDueCards] returns at most [limit] cards, all of the learner
    and all due strictly before now, earliest due first; a due card that is
    left out is due no earlier than any returned one, and none is left out
    when the learner has at most [limit] due cards. *)
Theorem X1_getDueCards_earliest_due_first
    (now : Date) (student : Z) (lim : nat) (db : Db) :
  let due := ReviewQueueRepo.getDueCards now student lim db in
  (List.length due <= lim)%nat
  /\ Forall (dueCard now student) due
  /\ exists later,
       Permutation (due ++ later) (dueCardsOf now student db)
       /\ StronglySorted dueNoLater (due ++ later)
       /\ ((lim < List.length (dueCardsOf now student db))%nat \/ later = []).
Proof.
  intros due. subst due. unfold ReviewQueueRepo.getDueCards.
  fold (dueCardsOf now student db).
  destruct (limit_orderBy_spec
              (fun a b => SpacedRepetitionCard.nextReviewAt a
                          <=? SpacedRepetitionCard.nextReviewAt b)
              lim (dueCardsOf now student db))
    as (Hlen & later & Hperm & Hsorted & Hall).
  - intros a b. rewrite !Z.leb_le. lia.
  - intros a b c. rewrite !Z.leb_le. lia.
  - split; [exact Hlen|]. split.
    + rewrite Forall_forall. intros k Hk.
      assert (Hin : In k (dueCardsOf now student db))
        by (apply (Permutation_in _ Hperm); apply in_or_app; now left).
      unfold dueCardsOf in Hin. apply filter_In in Hin.
      destruct Hin as [_ Hin]. apply andb_true_iff in Hin.
      destruct Hin as [Hs Hd]. split; [now apply Z.eqb_eq | now apply Z.ltb_lt].
    + exists later. split; [exact Hperm|]. split; [|exact Hall].
      eapply StronglySorted_impl; [|exact Hsorted].
      intros x y Hxy. now apply Z.leb_le.
Qed.

Lemma getTopErrorPatterns_spec (student : Z) (lim : nat) (db : Db) :
  let top := ErrorPatternService.getTopErrorPatterns student lim db in
  (List.length top <= lim)%nat
  /\ Forall (fun e => ErrorPattern.studentId e = student) top
  /\ exists others,
       Permutation (top ++ others) (patternsOfStudent student db)
       /\ StronglySorted seenNoLess (top ++ others)
       /\ ((lim < List.length (patternsOfStudent student db))%nat
           \/ others = []).
Proof.
  intros top. subst top. unfold ErrorPatternService.getTopErrorPatterns.
  fold (patternsOfStudent student db).
  destruct (limit_orderBy_spec
              (fun a b => ErrorPattern.occurrences b <=? ErrorPattern.occurrences a)
              lim (patternsOfStudent student db))
    as (Hlen & others & Hperm & Hsorted & Hall).
  - intros a b. rewrite !Z.leb_le. lia.
  - intros a b c. rewrite !Z.leb_le. lia.
  - split; [exact Hlen|]. split.
    + rewrite Forall_forall. intros e He.
      assert (Hin : In e (patternsOfStudent student db))
        by (apply (Permutation_in _ Hperm); apply in_or_app; now left).
      unfold patternsOfStudent in Hin. apply filter_In in Hin.
      now apply Z.eqb_eq.
    + exists others. split; [exact Hperm|]. split; [|exact Hall].
      eapply StronglySorted_impl; [|exact Hsorted].
      intros x y Hxy. now apply Z.leb_le.
Qed.

(** X2.  [getTopErrorPatterns] returns at most [limit] patterns, all of the
    learner, most frequent first; a pattern of the learner that is left out
    occurs no more often than any returned one, and none is left out when
    the learner has at most [limit] patterns. *)
Theorem X2_getTopErrorPatterns_most_frequent_first
    (student : Z) (lim : nat) (db : Db) :
  let top := ErrorPatternService.getTopErrorPatterns student lim db in
  (List.length top <= lim)%nat
  /\ Forall (fun e => ErrorPattern.studentId e = student) top
  /\ exists others,
       Permutation (top ++ others) (patternsOfStudent student db)
       /\ StronglySorted seenNoLess (top ++ others)
       /\ ((lim < List.length (patternsOfStudent student db))%nat
           \/ others = []).
Proof. apply getTopErrorPatterns_spec. Qed.

(** X3.  [suggestRemediation] proposes at most five actions, one per
    pattern returned by [getTopErrorPatterns(student, 5)] and in that
    order; each is a "Remedial practice" on the skill of a pattern of the
    learner, with the reason "Frequent error: <tag>"; a learner without
    error patterns gets none. *)
Theorem X3_suggestRemediation_top_five (student : Z) (db : Db) :
  let actions := ErrorPatternService.suggestRemediation student db in
  (List.length actions <= 5)%nat
  /\ List.length actions
     = Nat.min 5 (List.length (patternsOfStudent student db))
  /\ Forall2
       (fun x e =>
          ErrorPatternService.action x = "Remedial practice"
          /\ ErrorPatternService.reason x
             = "Frequent error: " ++ ErrorPattern.tag e
          /\ ErrorPatternService.practiceCode x = ErrorPattern.competenceCode e
          /\ ErrorPattern.studentId e = student
          /\ In e (errorPatterns db))
       actions (ErrorPatternService.getTopErrorPatterns student 5 db).
Proof.
  intros actions. subst actions. unfold ErrorPatternService.suggestRemediation.
  rewrite length_map.
  destruct (getTopErrorPatterns_spec student 5 db)
    as (Hlen & Hstudent & others & Hperm & _).
  split; [exact Hlen|]. split.
  - unfold ErrorPatternService.getTopErrorPatterns, limit.
    rewrite length_firstn, (Permutation_length (orderBy_perm _ _)). reflexivity.
  - cbv zeta in Hstudent, Hperm.
    set (top := ErrorPatternService.getTopErrorPatterns student 5 db) in *.
    assert (Hin : Forall (fun e => In e (errorPatterns db)) top).
    { rewrite Forall_forall. intros e He.
      assert (H : In e (patternsOfStudent student db))
        by (apply (Permutation_in _ Hperm); apply in_or_app; now left).
      unfold patternsOfStudent in H. now apply filter_In in H. }
    clear Hperm Hlen. induction top as [|e top IH]; cbn [map]; constructor.
    + inversion Hstudent; inversion Hin; subst. repeat split; assumption.
    + inversion Hstudent; inversion Hin; subst. now apply IH.
Qed.

(** ** Error-pattern counters *)

Lemma NoDup_map_inj {A B : Type} (f : A -> B) (l : list A) x y :
  NoDup (map f l) -> In x l -> In y l -> f x = f y -> x = y.
Proof.
  induction l as [|z l IH]; cbn [map]; intros Hnd Hx Hy Hf; [destruct Hx|].
  inversion Hnd as [|? ? Hnotin Hnd']; subst.
  destruct Hx as [->|Hx]; destruct Hy as [->|Hy]; auto.
  - exfalso. apply Hnotin. rewrite Hf. now apply in_map.
  - exfalso. apply Hnotin. rewrite <- Hf. now apply in_map.
Qed.

Lemma patternKey_true s c tag e :
  patternKey s c tag e = true
  <-> ErrorPattern.studentId e = s /\ ErrorPattern.competenceCode e = c
      /\ ErrorPattern.tag e = tag.
Proof.
  unfold patternKey.
  rewrite !andb_true_iff, Z.eqb_eq, !String.eqb_eq. tauto.
Qed.

Lemma or_else_zero n : or_else n 0 = n.
Proof. unfold or_else. destruct (Z.eqb_spec n 0); congruence. Qed.

Lemma map_id_update_where {A : Type} (id : A -> Z) (cond : A -> bool)
    (set : A -> A) l :
  (forall r, id (set r) = id r) ->
  map id (update_where cond set l) = map id l.
Proof.
  intros H. unfold update_where. rewrite map_map. apply map_ext.
  intros r. destruct (cond r); auto.
Qed.

Lemma NoDup_nextId (ids : list Z) : NoDup ids -> NoDup (ids ++ [nextId ids]).
Proof.
  intros H. apply NoDup_app; [exact H | repeat constructor; intros [] |].
  intros x Hx [<-|[]].
  pose proof (nextId_fresh ids) as Hf. rewrite Forall_forall in Hf.
  specialize (Hf _ Hx). lia.
Qed.

Section TagCounters.
Variables (now : Date) (a : OutcomeInput).

Let s := studentId a.
Let c := competenceCode a.

Let tagStep (tag : string) : DbM unit :=
  existing <- select (fun db =>
    limit 1 (filter (fun e =>
      (ErrorPattern.studentId e =? studentId a)
      && String.eqb (ErrorPattern.competenceCode e) (competenceCode a)
      && String.eqb (ErrorPattern.tag e) tag) (errorPatterns db))) ;;
  match existing with
  | e0 :: _ =>
      update_errorPatterns
        (fun e => ErrorPattern.id e =? ErrorPattern.id e0)
        (fun e => ErrorPattern.mk (ErrorPattern.id e)
                    (ErrorPattern.studentId e)
                    (ErrorPattern.competenceCode e) (ErrorPattern.tag e)
                    (or_else (ErrorPattern.occurrences e0) 0 + 1) now)
  | [] =>
      insert_errorPattern (fun id =>
        ErrorPattern.mk id (studentId a) (competenceCode a) tag 1 now)
  end.

(** One iteration: the table after it, by cases on the lookup. *)
Lemma tagStep_table tag db :
  errorPatterns (exec (tagStep tag) db)
  = match filter (patternKey s c tag) (errorPatterns db) with
    | e0 :: _ =>
        update_where (fun e => ErrorPattern.id e =? ErrorPattern.id e0)
          (fun e => ErrorPattern.mk (ErrorPattern.id e)
                      (ErrorPattern.studentId e)
                      (ErrorPattern.competenceCode e) (ErrorPattern.tag e)
                      (ErrorPattern.occurrences e0 + 1) now)
          (errorPatterns db)
    | [] =>
        (errorPatterns db
         ++ [ErrorPattern.mk (nextId (map ErrorPattern.id (errorPatterns db)))
               s c tag 1 now])%list
    end.
Proof.
  unfold tagStep. rewrite exec_bind, exec_select, eval_select.
  change (fun e => (ErrorPattern.studentId e =? studentId a)
                   && String.eqb (ErrorPattern.competenceCode e) (competenceCode a)
                   && String.eqb (ErrorPattern.tag e) tag)
    with (patternKey s c tag).
  destruct (filter (patternKey s c tag) (errorPatterns db)) as [|e0 rest];
    cbn [limit firstn]; [reflexivity|].
  cbn [exec snd update_errorPatterns errorPatterns].
  now rewrite or_else_zero.
Qed.

Lemma tagStep_unique tag db :
  uniquePatternIds db -> uniquePatternIds (exec (tagStep tag) db).
Proof.
  unfold uniquePatternIds. intros H. rewrite tagStep_table.
  destruct (filter _ _) as [|e0 rest].
  - rewrite map_app. cbn [map ErrorPattern.id]. now apply NoDup_nextId.
  - rewrite map_id_update_where; [exact H | reflexivity].
Qed.

(** One iteration leaves the rows under every other key as they were. *)
Lemma tagStep_other tag db s' c' tag' :
  uniquePatternIds db ->
  ~ (s' = s /\ c' = c /\ tag' = tag) ->
  filter (patternKey s' c' tag') (errorPatterns (exec (tagStep tag) db))
  = filter (patternKey s' c' tag') (errorPatterns db).
Proof.
  intros Hu Hkey. rewrite tagStep_table.
  destruct (filter (patternKey s c tag) (errorPatterns db)) as [|e0 rest] eqn:E.
  - rewrite filter_app. cbn [filter].
    destruct (patternKey s' c' tag' _) eqn:K; [|now rewrite app_nil_r].
    apply patternKey_true in K. cbn in K. exfalso. apply Hkey.
    destruct K as (? & ? & ?). repeat split; congruence.
  - rewrite filter_update_where by reflexivity.
    apply update_where_none. rewrite Forall_forall. intros e He.
    apply filter_In in He. destruct He as [Hin Hk].
    apply Z.eqb_neq. intros Hid.
    assert (He0 : In e0 (filter (patternKey s c tag) (errorPatterns db)))
      by (rewrite E; now left).
    apply filter_In in He0. destruct He0 as [Hin0 Hk0].
    assert (e = e0) by (eapply NoDup_map_inj; eauto). subst e.
    apply patternKey_true in Hk, Hk0. apply Hkey.
    destruct Hk as (? & ? & ?), Hk0 as (? & ? & ?).
    repeat split; congruence.
Qed.

(** One iteration adds one to the counter of its tag, created at one. *)
Lemma tagStep_counter tag db :
  uniquePatternIds db ->
  counterOf s c tag (exec (tagStep tag) db)
  = Some (counterBase (counterOf s c tag db) + 1).
Proof.
  intros Hu. unfold counterOf, patternOf. rewrite tagStep_table.
  destruct (filter (patternKey s c tag) (errorPatterns db)) as [|e0 rest] eqn:E.
  - rewrite filter_app, E. cbn [app filter].
    assert (K : patternKey s c tag
                  (ErrorPattern.mk
                     (nextId (map ErrorPattern.id (errorPatterns db)))
                     s c tag 1 now) = true)
      by (apply patternKey_true; repeat split).
    rewrite K. reflexivity.
  - rewrite filter_update_where by reflexivity. rewrite E.
    cbn [update_where map]. rewrite Z.eqb_refl. reflexivity.
Qed.

Lemma tagLoop_unique tags db :
  uniquePatternIds db -> uniquePatternIds (exec (forM_ tags tagStep) db).
Proof.
  revert db. induction tags as [|tag tags IH]; intros db H; cbn [forM_].
  - exact H.
  - rewrite exec_bind. apply IH. now apply tagStep_unique.
Qed.

Lemma tagLoop_other tags db s' c' tag' :
  uniquePatternIds db ->
  ~ (s' = s /\ c' = c /\ In tag' tags) ->
  filter (patternKey s' c' tag') (errorPatterns (exec (forM_ tags tagStep) db))
  = filter (patternKey s' c' tag') (errorPatterns db).
Proof.
  revert db. induction tags as [|tag tags IH]; intros db Hu Hkey; cbn [forM_].
  - reflexivity.
  - rewrite exec_bind. rewrite IH.
    + apply tagStep_other; [exact Hu|]. cbn [In] in Hkey.
      intros (? & ? & ?). apply Hkey. subst. tauto.
    + now apply tagStep_unique.
    + cbn [In] in Hkey. tauto.
Qed.

Lemma tagLoop_counter tags db tag :
  uniquePatternIds db ->
  In tag tags ->
  counterOf s c tag (exec (forM_ tags tagStep) db)
  = Some (counterBase (counterOf s c tag db)
          + Z.of_nat (count_occ string_dec tags tag)).
Proof.
  revert db. induction tags as [|t tags IH]; intros db Hu Hin; [destruct Hin|].
  cbn [forM_]. rewrite exec_bind.
  set (d1 := exec (tagStep t) db).
  assert (Hu1 : uniquePatternIds d1) by now apply tagStep_unique.
  cbn [count_occ]. destruct (string_dec t tag) as [->|Hne].
  - pose proof (tagStep_counter tag db Hu) as Hstep. fold d1 in Hstep.
    destruct (in_dec string_dec tag tags) as [Hin'|Hnot].
    + rewrite (IH d1 Hu1 Hin'), Hstep. cbn [counterBase]. f_equal; lia.
    + unfold counterOf, patternOf.
      rewrite (tagLoop_other tags d1 s c tag Hu1) by tauto.
      fold (patternOf s c tag d1). fold (counterOf s c tag d1). rewrite Hstep.
      rewrite (proj1 (count_occ_not_In string_dec tags tag) Hnot).
      f_equal; lia.
  - destruct Hin as [Heq|Hin]; [congruence|].
    rewrite (IH d1 Hu1 Hin). do 3 f_equal.
    unfold counterOf, patternOf, d1.
    rewrite (tagStep_other t db s c tag Hu); [reflexivity|].
    intros (_ & _ & ?). congruence.
Qed.

End TagCounters.

Lemma recordOutcome_errorPatterns now a db :
  errorPatterns (exec (ErrorPatternService.recordOutcome now a) db)
  = errorPatterns
      (exec (forM_ (errorTags a) (fun tag =>
         existing <- select (fun db =>
           limit 1 (filter (fun e =>
             (ErrorPattern.studentId e =? studentId a)
             && String.eqb (ErrorPattern.competenceCode e) (competenceCode a)
             && String.eqb (ErrorPattern.tag e) tag) (errorPatterns db))) ;;
         match existing with
         | e0 :: _ =>
             update_errorPatterns
               (fun e => ErrorPattern.id e =? ErrorPattern.id e0)
               (fun e => ErrorPattern.mk (ErrorPattern.id e)
                           (ErrorPattern.studentId e)
                           (ErrorPattern.competenceCode e) (ErrorPattern.tag e)
                           (or_else (ErrorPattern.occurrences e0) 0 + 1) now)
         | [] =>
             insert_errorPattern (fun id =>
               ErrorPattern.mk id (studentId a) (competenceCode a) tag 1 now)
         end)) db).
Proof.
  unfold ErrorPatternService.recordOutcome.
  rewrite !exec_bind, exec_ret.
  set (d0 := exec (insert_exerciseOutcome _) db).
  destruct (errorTags a) as [|tag tags] eqn:E.
  - reflexivity.
  - change (0 <? Z.of_nat (List.length (tag :: tags))) with true. cbv iota.
    set (body := fun tag : string => _).
    assert (H : forall l d d',
               errorPatterns d = errorPatterns d' ->
               errorPatterns (exec (forM_ l body) d)
               = errorPatterns (exec (forM_ l body) d')).
    { induction l as [|t l IH]; intros d d' Hd; cbn [forM_]; [exact Hd|].
      rewrite !exec_bind. apply IH. subst body. cbv beta.
      rewrite !exec_bind, !exec_select, !eval_select. rewrite Hd.
      destruct (limit 1 _); cbn [exec snd insert_errorPattern
                                 update_errorPatterns errorPatterns];
        now rewrite Hd. }
    apply H. reflexivity.
Qed.

Lemma recordOutcome_uniquePatternIds now a db :
  uniquePatternIds db ->
  uniquePatternIds (exec (ErrorPatternService.recordOutcome now a) db).
Proof.
  intros Hu. unfold uniquePatternIds. rewrite recordOutcome_errorPatterns.
  now apply tagLoop_unique.
Qed.

(** X4.  When the primary keys of the error patterns are unique,
    [recordOutcome] raises the counter of each error tag of the attempt by
    the number of times the tag occurs in [errorTags] (a missing counter is
    created and counts from zero), leaves the rows of every other learner,
    skill and tag as they were, and keeps the keys unique. *)
Theorem X4_recordOutcome_counts_each_tag
    (now : Date) (a : OutcomeInput) (db : Db) :
  uniquePatternIds db ->
  let s := studentId a in
  let c := competenceCode a in
  let db1 := exec (ErrorPatternService.recordOutcome now a) db in
  uniquePatternIds db1
  /\ Forall
       (fun tag =>
          counterOf s c tag db1
          = Some (counterBase (counterOf s c tag db)
                  + Z.of_nat (count_occ string_dec (errorTags a) tag)))
       (errorTags a)
  /\ (forall s' c' tag',
        ~ (s' = s /\ c' = c /\ In tag' (errorTags a)) ->
        filter (patternKey s' c' tag') (errorPatterns db1)
        = filter (patternKey s' c' tag') (errorPatterns db)).
Proof.
  intros Hu s c db1. subst db1.
  unfold uniquePatternIds, counterOf, patternOf.
  rewrite recordOutcome_errorPatterns.
  split; [|split].
  - now apply tagLoop_unique.
  - rewrite Forall_forall. intros tag Hin.
    apply (tagLoop_counter now a (errorTags a) db tag Hu Hin).
  - intros s' c' tag' Hkey. now apply tagLoop_other.
Qed.

(** The tag "inversion" occurs twice in the attempt and is counted twice. *)
Lemma X4_recordOutcome_counts_each_tag_witness :
  counterOf 1 "CP.FR.L1.1" "inversion"
    (exec (ErrorPatternService.recordOutcome 1000 taggedAttempt) emptyDb)
  = Some 2.
Proof.
  destruct (X4_recordOutcome_counts_each_tag 1000 taggedAttempt emptyDb)
    as (_ & Hcount & _).
  - constructor.
  - apply (proj1 (Forall_forall _ _) Hcount "inversion"). now left.
Defined.

(** ** Invariants of [updateMastery] *)

Lemma recordOutcome_uniqueIds now a db :
  uniqueIds db -> uniqueIds (exec (ErrorPatternService.recordOutcome now a) db).
Proof.
  intros (Ho & He & Hp & Hk).
  destruct (recordOutcome_tables now a db) as (Eo & Ep & Ek & _).
  unfold uniqueIds, uniqueOutcomeIds, uniqueProgressIds, uniqueCardIds.
  rewrite Eo, Ep, Ek. repeat split; try assumption.
  - rewrite map_app. cbn [map outcomeRow ExerciseOutcome.id].
    now apply NoDup_nextId.
  - now apply recordOutcome_uniquePatternIds.
Qed.

Section UpdateMasteryTables.
Variable tz : Calendar.
Variable calc :
  Date -> SpacedRepetitionCard.row -> Q -> SuperMemoService.SuperMemoResult.
Variables (now : Date) (a : OutcomeInput) (db : Db).

Let s := studentId a.
Let c := competenceCode a.
Let db' := exec (MasteryService.updateMastery tz calc now a) db.

Lemma updateMastery_studentProgress :
  studentProgress db'
  = match progressOf s c db with
    | prev :: _ =>
        update_where
          (fun p => StudentProgress.id p =? StudentProgress.id prev)
          (setProgress now a (window s c db') prev) (studentProgress db)
    | [] =>
        (studentProgress db
         ++ [newProgress now a (window s c db')
               (nextId (map StudentProgress.id (studentProgress db)))])%list
    end.
Proof.
  subst db' s c. rewrite updateMastery_window, updateMastery_exec. cbv zeta.
  cbn [studentProgress].
  destruct (recordOutcome_tables now a db) as (_ & Hsp & _).
  unfold progressOf. rewrite Hsp. reflexivity.
Qed.

Lemma updateMastery_spacedRepetitionCards :
  spacedRepetitionCards db'
  = match cardsOf s c db with
    | card :: _ =>
        update_where
          (fun k => SpacedRepetitionCard.id k =? SpacedRepetitionCard.id card)
          (scheduled calc now (quality a) card) (spacedRepetitionCards db)
    | [] =>
        let c0 :=
          defaultCard tz now s c
            (nextId (map SpacedRepetitionCard.id (spacedRepetitionCards db))) in
        (spacedRepetitionCards db ++ [scheduled calc now (quality a) c0 c0])%list
    end.
Proof.
  destruct (cardsOf s c db) as [|card rest] eqn:E.
  - now apply updateMastery_creates_card.
  - subst db' s c. rewrite updateMastery_exec. cbv zeta.
    cbn [spacedRepetitionCards].
    destruct (recordOutcome_tables now a db) as (_ & _ & Hk & _).
    unfold cardsOf in *. rewrite Hk, E. reflexivity.
Qed.

Lemma updateMastery_exerciseOutcomes :
  exerciseOutcomes db' = (exerciseOutcomes db ++ [outcomeRow now a db])%list.
Proof.
  subst db'. rewrite updateMastery_exec. cbv zeta. cbn [exerciseOutcomes].
  apply recordOutcome_tables.
Qed.

Lemma updateMastery_errorPatterns :
  errorPatterns db'
  = errorPatterns (exec (ErrorPatternService.recordOutcome now a) db).
Proof. subst db'. rewrite updateMastery_exec. reflexivity. Qed.

Lemma updateMastery_uniqueIds : uniqueIds db -> uniqueIds db'.
Proof.
  intros (Ho & He & Hp & Hk).
  unfold uniqueIds, uniqueOutcomeIds, uniquePatternIds, uniqueProgressIds,
    uniqueCardIds.
  rewrite updateMastery_exerciseOutcomes, updateMastery_errorPatterns,
    updateMastery_studentProgress, updateMastery_spacedRepetitionCards.
  repeat split.
  - rewrite map_app. cbn [map outcomeRow ExerciseOutcome.id].
    now apply NoDup_nextId.
  - now apply recordOutcome_uniquePatternIds.
  - destruct (progressOf s c db).
    + rewrite map_app. cbn [map newProgress StudentProgress.id].
      now apply NoDup_nextId.
    + rewrite map_id_update_where; [exact Hp | reflexivity].
  - destruct (cardsOf s c db).
    + cbv zeta. rewrite map_app.
      cbn [map scheduled defaultCard SpacedRepetitionCard.id].
      now apply NoDup_nextId.
    + rewrite map_id_update_where; [exact Hk | reflexivity].
Qed.

Lemma updateMastery_progressOf_any s' c' :
  progressOf s' c' db'
  = match progressOf s c db with
    | prev :: _ =>
        update_where
          (fun p => StudentProgress.id p =? StudentProgress.id prev)
          (setProgress now a (window s c db') prev) (progressOf s' c' db)
    | [] =>
        (progressOf s' c' db
         ++ (if (s =? s') && String.eqb c c'
             then [newProgress now a (window s c db')
                     (nextId (map StudentProgress.id (studentProgress db)))]
             else []))%list
    end.
Proof.
  unfold progressOf at 1. rewrite updateMastery_studentProgress.
  destruct (progressOf s c db) as [|prev rest].
  - rewrite filter_app. reflexivity.
  - now rewrite filter_update_where by reflexivity.
Qed.

Lemma updateMastery_cardsOf_any s' c' :
  cardsOf s' c' db'
  = match cardsOf s c db with
    | card :: _ =>
        update_where
          (fun k => SpacedRepetitionCard.id k =? SpacedRepetitionCard.id card)
          (scheduled calc now (quality a) card) (cardsOf s' c' db)
    | [] =>
        (cardsOf s' c' db
         ++ (if (s =? s') && String.eqb c c'
             then [scheduled calc now (quality a)
                     (defaultCard tz now s c
                        (nextId (map SpacedRepetitionCard.id
                                   (spacedRepetitionCards db))))
                     (defaultCard tz now s c
                        (nextId (map SpacedRepetitionCard.id
                                   (spacedRepetitionCards db))))]
             else []))%list
    end.
Proof.
  unfold cardsOf at 1. rewrite updateMastery_spacedRepetitionCards.
  destruct (cardsOf s c db) as [|card rest].
  - cbv zeta. rewrite filter_app. reflexivity.
  - now rewrite filter_update_where by reflexivity.
Qed.

Lemma length_update_where {A : Type} (cond : A -> bool) (set : A -> A) l :
  List.length (update_where cond set l) = List.length l.
Proof. apply length_map. Qed.

Lemma updateMastery_onePerPair : onePerPair db -> onePerPair db'.
Proof.
  intros H s' c'. destruct (H s' c') as [Hp Hk].
  rewrite updateMastery_progressOf_any, updateMastery_cardsOf_any. split.
  - destruct (progressOf s c db) as [|prev rest] eqn:E.
    + destruct ((s =? s') && String.eqb c c') eqn:K.
      * apply andb_true_iff in K. destruct K as [Ks Kc].
        apply Z.eqb_eq in Ks. apply String.eqb_eq in Kc. subst s' c'.
        rewrite E. cbn. lia.
      * rewrite app_nil_r. exact Hp.
    + now rewrite length_update_where.
  - destruct (cardsOf s c db) as [|card rest] eqn:E.
    + destruct ((s =? s') && String.eqb c c') eqn:K.
      * apply andb_true_iff in K. destruct K as [Ks Kc].
        apply Z.eqb_eq in Ks. apply String.eqb_eq in Kc. subst s' c'.
        rewrite E. cbn. lia.
      * rewrite app_nil_r. exact Hk.
    + now rewrite length_update_where.
Qed.

Lemma pair_key_other s' c' :
  ~ (s' = s /\ c' = c) -> (s =? s') && String.eqb c c' = false.
Proof.
  intros H. apply not_true_iff_false. intros K.
  apply andb_true_iff in K. destruct K as [Ks Kc].
  apply Z.eqb_eq in Ks. apply String.eqb_eq in Kc. auto.
Qed.

Lemma updateMastery_frame s' c' :
  uniqueIds db ->
  ~ (s' = s /\ c' = c) ->
  progressOf s' c' db' = progressOf s' c' db
  /\ cardsOf s' c' db' = cardsOf s' c' db
  /\ outcomesOf s' c' db' = outcomesOf s' c' db.
Proof.
  intros (_ & _ & Hp & Hk) Hother.
  rewrite updateMastery_progressOf_any, updateMastery_cardsOf_any.
  rewrite (pair_key_other _ _ Hother).
  split; [|split].
  - destruct (progressOf s c db) as [|prev rest] eqn:E; [apply app_nil_r|].
    apply update_where_none. rewrite Forall_forall. intros p Hin.
    apply Z.eqb_neq. intros Hid.
    assert (Hprev : In prev (progressOf s c db)) by (rewrite E; now left).
    unfold progressOf in Hin, Hprev.
    apply filter_In in Hin, Hprev.
    destruct Hin as [Hin Kp], Hprev as [Hprev Kprev].
    assert (p = prev) by (eapply NoDup_map_inj; eauto). subst p.
    apply andb_true_iff in Kp, Kprev.
    destruct Kp as [K1 K2], Kprev as [K3 K4].
    apply Z.eqb_eq in K1, K3. apply String.eqb_eq in K2, K4.
    apply Hother. split; congruence.
  - destruct (cardsOf s c db) as [|card rest] eqn:E; [apply app_nil_r|].
    apply update_where_none. rewrite Forall_forall. intros k Hin.
    apply Z.eqb_neq. intros Hid.
    assert (Hcard : In card (cardsOf s c db)) by (rewrite E; now left).
    unfold cardsOf in Hin, Hcard.
    apply filter_In in Hin, Hcard.
    destruct Hin as [Hin Kp], Hcard as [Hcard Kcard].
    assert (k = card) by (eapply NoDup_map_inj; eauto). subst k.
    apply andb_true_iff in Kp, Kcard.
    destruct Kp as [K1 K2], Kcard as [K3 K4].
    apply Z.eqb_eq in K1, K3. apply String.eqb_eq in K2, K4.
    apply Hother. split; congruence.
  - unfold outcomesOf. rewrite updateMastery_exerciseOutcomes, filter_app.
    cbn [filter outcomeRow ExerciseOutcome.studentId
         ExerciseOutcome.competenceCode].
    fold s c. rewrite (pair_key_other _ _ Hother). apply app_nil_r.
Qed.

End UpdateMasteryTables.

Lemma emptyDb_uniqueIds : uniqueIds emptyDb.
Proof. repeat split; constructor. Qed.

Lemma emptyDb_onePerPair : onePerPair emptyDb.
Proof. intros s c. split; cbn; lia. Qed.

(** X5.  [updateMastery] keeps the primary keys of the outcomes, error
    patterns, Progress rows and ReviewCards unique, through any sequence of
    calls. *)
Theorem X5_updateMastery_keeps_ids_unique
    (tz : Calendar)
    (calc : Date -> SpacedRepetitionCard.row -> Q
            -> SuperMemoService.SuperMemoResult)
    (calls : list (Date * OutcomeInput)) (db : Db) :
  uniqueIds db -> uniqueIds (runUpdates tz calc calls db).
Proof.
  revert db. induction calls as [|[now a] calls IH]; intros db H.
  - exact H.
  - cbn [runUpdates fold_left fst snd]. apply IH.
    now apply updateMastery_uniqueIds.
Qed.

Lemma X5_updateMastery_keeps_ids_unique_witness : uniqueIds dbNineteen.
Proof.
  apply (X5_updateMastery_keeps_ids_unique utc
           SuperMemoService.calculateNextReview nineteenAttempts emptyDb).
  repeat split; constructor.
Defined.

(** *** Calls run await by await *)

Lemma run_then {A B : Type} (t : Async.Task A) (k : A -> Async.Task B) db :
  Async.run (Async.then_ t k) db
  = bind (Async.run t) (fun x => Async.run (k x)) db.
Proof.
  revert db.
  induction t as [a|X operation resume IH]; intros db;
    cbn [Async.then_ Async.run]; [reflexivity|].
  unfold bind. rewrite IH. reflexivity.
Qed.

Lemma forM__ext {A : Type} (l : list A) (f g : A -> DbM unit) db :
  (forall x d, f x d = g x d) -> forM_ l f db = forM_ l g db.
Proof.
  intros H. revert db.
  induction l as [|x l IH]; intros db; cbn [forM_]; [reflexivity|].
  unfold bind. rewrite H. apply IH.
Qed.

Lemma run_for_each {A : Type} (l : list A) (body : A -> Async.Task unit) db :
  Async.run (Async.for_each l body) db
  = forM_ l (fun x => Async.run (body x)) db.
Proof.
  revert db.
  induction l as [|x l IH]; intros db; cbn [Async.for_each forM_];
    [reflexivity|].
  rewrite run_then. unfold bind. apply IH.
Qed.

Lemma run_recordOutcome now a db :
  Async.run (Async.recordOutcome now a) db
  = ErrorPatternService.recordOutcome now a db.
Proof.
  unfold Async.recordOutcome, ErrorPatternService.recordOutcome.
  rewrite run_then. unfold bind at 1 3. cbn [Async.run Async.await].
  unfold bind at 1 3. cbn [ret fst snd].
  rewrite run_then. unfold bind at 1 2.
  destruct (0 <? Z.of_nat (List.length (errorTags a))); [|reflexivity].
  rewrite run_for_each.
  rewrite (forM__ext _ _
             (fun tag =>
                existing <- select (fun db =>
                  limit 1 (filter (fun e =>
                    (ErrorPattern.studentId e =? studentId a)
                    && String.eqb (ErrorPattern.competenceCode e)
                         (competenceCode a)
                    && String.eqb (ErrorPattern.tag e) tag)
                    (errorPatterns db))) ;;
                match existing with
                | e0 :: _ =>
                    update_errorPatterns
                      (fun e => ErrorPattern.id e =? ErrorPattern.id e0)
                      (fun e => ErrorPattern.mk (ErrorPattern.id e)
                                  (ErrorPattern.studentId e)
                                  (ErrorPattern.competenceCode e)
                                  (ErrorPattern.tag e)
                                  (or_else (ErrorPattern.occurrences e0) 0 + 1)
                                  now)
                | [] =>
                    insert_errorPattern (fun id =>
                      ErrorPattern.mk id (studentId a) (competenceCode a) tag 1
                        now)
                end)); [reflexivity|].
  intros tag d. rewrite run_then. cbn [Async.run Async.await].
  unfold bind, select, ret. cbn [fst snd].
  destruct (limit 1 _); reflexivity.
Qed.

Lemma run_getRemediation student code db :
  Async.run (Async.getRemediation student code) db
  = select (PrerequisiteService.getRemediation student code) db.
Proof.
  unfold Async.getRemediation, PrerequisiteService.getRemediation.
  rewrite run_then. cbn [Async.run Async.await].
  unfold bind, select, ret. cbn [fst snd].
  destruct (PrerequisiteService.isBlocked student code db); cbn [negb];
    [|reflexivity].
  rewrite run_then. reflexivity.
Qed.

Lemma run_updateMastery tz calc now a db :
  Async.run (Async.updateMastery tz calc now a) db
  = MasteryService.updateMastery tz calc now a db.
Proof.
  unfold Async.updateMastery, MasteryService.updateMastery.
  rewrite run_then. unfold bind at 1 2. rewrite run_recordOutcome.
  generalize (snd (ErrorPatternService.recordOutcome now a db)) as d1.
  intros d1.
  cbv [Async.then_ Async.run Async.await bind select ret fst snd].
  destruct (progressOf (studentId a) (competenceCode a) d1) as [|prev rest];
    cbv [Async.then_ Async.run Async.await bind select ret fst snd].
  all: match goal with
       | |- context [cardsOf ?s ?c ?d] =>
           destruct (cardsOf s c d) as [|card cards]
       end;
    cbv [Async.then_ Async.run Async.await bind select ret fst snd].
  all: match goal with
       | |- context [PrerequisiteService.isBlocked ?s ?c ?d] =>
           destruct (PrerequisiteService.isBlocked s c d) eqn:Hblocked
       end;
    cbv [Async.then_ Async.run Async.await bind select ret fst snd
         Async.getRemediation PrerequisiteService.getRemediation];
    rewrite ?Hblocked; reflexivity.
Qed.

(** X6.  Calls of [updateMastery] that run one after the other, each from
    start to end, never give a pair a second Progress row or a second
    ReviewCard: when every pair has at most one of each, this still holds
    after any sequence of such calls.  Calls that overlap can.
    [Async.updateMastery] is the call as the sequence of its awaited
    operations; run without interruption it is the call as
    [MasteryService] defines it.  When two first attempts on a pair take
    turns at their operations, starting from the empty database, each finds
    no row before the other inserts one, and the pair ends with two
    Progress rows and two ReviewCards. *)
Theorem X6_one_row_per_pair_unless_calls_overlap
    (tz : Calendar)
    (calc : Date -> SpacedRepetitionCard.row -> Q
            -> SuperMemoService.SuperMemoResult) :
  (forall calls db,
     onePerPair db -> onePerPair (runUpdates tz calc calls db))
  /\ (forall now a db,
        Async.run (Async.updateMastery tz calc now a) db
        = MasteryService.updateMastery tz calc now a db)
  /\ (forall now a now' a' db,
        Async.overlap [] (Async.updateMastery tz calc now a)
          (Async.updateMastery tz calc now' a') db
        = runUpdates tz calc [(now, a); (now', a')] db)
  /\ (let db' :=
        Async.overlap takingTurns
          (Async.updateMastery tz calc 1000 (attempt true 4%Q))
          (Async.updateMastery tz calc 1001 (attempt true 4%Q)) emptyDb in
      List.length (progressOf 1 "CP.FR.L1.1" db') = 2%nat
      /\ List.length (cardsOf 1 "CP.FR.L1.1" db') = 2%nat
      /\ ~ onePerPair db').
Proof.
  split; [|split; [|split]].
  - intros calls. induction calls as [|[now a] calls IH]; intros db H.
    + exact H.
    + cbn [runUpdates fold_left fst snd]. apply IH.
      now apply updateMastery_onePerPair.
  - apply run_updateMastery.
  - intros now a now' a' db. cbn [Async.overlap runUpdates fold_left fst snd].
    unfold exec. now rewrite !run_updateMastery.
  - cbv zeta.
    assert (Hrows : List.length
                      (progressOf 1 "CP.FR.L1.1"
                         (Async.overlap takingTurns
                            (Async.updateMastery tz calc 1000 (attempt true 4%Q))
                            (Async.updateMastery tz calc 1001 (attempt true 4%Q))
                            emptyDb)) = 2%nat)
      by (vm_compute; reflexivity).
    split; [exact Hrows|]. split; [vm_compute; reflexivity|].
    intros H. destruct (H 1 "CP.FR.L1.1") as [Hp _].
    rewrite Hrows in Hp. lia.
Qed.

Lemma X6_one_row_per_pair_unless_calls_overlap_witness : onePerPair dbNineteen.
Proof.
  destruct (X6_one_row_per_pair_unless_calls_overlap utc
              SuperMemoService.calculateNextReview) as (Hsequence & _).
  apply (Hsequence nineteenAttempts emptyDb).
  intros s c. split; apply Nat.le_0_l.
Defined.

(** X7.  When primary keys are unique, [updateMastery] on one pair leaves
    the Progress rows, the ReviewCards and the outcomes of every other pair
    exactly as they were. *)
Theorem X7_updateMastery_leaves_other_pairs
    (tz : Calendar)
    (calc : Date -> SpacedRepetitionCard.row -> Q
            -> SuperMemoService.SuperMemoResult)
    (now : Date) (a : OutcomeInput) (db : Db) (s' : Z) (c' : string) :
  uniqueIds db ->
  ~ (s' = studentId a /\ c' = competenceCode a) ->
  let db' := exec (MasteryService.updateMastery tz calc now a) db in
  progressOf s' c' db' = progressOf s' c' db
  /\ cardsOf s' c' db' = cardsOf s' c' db
  /\ outcomesOf s' c' db' = outcomesOf s' c' db.
Proof. intros Hu Hother. now apply updateMastery_frame. Qed.

Lemma X7_updateMastery_leaves_other_pairs_witness :
  progressOf 1 "CP.FR.L1.1"
    (exec (MasteryService.updateMastery utc SuperMemoService.calculateNextReview
             2000 otherAttempt) dbMastered)
  = progressOf 1 "CP.FR.L1.1" dbMastered.
Proof.
  apply (X7_updateMastery_leaves_other_pairs utc
           SuperMemoService.calculateNextReview 2000 otherAttempt dbMastered
           1 "CP.FR.L1.1").
  - apply updateMastery_uniqueIds. apply emptyDb_uniqueIds.
  - intros [_ H]. discriminate H.
Defined.

(** ** What [updateMastery] returns *)

Lemma isBlocked_outcomes s c d d' :
  exerciseOutcomes d = exerciseOutcomes d' ->
  PrerequisiteService.isBlocked s c d = PrerequisiteService.isBlocked s c d'.
Proof.
  intros H. unfold PrerequisiteService.isBlocked, outcomesOf. now rewrite H.
Qed.

Lemma getRemediation_tables s c d d' :
  exerciseOutcomes d = exerciseOutcomes d' ->
  competencePrerequisites d = competencePrerequisites d' ->
  PrerequisiteService.getRemediation s c d
  = PrerequisiteService.getRemediation s c d'.
Proof.
  intros Ho Hp. unfold PrerequisiteService.getRemediation.
  rewrite (isBlocked_outcomes s c d d' Ho).
  unfold PrerequisiteService.getPrerequisites. now rewrite Hp.
Qed.

Section UpdateMasteryResult.
Variable tz : Calendar.
Variable calc :
  Date -> SpacedRepetitionCard.row -> Q -> SuperMemoService.SuperMemoResult.
Variables (now : Date) (a : OutcomeInput) (db : Db).

Lemma updateMastery_eval :
  let s := studentId a in
  let c := competenceCode a in
  let db' := exec (MasteryService.updateMastery tz calc now a) db in
  let w := window s c db' in
  let pct := MasteryService.masteryPercentOf w (hintsUsed a) in
  let avg := MasteryService.averageQualityOf w in
  let card :=
    match cardsOf s c db with
    | card :: _ => card
    | [] => defaultCard tz now s c
              (nextId (map SpacedRepetitionCard.id (spacedRepetitionCards db)))
    end in
  let sm := calc now card (quality a) in
  let blocked := PrerequisiteService.isBlocked s c db' in
  eval (MasteryService.updateMastery tz calc now a) db
  = {| MasteryService.mastery :=
         {| MasteryService.percent := JS.round2 pct;
            MasteryService.level := MasteryService.masteryLevelOf pct avg;
            MasteryService.averageQuality := JS.round2 avg;
            MasteryService.needsReview :=
              MasteryService.needsReviewOf pct avg |};
       MasteryService.spacedRepetition :=
         {| MasteryService.nextReview := SuperMemoService.nextReviewDate sm;
            MasteryService.intervalDays := SuperMemoService.interval sm;
            MasteryService.repetitionNumber :=
              SuperMemoService.repetitionNumber sm |};
       MasteryService.status := if blocked then "blocked" else "progressing";
       MasteryService.remediation :=
         if blocked then PrerequisiteService.getRemediation s c db' else None |}.
Proof.
  cbv zeta. rewrite updateMastery_window.
  set (s := studentId a). set (c := competenceCode a).
  set (card := match cardsOf s c db with
               | card :: _ => card
               | [] => defaultCard tz now s c
                         (nextId (map SpacedRepetitionCard.id
                                    (spacedRepetitionCards db)))
               end).
  set (sm := calc now card (quality a)).
  set (blocked := PrerequisiteService.isBlocked s c
                    (exec (MasteryService.updateMastery tz calc now a) db)).
  pose proof (updateMastery_exerciseOutcomes tz calc now a db) as Hout.
  assert (Hpre : competencePrerequisites
                   (exec (MasteryService.updateMastery tz calc now a) db)
                 = competencePrerequisites db).
  { rewrite updateMastery_exec. cbv zeta. cbn [competencePrerequisites].
    apply recordOutcome_tables. }
  destruct (recordOutcome_tables now a db) as (Ho1 & Hsp1 & Hk1 & Hp1 & _).
  unfold MasteryService.updateMastery.
  rewrite eval_bind. cbv beta.
  set (db1 := exec (ErrorPatternService.recordOutcome now a) db) in *.
  rewrite eval_bind, exec_select, eval_select. cbv beta zeta.
  rewrite eval_bind, exec_select, eval_select. cbv beta zeta.
  fold s c. fold (window s c db1).
  rewrite eval_bind. cbv beta.
  set (d2 := exec _ db1).
  assert (Hd2 : exerciseOutcomes d2 = exerciseOutcomes db1
                /\ spacedRepetitionCards d2 = spacedRepetitionCards db1
                /\ competencePrerequisites d2 = competencePrerequisites db1).
  { subst d2. destruct (progressOf s c db1); repeat split. }
  destruct Hd2 as (Ho2 & Hk2 & Hp2).
  rewrite eval_bind, exec_select, eval_select. cbv beta zeta.
  assert (Hc2 : cardsOf s c d2 = cardsOf s c db)
    by (unfold cardsOf; now rewrite Hk2, Hk1).
  rewrite Hc2.
  rewrite eval_bind. cbv beta.
  set (mcard := match cardsOf s c db with
                | [] => ReviewQueueRepo.createCard tz now s c
                | card0 :: _ => ret card0
                end).
  assert (Hcard : eval mcard d2 = card).
  { subst mcard card. destruct (cardsOf s c db); [|reflexivity].
    cbn [eval fst ReviewQueueRepo.createCard insert_spacedRepetitionCard
         defaultCard]. now rewrite Hk2, Hk1. }
  assert (Hd3 : exerciseOutcomes (exec mcard d2) = exerciseOutcomes d2
                /\ competencePrerequisites (exec mcard d2)
                   = competencePrerequisites d2).
  { subst mcard. destruct (cardsOf s c db); split; reflexivity. }
  destruct Hd3 as (Ho3 & Hp3).
  rewrite Hcard. fold sm.
  rewrite eval_bind. cbv beta.
  set (d4 := exec (ReviewQueueRepo.updateCardSchedule _ _ _ _ _ _ _) _).
  assert (Hd4 : exerciseOutcomes d4 = exerciseOutcomes db1
                /\ competencePrerequisites d4 = competencePrerequisites db1).
  { subst d4. cbn [exec snd ReviewQueueRepo.updateCardSchedule
                   update_spacedRepetitionCards exerciseOutcomes
                   competencePrerequisites].
    rewrite Ho3, Hp3, Ho2, Hp2. now split. }
  destruct Hd4 as (Ho4 & Hp4).
  rewrite eval_bind, exec_select, eval_select. cbv beta zeta.
  rewrite eval_bind. cbv beta.
  assert (Hb : PrerequisiteService.isBlocked s c d4 = blocked).
  { subst blocked. apply isBlocked_outcomes. now rewrite Ho4, Hout, Ho1. }
  rewrite Hb.
  assert (Hr : eval (if blocked
                     then select (PrerequisiteService.getRemediation s c)
                     else ret None) d4
               = if blocked
                 then PrerequisiteService.getRemediation s c
                        (exec (MasteryService.updateMastery tz calc now a) db)
                 else None).
  { destruct blocked; [|reflexivity]. rewrite eval_select.
    apply getRemediation_tables;
      [now rewrite Ho4, Hout, Ho1 | now rewrite Hp4, Hpre, Hp1]. }
  rewrite Hr. reflexivity.
Qed.

End UpdateMasteryResult.

(** X8.  What [updateMastery] returns is what it stored: the level and
    the review flag of the Progress row of the pair, its percentage rounded
    to two decimals, and the next review date, interval and repetition
    number of the pair's ReviewCard.  The status is "blocked" exactly when
    at least 3 of the 5 most recent outcomes of the pair, the new one
    included, are failures, and a remediation list is returned exactly
    then. *)
Theorem X8_updateMastery_returns_what_it_stored
    (tz : Calendar)
    (calc : Date -> SpacedRepetitionCard.row -> Q
            -> SuperMemoService.SuperMemoResult)
    (now : Date) (a : OutcomeInput) (db : Db) :
  let s := studentId a in
  let c := competenceCode a in
  let r := eval (MasteryService.updateMastery tz calc now a) db in
  let db' := exec (MasteryService.updateMastery tz calc now a) db in
  exists p k,
    progressRow s c db' = Some p
    /\ cardRow s c db' = Some k
    /\ MasteryService.level (MasteryService.mastery r)
       = StudentProgress.masteryLevel p
    /\ MasteryService.needsReview (MasteryService.mastery r)
       = StudentProgress.needsReview p
    /\ MasteryService.percent (MasteryService.mastery r)
       = JS.round2 (StudentProgress.progressPercent p)
    /\ MasteryService.nextReview (MasteryService.spacedRepetition r)
       = SpacedRepetitionCard.nextReviewAt k
    /\ MasteryService.intervalDays (MasteryService.spacedRepetition r)
       = SpacedRepetitionCard.intervalDays k
    /\ MasteryService.repetitionNumber (MasteryService.spacedRepetition r)
       = SpacedRepetitionCard.repetitionNumber k
    /\ (MasteryService.status r = "blocked" <-> 3 <= recentFailures s c db')
    /\ (MasteryService.status r = "progressing"
        <-> recentFailures s c db' < 3)
    /\ (MasteryService.remediation r = None
        <-> MasteryService.status r = "progressing").
Proof.
  intros s c r db'. subst r. rewrite updateMastery_eval. cbv zeta.
  fold s c. fold db'.
  unfold progressRow, cardRow. subst db' s c.
  rewrite updateMastery_progressOf, updateMastery_cardsOf. cbv zeta.
  set (s := studentId a). set (c := competenceCode a).
  set (db' := exec (MasteryService.updateMastery tz calc now a) db).
  assert (Hblocked : PrerequisiteService.isBlocked s c db'
                     = (3 <=? recentFailures s c db')) by reflexivity.
  assert (Hrem : PrerequisiteService.isBlocked s c db' = true ->
                 PrerequisiteService.getRemediation s c db' <> None).
  { intros Hb. unfold PrerequisiteService.getRemediation. rewrite Hb.
    discriminate. }
  destruct (progressOf s c db) as [|prev prest];
    destruct (cardsOf s c db) as [|card crest];
    eexists; eexists; (split; [reflexivity|]); (split; [reflexivity|]);
    cbn [MasteryService.mastery MasteryService.level
         MasteryService.needsReview MasteryService.percent
         MasteryService.spacedRepetition MasteryService.nextReview
         MasteryService.intervalDays MasteryService.repetitionNumber
         MasteryService.status MasteryService.remediation
         newProgress setProgress scheduled
         StudentProgress.masteryLevel StudentProgress.needsReview
         StudentProgress.progressPercent SpacedRepetitionCard.nextReviewAt
         SpacedRepetitionCard.intervalDays
         SpacedRepetitionCard.repetitionNumber];
    do 6 (split; [reflexivity|]);
    rewrite Hblocked in *; revert Hrem;
    (destruct (3 <=? recentFailures s c db') eqn:E3; intros Hrem;
     [apply Z.leb_le in E3 | apply Z.leb_gt in E3]);
    repeat split; intros E;
    first [ reflexivity | discriminate E | lia
          | exfalso; lia | exfalso; now apply (Hrem eq_refl) ].
Qed.

(** ** Rounding, penalty and classification *)


Lemma round2_percent (x : Q) :
  (0 <= x <= 100)%Q -> (0 <= JS.round2 x <= 100)%Q.
Proof.
  intros [H0 H100]. unfold JS.round2, JS.Math_round.
  set (y := (x * 100 + (1 # 2))%Q).
  assert (Hlo : (0 <= Qfloor y)%Z).
  { change 0%Z with (Qfloor 0). apply Qfloor_resp_le. subst y. lra. }
  assert (Hhi : (Qfloor y <= 10000)%Z).
  { change 10000%Z with (Qfloor (10000 + (1 # 2))).
    apply Qfloor_resp_le. subst y. lra. }
  split.
  - apply Qle_shift_div_l; [reflexivity|].
    rewrite Qmult_0_l. change 0%Q with (inject_Z 0).
    now rewrite <- Zle_Qle.
  - apply Qle_shift_div_r; [reflexivity|].
    change (100 * 100)%Q with (inject_Z 10000). now rewrite <- Zle_Qle.
Qed.




(** X10.  The hint penalty of [updateMastery]: between two attempts on the
    same window, the one with more hints never gets the higher percentage;
    from five hints on the percentage no longer changes (the penalty is
    capped at 10 points); so no number of hints costs more than five
    hints. *)
Theorem X10_hint_penalty_monotone_and_capped
    (w : list ExerciseOutcome.row) :
  (forall h1 h2,
     h1 <= h2 ->
     (MasteryService.masteryPercentOf w h2
      <= MasteryService.masteryPercentOf w h1)%Q)
  /\ (forall h,
        5 <= h ->
        (MasteryService.masteryPercentOf w h
         == MasteryService.masteryPercentOf w 5)%Q)
  /\ (forall h,
        (MasteryService.masteryPercentOf w 5
         <= MasteryService.masteryPercentOf w h)%Q).
Proof.
  assert (Hmono : forall h1 h2,
             h1 <= h2 ->
             (MasteryService.masteryPercentOf w h2
              <= MasteryService.masteryPercentOf w h1)%Q).
  { intros h1 h2 H. unfold MasteryService.masteryPercentOf, JS.Math_max,
      JS.Math_min.
    apply Q.max_le_compat_l, Q.min_le_compat_l.
    unfold Qminus. apply Qplus_le_compat; [apply Qle_refl|].
    apply Qopp_le_compat. apply Q.min_le_compat_l.
    apply Qmult_le_compat_r; [|discriminate]. now rewrite <- Zle_Qle. }
  assert (Hcap : forall h,
             5 <= h ->
             (MasteryService.masteryPercentOf w h
              == MasteryService.masteryPercentOf w 5)%Q).
  { intros h H. unfold MasteryService.masteryPercentOf, JS.Math_max,
      JS.Math_min.
    apply Q.max_compat; [reflexivity|]. apply Q.min_compat; [reflexivity|].
    unfold Qminus. apply Qplus_comp; [reflexivity|]. apply Qopp_comp.
    rewrite (Q.min_l 10 (inject_Z h * 2)).
    - reflexivity.
    - change 10%Q with (inject_Z 5 * 2)%Q.
      apply Qmult_le_compat_r; [|discriminate]. now rewrite <- Zle_Qle. }
  split; [exact Hmono|]. split; [exact Hcap|].
  intros h. destruct (Z.le_gt_cases h 5) as [H|H].
  - now apply Hmono.
  - rewrite (Hcap h) by lia. apply Qle_refl.
Qed.

Lemma X10_hint_penalty_monotone_and_capped_witness :
  (MasteryService.masteryPercentOf oneSuccess 3
   <= MasteryService.masteryPercentOf oneSuccess 1)%Q
  /\ (MasteryService.masteryPercentOf oneSuccess 8
      == MasteryService.masteryPercentOf oneSuccess 5)%Q.
Proof.
  destruct (X10_hint_penalty_monotone_and_capped oneSuccess)
    as (Hmono & Hcap & _).
  split; [apply Hmono | apply Hcap]; apply Z.leb_le; reflexivity.
Defined.

Lemma level_review_consistent pct avg :
  (MasteryService.masteryLevelOf pct avg = mastered ->
   MasteryService.needsReviewOf pct avg = false)
  /\ (MasteryService.masteryLevelOf pct avg = not_started ->
      MasteryService.needsReviewOf pct avg = true).
Proof.
  destruct (masteryLevelOf_spec pct avg avg (Qeq_refl avg)) as (Hm & _ & Hn).
  pose proof (needsReviewOf_spec pct avg avg (Qeq_refl avg)) as Hr.
  split.
  - intros H. apply Hm in H. destruct H as [H90 H3].
    apply not_true_iff_false. rewrite Hr. intros [H|H]; lra.
  - intros H. apply Hn in H. destruct H as [_ H50].
    apply Hr. left. apply Qnot_le_lt in H50. lra.
Qed.

(** X11.  The Progress row left by [updateMastery] is never both
    [mastered] and flagged for review, and a row classified [not_started]
    is always flagged for review. *)
Theorem X11_level_and_review_flag_agree
    (tz : Calendar)
    (calc : Date -> SpacedRepetitionCard.row -> Q
            -> SuperMemoService.SuperMemoResult)
    (now : Date) (a : OutcomeInput) (db : Db) :
  exists p,
    progressRow (studentId a) (competenceCode a)
      (exec (MasteryService.updateMastery tz calc now a) db) = Some p
    /\ match StudentProgress.masteryLevel p with
       | mastered => StudentProgress.needsReview p = false
       | not_started => StudentProgress.needsReview p = true
       | in_progress => True
       end.
Proof.
  unfold progressRow. rewrite updateMastery_progressOf. cbv zeta.
  set (w := window _ _ _).
  destruct (level_review_consistent
              (MasteryService.masteryPercentOf w (hintsUsed a))
              (MasteryService.averageQualityOf w)) as [Hm Hn].
  destruct (progressOf _ _ db); eexists; (split; [reflexivity|]);
    cbn [newProgress setProgress StudentProgress.masteryLevel
         StudentProgress.needsReview];
    destruct (MasteryService.masteryLevelOf _ _) eqn:E; auto.
Qed.

(** ** The window under a clock that moves forward *)

Lemma orderBy_newest_last {A : Type} (le : A -> A -> bool) (l acc : list A) r :
  Forall (fun x => le x r = false) l ->
  fold_right (insert_sorted le) (r :: acc) l
  = r :: fold_right (insert_sorted le) acc l.
Proof.
  induction 1 as [|x l Hx _ IH]; cbn [fold_right]; [reflexivity|].
  rewrite IH. cbn [insert_sorted]. now rewrite Hx.
Qed.

Lemma newestFirst_app_newest l r :
  Forall (fun o => ExerciseOutcome.attemptedAt o < ExerciseOutcome.attemptedAt r)
    l ->
  newestFirst (l ++ [r]) = r :: newestFirst l.
Proof.
  intros H. unfold newestFirst, orderBy. rewrite fold_right_app.
  cbn [fold_right insert_sorted]. apply orderBy_newest_last.
  eapply Forall_impl; [|exact H]. intros o Ho. cbv beta in *.
  apply Z.leb_gt. exact Ho.
Qed.

Lemma updateMastery_stored_counts
    (tz : Calendar)
    (calc : Date -> SpacedRepetitionCard.row -> Q
            -> SuperMemoService.SuperMemoResult)
    (now : Date) (a : OutcomeInput) (db : Db) :
  let s := studentId a in
  let c := competenceCode a in
  let db' := exec (MasteryService.updateMastery tz calc now a) db in
  exists p,
    progressRow s c db' = Some p
    /\ StudentProgress.totalAttempts p
       = MasteryService.totalAttemptsOf (window s c db')
    /\ StudentProgress.successfulAttempts p
       = MasteryService.successfulAttemptsOf (window s c db').
Proof.
  cbv zeta. unfold progressRow. rewrite updateMastery_progressOf. cbv zeta.
  destruct (progressOf _ _ db); eexists; (split; [reflexivity|]); now split.
Qed.

(** X12.  When every earlier outcome of the pair was attempted strictly
    before now, the window that [updateMastery] aggregates starts with the
    attempt just recorded, followed by the 19 most recent earlier outcomes;
    so the stored [totalAttempts] is one more than the number of earlier
    outcomes, up to 20, and on the very first attempt of a pair it is 1,
    with [successfulAttempts] 1 or 0 as the attempt is correct or not. *)
Theorem X12_window_starts_with_recorded_attempt
    (tz : Calendar)
    (calc : Date -> SpacedRepetitionCard.row -> Q
            -> SuperMemoService.SuperMemoResult)
    (now : Date) (a : OutcomeInput) (db : Db) :
  let s := studentId a in
  let c := competenceCode a in
  let db' := exec (MasteryService.updateMastery tz calc now a) db in
  clockAhead now s c db ->
  window s c db'
  = outcomeRow now a db :: firstn 19 (newestFirst (outcomesOf s c db))
  /\ exists p,
       progressRow s c db' = Some p
       /\ StudentProgress.totalAttempts p
          = Z.min 20 (1 + Z.of_nat (List.length (outcomesOf s c db)))
       /\ (outcomesOf s c db = [] ->
           StudentProgress.totalAttempts p = 1
           /\ StudentProgress.successfulAttempts p
              = if isCorrect a then 1 else 0).
Proof.
  intros s c db' Hclock.
  assert (Hw : window s c db'
               = outcomeRow now a db
                 :: firstn 19 (newestFirst (outcomesOf s c db))).
  { unfold window, outcomesOf. subst db'.
    rewrite updateMastery_exerciseOutcomes, filter_app.
    cbn [filter outcomeRow ExerciseOutcome.studentId
         ExerciseOutcome.competenceCode].
    fold s c. rewrite pair_key_refl.
    fold (outcomeRow now a db). fold (outcomesOf s c db).
    rewrite newestFirst_app_newest; [reflexivity|]. exact Hclock. }
  split; [exact Hw|].
  destruct (updateMastery_stored_counts tz calc now a db) as (p & Hp & Ht & Hs).
  fold s c db' in Hp, Ht, Hs. exists p. split; [exact Hp|].
  rewrite Ht, Hs, Hw. split.
  - rewrite totalAttemptsOf_max. cbn [List.length].
    rewrite length_firstn.
    unfold newestFirst. rewrite (Permutation_length (orderBy_perm _ _)). lia.
  - intros Hnone. rewrite Hnone. cbn [newestFirst orderBy fold_right firstn].
    split; [reflexivity|].
    unfold MasteryService.successfulAttemptsOf.
    cbn [filter outcomeRow ExerciseOutcome.isCorrect].
    destruct (isCorrect a); reflexivity.
Qed.

(** The first attempt of a pair, in the empty database. *)
Lemma X12_window_starts_with_recorded_attempt_witness :
  exists p,
    progressRow 1 "CP.FR.L1.1" dbMastered = Some p
    /\ StudentProgress.totalAttempts p = 1
    /\ StudentProgress.successfulAttempts p = 1.
Proof.
  destruct (X12_window_starts_with_recorded_attempt utc
              SuperMemoService.calculateNextReview 1000 (attempt true 5%Q)
              emptyDb) as (_ & p & Hp & _ & Hfirst).
  - constructor.
  - exists p. split; [exact Hp|]. apply Hfirst. reflexivity.
Defined.

(** ** Blocking by recent failures *)

Lemma filter_firstn_length {A : Type} (f : A -> bool) n l :
  (List.length (filter f (firstn n l)) <= List.length (filter f l))%nat.
Proof.
  revert n. induction l as [|x l IH]; intros [|n]; cbn [firstn filter];
    try apply Nat.le_0_l.
  destruct (f x); cbn [List.length]; [apply le_n_S|]; apply IH.
Qed.

Lemma Permutation_filter_length {A : Type} (f : A -> bool) l l' :
  Permutation l l' ->
  List.length (filter f l) = List.length (filter f l').
Proof.
  induction 1 as [|x l l' _ IH|x y l|l l' l'' _ IH1 _ IH2]; cbn [filter].
  - reflexivity.
  - destruct (f x); cbn [List.length]; now rewrite IH.
  - destruct (f x), (f y); reflexivity.
  - now rewrite IH1.
Qed.

Lemma recentFailures_le s c db :
  recentFailures s c db <= failuresOf s c db
  /\ recentFailures s c db <= 5
  /\ recentFailures s c db <= Z.of_nat (List.length (outcomesOf s c db)).
Proof.
  unfold recentFailures, failuresOf, limit, newestFirst.
  set (f := fun o => negb (ExerciseOutcome.isCorrect o)).
  set (sorted := orderBy _ (outcomesOf s c db)).
  assert (H1 : (List.length (filter f (firstn 5 sorted))
                <= List.length (filter f sorted))%nat)
    by apply filter_firstn_length.
  assert (H2 : List.length (filter f sorted)
               = List.length (filter f (outcomesOf s c db)))
    by (apply Permutation_filter_length, orderBy_perm).
  assert (H3 : (List.length (filter f (firstn 5 sorted))
                <= List.length (firstn 5 sorted))%nat)
    by apply filter_length_le.
  assert (H4 : (List.length (firstn 5 sorted) <= 5)%nat)
    by apply firstn_le_length.
  assert (H5 : (List.length (firstn 5 sorted) <= List.length sorted)%nat)
    by (rewrite length_firstn; apply Nat.le_min_r).
  assert (H6 : List.length sorted = List.length (outcomesOf s c db))
    by (apply Permutation_length, orderBy_perm).
  lia.
Qed.

(** X13.  [PrerequisiteService.isBlocked] reports a learner as blocked on
    a skill only after at least three failed outcomes on that skill: a pair
    with fewer than three outcomes, or fewer than three failures in its
    whole history, is never blocked, and neither is a pair whose five most
    recent outcomes are all correct, whatever came before. *)
Theorem X13_blocked_needs_three_failures (s : Z) (c : string) (db : Db) :
  (PrerequisiteService.isBlocked s c db = true -> 3 <= failuresOf s c db)
  /\ ((List.length (outcomesOf s c db) < 3)%nat ->
      PrerequisiteService.isBlocked s c db = false)
  /\ (Forall (fun o => ExerciseOutcome.isCorrect o = true)
        (limit 5 (newestFirst (outcomesOf s c db))) ->
      PrerequisiteService.isBlocked s c db = false).
Proof.
  assert (Hb : PrerequisiteService.isBlocked s c db
               = (3 <=? recentFailures s c db)) by reflexivity.
  destruct (recentFailures_le s c db) as (H1 & H2 & H3).
  rewrite Hb. split; [|split].
  - intros H. apply Z.leb_le in H. lia.
  - intros H. apply Z.leb_gt. lia.
  - intros H. apply Z.leb_gt. unfold recentFailures.
    assert (E : filter (fun o => negb (ExerciseOutcome.isCorrect o))
                  (limit 5 (newestFirst (outcomesOf s c db))) = []).
    { induction H as [|o l Ho _ IH]; cbn [filter]; [reflexivity|].
      now rewrite Ho. }
    rewrite E. cbn. lia.
Qed.

Lemma X13_blocked_needs_three_failures_witness :
  3 <= failuresOf 1 "CE2.MA.P.1.1" dbStruggling
  /\ PrerequisiteService.isBlocked 1 "CE2.MA.P.1.1" dbNoAttempt = false.
Proof.
  destruct (X13_blocked_needs_three_failures 1 "CE2.MA.P.1.1" dbStruggling)
    as (Hthree & _).
  destruct (X13_blocked_needs_three_failures 1 "CE2.MA.P.1.1" dbNoAttempt)
    as (_ & Hfew & _).
  split; [apply Hthree; reflexivity | apply Hfew; cbn; lia].
Defined.

(** ** Listings of the curriculum *)

Lemma forEach_ext {A S R R' : Type}
    (f : A -> S -> S * JS.completion R) (g : A -> S -> S * JS.completion R')
    arr s :
  (forall x acc, fst (f x acc) = fst (g x acc)) ->
  JS.forEach arr f s = JS.forEach arr g s.
Proof.
  intros H. unfold JS.forEach. revert s.
  induction arr as [|x arr IH]; intros s; cbn [fold_left]; [reflexivity|].
  rewrite H. apply IH.
Qed.

Lemma forEach_append {A B : Type} (f : A -> list B) (arr : list A) (s : list B) :
  JS.forEach (R := unit) arr (fun x acc => ((acc ++ f x)%list, JS.Normal)) s
  = (s ++ flat_map f arr)%list.
Proof.
  unfold JS.forEach. revert s.
  induction arr as [|x arr IH]; intros s; cbn [fold_left flat_map fst].
  - now rewrite app_nil_r.
  - rewrite IH. now rewrite <- app_assoc.
Qed.

Lemma forEach_push_map {A B : Type} (f : A -> B) (arr : list A) (s : list B) :
  JS.forEach (R := unit) arr (fun x acc => (JS.push (f x) acc, JS.Normal)) s
  = (s ++ map f arr)%list.
Proof.
  unfold JS.push. rewrite (forEach_append (fun x => [f x])).
  f_equal; induction arr as [|x arr IH]; cbn [flat_map map app]; congruence.
Qed.

(** A scan of a subject that pushes one item per competence. *)
Lemma scan_subject {V B : Type} (f : string -> V -> B)
    (domains : list (string * list (string * V))) (s : list B) :
  JS.forEach (R := unit) (JS.Object_entries domains)
    (fun '(domainKey, domain) acc =>
       (JS.forEach (R := unit) (JS.Object_values domain)
          (fun competence acc => (JS.push (f domainKey competence) acc, JS.Normal))
          acc, JS.Normal)) s
  = (s ++ map (fun e => f (fst e) (snd e)) (subjectEntries domains))%list.
Proof.
  rewrite (forEach_ext _
             (fun (d : string * list (string * V)) (acc : list B) =>
                ((acc ++ map (fun kv => f (fst d) (snd kv)) (snd d))%list,
                 JS.Normal (R := unit)))).
  - rewrite forEach_append. f_equal. unfold subjectEntries, JS.Object_entries.
    induction domains as [|d domains IH]; cbn [flat_map map]; [reflexivity|].
    rewrite map_app, map_map, IH. reflexivity.
  - intros [domainKey domain] acc. cbn [fst snd].
    rewrite forEach_push_map. unfold JS.Object_values. now rewrite map_map.
Qed.

Lemma scan_values {V B : Type} (f : V -> B)
    (domains : list (string * list (string * V))) (s : list B) :
  JS.forEach (R := unit) (JS.Object_values domains)
    (fun domain acc =>
       (JS.forEach (R := unit) (JS.Object_values domain)
          (fun competence acc => (JS.push (f competence) acc, JS.Normal))
          acc, JS.Normal)) s
  = (s ++ map f (subjectValues domains))%list.
Proof.
  rewrite (forEach_ext _
             (fun (domain : list (string * V)) (acc : list B) =>
                ((acc ++ map f (map snd domain))%list, JS.Normal (R := unit)))).
  - rewrite forEach_append. f_equal. unfold subjectValues, JS.Object_values.
    induction domains as [|d domains IH]; cbn [flat_map map]; [reflexivity|].
    rewrite map_app, IH. reflexivity.
  - intros domain acc. cbn [fst]. now rewrite forEach_push_map.
Qed.

Section Listings.
Variable cp : CPReference.
Variable ce1 : CE1CompetenceFramework.
Variable ce2 : CompetenceFramework.

Lemma getCompetencesByLevel_CP :
  CompetenceFrameworkService.getCompetencesByLevel cp ce1 ce2
    CompetenceFrameworkService.CP
  = map (fun e => CompetenceFrameworkService.unifiedCP (fst e) (snd e)) cp.
Proof.
  unfold CompetenceFrameworkService.getCompetencesByLevel, JS.Object_entries.
  rewrite (forEach_ext _
             (fun (e : string * CPCompetence)
                  (acc : list CompetenceFrameworkService.UnifiedCompetenceData) =>
                (JS.push (CompetenceFrameworkService.unifiedCP (fst e) (snd e))
                   acc, JS.Normal (R := unit)))).
  - now rewrite forEach_push_map.
  - now intros [code data] acc.
Qed.

Lemma getCompetencesByLevel_CE1 :
  CompetenceFrameworkService.getCompetencesByLevel cp ce1 ce2
    CompetenceFrameworkService.CE1
  = (map (unifiedCE1 "francais") (subjectEntries (francais ce1))
     ++ map (unifiedCE1 "mathematiques")
          (subjectEntries (mathematiques ce1)))%list.
Proof.
  unfold CompetenceFrameworkService.getCompetencesByLevel.
  rewrite (scan_subject
             (fun domainKey competence =>
                unifiedCE1 "francais" (domainKey, competence))).
  rewrite (scan_subject
             (fun domainKey competence =>
                unifiedCE1 "mathematiques" (domainKey, competence))).
  cbn [app]. f_equal; apply map_ext; now intros [k v].
Qed.

Lemma getCompetencesByLevel_CE2 :
  CompetenceFrameworkService.getCompetencesByLevel cp ce1 ce2
    CompetenceFrameworkService.CE2
  = (map (unifiedCE2 "francais") (subjectEntries (francais ce2))
     ++ map (unifiedCE2 "mathematiques")
          (subjectEntries (mathematiques ce2)))%list.
Proof.
  unfold CompetenceFrameworkService.getCompetencesByLevel.
  rewrite (scan_subject
             (fun domainKey competence =>
                unifiedCE2 "francais" (domainKey, competence))).
  rewrite (scan_subject
             (fun domainKey competence =>
                unifiedCE2 "mathematiques" (domainKey, competence))).
  cbn [app]. f_equal; apply map_ext; now intros [k v].
Qed.

End Listings.

(** C6 (the code at the failing input).  CE1.FR.O1.1 declares the CP
    prerequisites CP.FR.O1.1 and CP.FR.O1.2 in the CE1 table.  For a
    learner who has no Progress row for the skill nor for CP.FR.O1.1, whom
    the claim therefore counts as blocked on the skill, and whenever the CP
    table has no entry under the code of the skill and the database records
    no edge for it, [getRecommendations] for CE1 holds the (medium, new)
    entry of the skill and no (low, prerequisite) entry for it: [isBlocked]
    finds no prerequisite, because the CE1 lookup inside
    [getCompetenceByCode] never finds the competence. *)
Theorem C6_recommends_blocked_ce1_skill_as_new
    (cp : CPReference) (student : Z) (db : Db) :
  JS.prop cp "CE1.FR.O1.1" = None ->
  recordedPrerequisites "CE1.FR.O1.1" db = [] ->
  unseen student db "CE1.FR.O1.1" = true ->
  progressOf student "CP.FR.O1.1" db = [] ->
  let recs :=
    CompetenceFrameworkService.getRecommendations cp CE1_COMPETENCES_2025
      CE2_COMPETENCES_2026 student CompetenceFrameworkService.CE1 db in
  option_map prerequis_cp
    (JS.prop CE1_COMPETENCES_2025_francais_oral "CE1.FR.O1.1")
  = Some ["CP.FR.O1.1"; "CP.FR.O1.2"]
  /\ ~ hasMastered student "CP.FR.O1.1" db
  /\ In (newRecommendation "CE1.FR.O1.1") recs
  /\ Forall (fun r =>
               CompetenceFrameworkService.competenceCode r = "CE1.FR.O1.1" ->
               CompetenceFrameworkService.type r
               <> CompetenceFrameworkService.prerequisite)
       recs.
Proof.
  intros Hcp Hedges Hunseen Hrow recs.
  assert (Hblocked : CompetenceFrameworkService.isBlocked cp
                       CE1_COMPETENCES_2025 CE2_COMPETENCES_2026 student
                       "CE1.FR.O1.1" db
                     = {| CompetenceFrameworkService.isBlocked_ := false;
                          CompetenceFrameworkService.blockingPrerequisites := [];
                          CompetenceFrameworkService.missingPrerequisites := []
                       |}).
  { assert (Hpre : CompetenceFrameworkService.getPrerequisites cp
                     CE1_COMPETENCES_2025 CE2_COMPETENCES_2026 "CE1.FR.O1.1"
                     db = []).
    { unfold CompetenceFrameworkService.getPrerequisites,
        CompetenceFrameworkService.getCompetenceByCode.
      unfold recordedPrerequisites in Hedges.
      rewrite Hedges, Hcp, getCE1CompetenceByCode_None. reflexivity. }
    unfold CompetenceFrameworkService.isBlocked. rewrite Hpre. reflexivity. }
  destruct (getRecommendations_rules cp CE1_COMPETENCES_2025
              CE2_COMPETENCES_2026 student CompetenceFrameworkService.CE1 db)
    as (_ & Hunseens & _ & leapEntries & Hleaps & Hperm).
  fold recs in Hunseens, Hperm.
  split; [reflexivity|]. split.
  { unfold hasMastered. rewrite Hrow. intros []. }
  split.
  - assert (Hlisted : exists comp,
               In comp (CompetenceFrameworkService.getCompetencesByLevel cp
                          CE1_COMPETENCES_2025 CE2_COMPETENCES_2026
                          CompetenceFrameworkService.CE1)
               /\ CompetenceFrameworkService.code comp = "CE1.FR.O1.1").
    { rewrite getCompetencesByLevel_CE1. eexists. split.
      - apply in_or_app. left. apply in_map. simpl. left. reflexivity.
      - reflexivity. }
    destruct Hlisted as (comp & Hcomp & Hcode).
    rewrite Forall_forall in Hunseens. specialize (Hunseens comp).
    cbv zeta in Hunseens. rewrite Hcode, Hblocked in Hunseens.
    apply Hunseens. apply filter_In. split; [exact Hcomp|].
    rewrite Hcode. exact Hunseen.
  - apply Forall_forall. intros r Hr Hcode.
    apply (Permutation_in _ Hperm) in Hr.
    apply in_app_or in Hr. destruct Hr as [Hr|Hr];
      [apply in_app_or in Hr; destruct Hr as [Hr|Hr]|].
    + apply in_map_iff in Hr. destruct Hr as (p & <- & _). discriminate.
    + apply in_map_iff in Hr. destruct Hr as (comp & <- & _).
      cbv zeta in *.
      destruct (CompetenceFrameworkService.isBlocked_ _) eqn:E.
      * cbn [prerequisiteRecommendation
             CompetenceFrameworkService.competenceCode] in Hcode.
        rewrite Hcode, Hblocked in E. discriminate E.
      * discriminate.
    + rewrite Forall_forall in Hleaps. destruct (Hleaps r Hr) as [_ Htype].
      rewrite Htype. discriminate.
Qed.

(** Learner 1, the empty database and the sample CP table. *)
Lemma C6_recommends_blocked_ce1_skill_as_new_witness :
  In (newRecommendation "CE1.FR.O1.1")
    (CompetenceFrameworkService.getRecommendations cpExcerpt
       CE1_COMPETENCES_2025 CE2_COMPETENCES_2026 1
       CompetenceFrameworkService.CE1 emptyDb).
Proof.
  destruct (C6_recommends_blocked_ce1_skill_as_new cpExcerpt 1 emptyDb)
    as (_ & _ & Hnew & _); try reflexivity.
  exact Hnew.
Defined.

Lemma subjectEntries_values {V : Type}
    (domains : list (string * list (string * V))) :
  map snd (subjectEntries domains) = subjectValues domains.
Proof.
  unfold subjectEntries, subjectValues.
  induction domains as [|d domains IH]; cbn [flat_map map]; [reflexivity|].
  rewrite map_app, map_map, IH. reflexivity.
Qed.

Lemma subjectKeys_length {V : Type}
    (domains : list (string * list (string * V))) :
  List.length (subjectKeys domains) = List.length (subjectEntries domains).
Proof.
  unfold subjectEntries, subjectKeys.
  induction domains as [|d domains IH]; cbn [flat_map]; [reflexivity|].
  now rewrite !length_app, !length_map, IH.
Qed.

Lemma getAllCE1CompetenceCodes_keys ce1 :
  CE1Competences2025.getAllCE1CompetenceCodes ce1
  = (subjectKeys (francais ce1) ++ subjectKeys (mathematiques ce1))%list.
Proof.
  unfold CE1Competences2025.getAllCE1CompetenceCodes.
  assert (H : forall (domains : list (string * CE1CompetenceDomain)) s,
             JS.forEach (R := unit) (JS.Object_values domains)
               (fun domain codes =>
                  (JS.forEach (R := unit) (JS.Object_keys domain)
                     (fun code codes => (JS.push code codes, JS.Normal))
                     codes, JS.Normal)) s
             = (s ++ subjectKeys domains)%list).
  { intros domains s.
    rewrite (forEach_ext _
               (fun (domain : CE1CompetenceDomain) (acc : list string) =>
                  ((acc ++ map fst domain)%list, JS.Normal (R := unit)))).
    - rewrite forEach_append. f_equal.
      unfold subjectKeys, JS.Object_values.
      induction domains as [|d domains IH]; cbn [flat_map map];
        [reflexivity|]. now rewrite IH.
    - intros domain acc. cbn [fst].
      rewrite (forEach_push_map (fun code : string => code)).
      unfold JS.Object_keys. now rewrite map_id. }
  rewrite !H. reflexivity.
Qed.

Lemma getAllCompetenceCodes_values ce2 :
  CE2Competences2026.getAllCompetenceCodes ce2
  = (map ce2_code (subjectValues (francais ce2))
     ++ map ce2_code (subjectValues (mathematiques ce2)))%list.
Proof.
  unfold CE2Competences2026.getAllCompetenceCodes. cbv beta zeta.
  rewrite !(scan_values ce2_code). reflexivity.
Qed.

(** X14.  [getCompetencesByLevel] lists competences of the requested level
    only.  For CP it lists the keys of the CP table in order; for CE2 its
    codes are those of [getAllCompetenceCodes], in the same order; for CE1
    it has as many entries as [getAllCE1CompetenceCodes] has codes; and
    every CE1 or CE2 entry is filed under "francais" or "mathematiques". *)
Theorem X14_getCompetencesByLevel_lists_the_level
    (cp : CPReference) (ce1 : CE1CompetenceFramework) (ce2 : CompetenceFramework) :
  let byLevel :=
    CompetenceFrameworkService.getCompetencesByLevel cp ce1 ce2 in
  (forall niv,
     Forall (fun u => CompetenceFrameworkService.niveau u = niv) (byLevel niv))
  /\ map CompetenceFrameworkService.code (byLevel CompetenceFrameworkService.CP)
     = JS.Object_keys cp
  /\ map CompetenceFrameworkService.code (byLevel CompetenceFrameworkService.CE2)
     = CE2Competences2026.getAllCompetenceCodes ce2
  /\ List.length (byLevel CompetenceFrameworkService.CE1)
     = List.length (CE1Competences2025.getAllCE1CompetenceCodes ce1)
  /\ Forall (fun u => CompetenceFrameworkService.domaine u = "francais"
                      \/ CompetenceFrameworkService.domaine u = "mathematiques")
       (byLevel CompetenceFrameworkService.CE1
        ++ byLevel CompetenceFrameworkService.CE2).
Proof.
  cbv zeta.
  rewrite getCompetencesByLevel_CP, getCompetencesByLevel_CE1,
    getCompetencesByLevel_CE2.
  split; [|split; [|split; [|split]]].
  - intros [| |];
      rewrite ?getCompetencesByLevel_CP, ?getCompetencesByLevel_CE1,
        ?getCompetencesByLevel_CE2, ?Forall_app, ?Forall_map;
      repeat split; apply Forall_forall; reflexivity.
  - rewrite map_map. reflexivity.
  - rewrite getAllCompetenceCodes_values, map_app, !map_map.
    rewrite <- !subjectEntries_values, !map_map. reflexivity.
  - rewrite getAllCE1CompetenceCodes_keys, !length_app, !length_map,
      !subjectKeys_length. reflexivity.
  - rewrite !Forall_app, !Forall_map. repeat split;
      apply Forall_forall; intros e _; cbn; auto.
Qed.

Lemma filter_all {A : Type} (f : A -> bool) l :
  Forall (fun x => f x = true) l -> filter f l = l.
Proof.
  induction 1 as [|x l Hx _ IH]; cbn [filter]; [reflexivity|].
  now rewrite Hx, IH.
Qed.

Lemma filter_none {A : Type} (f : A -> bool) l :
  Forall (fun x => f x = false) l -> filter f l = [].
Proof.
  induction 1 as [|x l Hx _ IH]; cbn [filter]; [reflexivity|].
  now rewrite Hx.
Qed.

Lemma filter_by_subject (subject dom : string)
    (entries : list (string * CE1CompetenceData)) :
  filter (fun u => String.eqb (CompetenceFrameworkService.domaine u) dom)
    (map (unifiedCE1 subject) entries)
  = if String.eqb subject dom then map (unifiedCE1 subject) entries else [].
Proof.
  destruct (String.eqb subject dom) eqn:E.
  - apply filter_all. rewrite Forall_map. apply Forall_forall.
    intros e _. exact E.
  - apply filter_none. rewrite Forall_map. apply Forall_forall.
    intros e _. exact E.
Qed.

Lemma getCE1CompetencesByDomain_values ce1 dom :
  CE1Competences2025.getCE1CompetencesByDomain ce1 dom
  = if String.eqb dom "francais" then subjectValues (francais ce1)
    else if String.eqb dom "mathematiques"
         then subjectValues (mathematiques ce1)
         else [].
Proof.
  unfold CE1Competences2025.getCE1CompetencesByDomain. cbv beta zeta.
  rewrite !(scan_values (fun c : CE1CompetenceData => c)), !map_id.
  reflexivity.
Qed.

(** X15.  For CE1, [getCompetencesByDomain] without a sub-domain and the
    data helper [getCE1CompetencesByDomain] list the same codes in the same
    order, for every domain name (none for a name other than "francais"
    and "mathematiques"); an empty sub-domain filter behaves like an absent
    one. *)
Theorem X15_getCompetencesByDomain_agrees_with_table
    (cp : CPReference) (ce1 : CE1CompetenceFramework) (ce2 : CompetenceFramework)
    (dom : string) :
  map CompetenceFrameworkService.code
    (CompetenceFrameworkService.getCompetencesByDomain cp ce1 ce2
       CompetenceFrameworkService.CE1 dom None)
  = map ce1_code (CE1Competences2025.getCE1CompetencesByDomain ce1 dom)
  /\ (forall niv,
        CompetenceFrameworkService.getCompetencesByDomain cp ce1 ce2 niv dom
          (Some "")
        = CompetenceFrameworkService.getCompetencesByDomain cp ce1 ce2 niv dom
            None).
Proof.
  split; [|reflexivity].
  unfold CompetenceFrameworkService.getCompetencesByDomain.
  cbn [JS.truthy_str]. rewrite getCompetencesByLevel_CE1, filter_app.
  rewrite !filter_by_subject, getCE1CompetencesByDomain_values.
  rewrite (String.eqb_sym dom "francais"), (String.eqb_sym dom "mathematiques").
  destruct (String.eqb "francais" dom) eqn:Ef.
  - apply String.eqb_eq in Ef. subst dom.
    change (String.eqb "mathematiques" "francais") with false.
    rewrite app_nil_r, map_map, <- subjectEntries_values, map_map.
    reflexivity.
  - destruct (String.eqb "mathematiques" dom); [|reflexivity].
    cbn [app]. rewrite map_map, <- subjectEntries_values, map_map.
    reflexivity.
Qed.

Lemma notMastered_spec student skill db :
  CompetenceFrameworkService.notMastered student skill db = false
  <-> hasMastered student skill db.
Proof.
  unfold CompetenceFrameworkService.notMastered, hasMastered.
  destruct (progressOf student skill db) as [|row rest]; cbn.
  - split; [discriminate | contradiction].
  - destruct (StudentProgress.masteryLevel row); cbn;
      split; intros H; first [reflexivity | discriminate H].
Qed.

(** X16.  [CompetenceFrameworkService.isBlocked] answers with two equal
    lists: the prerequisites of the competence, in the order of
    [getPrerequisites] and without duplicates, that the learner has not
    mastered (no Progress row, or a first row at another level).  The
    flag says whether that list is non-empty, so a competence all of whose
    prerequisites are mastered is not blocked. *)
Theorem X16_isBlocked_lists_unmastered_prerequisites
    (cp : CPReference) (ce1 : CE1CompetenceFramework) (ce2 : CompetenceFramework)
    (student : Z) (code : string) (db : Db) :
  let r := CompetenceFrameworkService.isBlocked cp ce1 ce2 student code db in
  let blocking := CompetenceFrameworkService.blockingPrerequisites r in
  CompetenceFrameworkService.missingPrerequisites r = blocking
  /\ NoDup blocking
  /\ (forall p,
        In p blocking
        <-> In p (CompetenceFrameworkService.getPrerequisites cp ce1 ce2 code db)
            /\ ~ hasMastered student p db)
  /\ (CompetenceFrameworkService.isBlocked_ r = false <-> blocking = [])
  /\ (CompetenceFrameworkService.isBlocked_ r = false
      <-> Forall (fun p => hasMastered student p db)
            (CompetenceFrameworkService.getPrerequisites cp ce1 ce2 code db)).
Proof.
  cbv zeta.
  destruct (isBlocked_filter cp ce1 ce2 student code db) as (Hb & Hm & Hf).
  rewrite Hb, Hm, Hf.
  split; [reflexivity|]. split.
  { apply NoDup_filter. unfold CompetenceFrameworkService.getPrerequisites.
    apply dedupe_NoDup. }
  split.
  { intros p. rewrite filter_In, <- notMastered_spec.
    destruct (CompetenceFrameworkService.notMastered student p db);
      intuition congruence. }
  split.
  { destruct (filter _ _); split; intros H;
      first [reflexivity | discriminate H]. }
  rewrite Forall_forall.
  split.
  - intros H p Hp. apply notMastered_spec.
    destruct (CompetenceFrameworkService.notMastered student p db) eqn:E;
      [|reflexivity].
    assert (Hin : In p (filter
                         (fun p => CompetenceFrameworkService.notMastered
                                     student p db)
                         (CompetenceFrameworkService.getPrerequisites cp ce1
                            ce2 code db)))
      by (apply filter_In; auto).
    destruct (filter _ _); [contradiction | discriminate H].
  - intros H.
    rewrite filter_none; [reflexivity|].
    apply Forall_forall. intros p Hp. apply notMastered_spec. auto.
Qed.

Lemma Set_from_app seen l1 l2 :
  exists seen',
    (forall x, In x seen' <-> In x seen \/ In x l1)
    /\ JS.Set_from seen (l1 ++ l2)
       = (JS.Set_from seen l1 ++ JS.Set_from seen' l2)%list.
Proof.
  revert seen. induction l1 as [|x l1 IH]; intros seen; cbn [app JS.Set_from].
  - exists seen. split; [intros x; cbn; tauto | reflexivity].
  - destruct (existsb (String.eqb x) seen) eqn:E.
    + destruct (IH seen) as (seen' & Hin & Heq). exists seen'. split; [|exact Heq].
      intros y. rewrite Hin. cbn [In]. split; [tauto|].
      intros [H|[H|H]]; auto. subst y. left.
      apply existsb_exists in E. destruct E as (z & Hz & Ez).
      apply String.eqb_eq in Ez. now subst z.
    + destruct (IH (x :: seen)) as (seen' & Hin & Heq). exists seen'.
      split; [|now rewrite Heq].
      intros y. rewrite Hin. cbn [In]. tauto.
Qed.

(** X17.  [CompetenceFrameworkService.getPrerequisites] never lists a code
    twice.  It starts with the prerequisites recorded in the database, in
    table order with repetitions dropped, and continues with those
    prerequisites of the curriculum entry that the database does not
    record. *)
Theorem X17_getPrerequisites_database_first
    (cp : CPReference) (ce1 : CE1CompetenceFramework) (ce2 : CompetenceFramework)
    (code : string) (db : Db) :
  NoDup (CompetenceFrameworkService.getPrerequisites cp ce1 ce2 code db)
  /\ exists fromCurriculum,
       CompetenceFrameworkService.getPrerequisites cp ce1 ce2 code db
       = (JS.dedupe (recordedPrerequisites code db) ++ fromCurriculum)%list
       /\ forall p,
            In p fromCurriculum
            <-> In p (curriculumPrerequisites cp ce1 ce2 code)
                /\ ~ In p (recordedPrerequisites code db).
Proof.
  split; [apply dedupe_NoDup|].
  unfold CompetenceFrameworkService.getPrerequisites. cbv zeta.
  fold (recordedPrerequisites code db).
  fold (curriculumPrerequisites cp ce1 ce2 code).
  unfold JS.dedupe.
  destruct (Set_from_app [] (recordedPrerequisites code db)
              (curriculumPrerequisites cp ce1 ce2 code))
    as (seen' & Hin & Heq).
  exists (JS.Set_from seen' (curriculumPrerequisites cp ce1 ce2 code)).
  split; [exact Heq|].
  intros p. rewrite Set_from_In, Hin. cbn [In]. tauto.
Qed.

Lemma for_of_first_hit {V : Type} (domains : list (list (string * V)))
    (code : string) :
  match
    JS.for_of domains
      (fun domain (s : unit) =>
         match JS.prop domain code with
         | Some c => (s, JS.Return (Some c))
         | None => (s, JS.Normal)
         end) tt
  with
  | (_, JS.Return r) =>
      exists before domain after,
        domains = (before ++ domain :: after)%list
        /\ Forall (fun d => JS.prop d code = None) before
        /\ JS.prop domain code = r /\ r <> None
  | (_, JS.Normal) => Forall (fun d => JS.prop d code = None) domains
  end.
Proof.
  induction domains as [|d domains IH]; cbn [JS.for_of]; [constructor|].
  destruct (JS.prop d code) as [c|] eqn:E.
  - exists [], d, domains. repeat split; [constructor | exact E | discriminate].
  - destruct (JS.for_of domains _ tt) as [s [|r]].
    + constructor; assumption.
    + destruct IH as (before & domain & after & -> & Hb & Hd & Hr).
      exists (d :: before), domain, after.
      repeat split; [constructor; assumption | exact Hd | exact Hr].
Qed.

Lemma lookup_first_hit {V : Type} (domains : list (list (string * V)))
    (code : string) :
  match
    match
      JS.for_of domains
        (fun domain (s : unit) =>
           match JS.prop domain code with
           | Some c => (s, JS.Return (Some c))
           | None => (s, JS.Normal)
           end) tt
    with
    | (_, JS.Return r) => r
    | (_, JS.Normal) => None
    end
  with
  | Some c =>
      exists before domain after,
        domains = (before ++ domain :: after)%list
        /\ Forall (fun d => JS.prop d code = None) before
        /\ JS.prop domain code = Some c
  | None => Forall (fun d => JS.prop d code = None) domains
  end.
Proof.
  pose proof (for_of_first_hit domains code) as H. revert H.
  destruct (JS.for_of domains _ tt) as [s [|r]]; intros H; [exact H|].
  destruct H as (before & domain & after & Hsplit & Hb & Hd & Hr).
  destruct r as [c|]; [|congruence].
  exists before, domain, after. auto.
Qed.

Lemma CE2_getCompetenceByCode_spec ce2 code :
  match CE2Competences2026.getCompetenceByCode ce2 code with
  | Some c =>
      exists before domain after,
        subDomains ce2 = (before ++ domain :: after)%list
        /\ Forall (fun d => JS.prop d code = None) before
        /\ JS.prop domain code = Some c
  | None => Forall (fun d => JS.prop d code = None) (subDomains ce2)
  end.
Proof.
  exact (lookup_first_hit (subDomains ce2) code).
Qed.

(** X18.  The lookup of a competence by its code, and the route
    [GET /competences/code/:code] on top of it, for a CE2 table whose
    sub-domains have distinct names and a code that is not a property name
    inherited from [Object.prototype] (such as "constructor" or
    "toString", for which [table[code]] is defined whatever the table
    holds).  The CE1 table has no influence on the answer.  A code that is a key of the CP table is answered from that
    table.  Any other code is answered from the first CE2 sub-domain that
    has it as a key, at level CE2; when no CE2 sub-domain has it, the lookup
    finds nothing and the route answers 404 "Competence not found". *)
Theorem X18_lookup_by_code_skips_ce1
    (cp : CPReference) (ce1 : CE1CompetenceFramework) (ce2 : CompetenceFramework)
    (code : string) :
  distinctSubDomains ce2 ->
  JS.inherited code = false ->
  let found := CompetenceFrameworkService.getCompetenceByCode cp ce1 ce2 code in
  (forall ce1',
     CompetenceFrameworkService.getCompetenceByCode cp ce1' ce2 code = found)
  /\ CompetenceFrameworkRoutes.getCompetenceByCode cp ce1 ce2 code
     = match found with
       | Some u => CompetenceFrameworkRoutes.Success u
       | None => CompetenceFrameworkRoutes.Failure 404 "Competence not found"
       end
  /\ match JS.prop cp code with
     | Some data =>
         found = Some (CompetenceFrameworkService.unifiedCP code data)
     | None =>
         match found with
         | Some u =>
             CompetenceFrameworkService.niveau u = CompetenceFrameworkService.CE2
             /\ exists before domain after c,
                  subDomains ce2 = (before ++ domain :: after)%list
                  /\ Forall (fun d => JS.prop d code = None) before
                  /\ JS.prop domain code = Some c
                  /\ CompetenceFrameworkService.code u = ce2_code c
                  /\ CompetenceFrameworkService.prerequis u = prerequis_ce1 c
         | None => Forall (fun d => JS.prop d code = None) (subDomains ce2)
         end
     end.
Proof.
  intros _ _. cbv zeta.
  unfold CompetenceFrameworkRoutes.getCompetenceByCode,
    CompetenceFrameworkService.getCompetenceByCode.
  split; [|split].
  - intros ce1'. now rewrite !getCE1CompetenceByCode_None.
  - destruct (JS.prop cp code); [reflexivity|].
    destruct (CE1Competences2025.getCE1CompetenceByCode ce1 code);
      [reflexivity|].
    destruct (CE2Competences2026.getCompetenceByCode ce2 code); reflexivity.
  - destruct (JS.prop cp code) as [data|]; [reflexivity|].
    rewrite getCE1CompetenceByCode_None.
    pose proof (CE2_getCompetenceByCode_spec ce2 code) as H.
    destruct (CE2Competences2026.getCompetenceByCode ce2 code) as [c|];
      [|exact H].
    destruct H as (before & domain & after & Hsplit & Hb & Hd).
    split; [reflexivity|].
    exists before, domain, after, c. auto.
Qed.

Lemma CE2_COMPETENCES_2026_distinctSubDomains :
  distinctSubDomains CE2_COMPETENCES_2026.
Proof.
  unfold distinctSubDomains. cbn.
  repeat (constructor; [cbn; intuition discriminate|]). constructor.
Qed.

Lemma X18_lookup_by_code_skips_ce1_witness :
  CompetenceFrameworkRoutes.getCompetenceByCode cpExcerpt CE1_COMPETENCES_2025
    CE2_COMPETENCES_2026 "CE1.FR.O1.1"
  = CompetenceFrameworkRoutes.Failure 404 "Competence not found".
Proof.
  destruct (X18_lookup_by_code_skips_ce1 cpExcerpt CE1_COMPETENCES_2025
              CE2_COMPETENCES_2026 "CE1.FR.O1.1"
              CE2_COMPETENCES_2026_distinctSubDomains eq_refl)
    as (_ & Hroute & _).
  exact Hroute.
Defined.

(** ** The learning path *)

Lemma for_of_push_map {A B R : Type} (f : A -> B) (arr : list A) (s : list B) :
  fst (JS.for_of (R := R) arr (fun x acc => (JS.push (f x) acc, JS.Normal)) s)
  = (s ++ map f arr)%list.
Proof.
  rewrite (for_of_normal (fun x acc => JS.push (f x) acc)). cbn [fst].
  rewrite (fold_left_push_if (fun _ => true) f).
  f_equal; f_equal; induction arr as [|x arr IH]; cbn [filter];
    [reflexivity | now rewrite IH].
Qed.

Lemma levels_partition (l : list CompetenceFrameworkService.CompetenceProgress.t) :
  let count level :=
    Z.of_nat (List.length
                (filter (fun c =>
                           MasteryLevel_eqb
                             (CompetenceFrameworkService.CompetenceProgress.masteryLevel c)
                             level) l)) in
  count mastered + count in_progress + count not_started
  = Z.of_nat (List.length l).
Proof.
  cbv zeta. induction l as [|c l IH]; [reflexivity|].
  cbn [filter List.length].
  destruct (CompetenceFrameworkService.CompetenceProgress.masteryLevel c);
    cbn [MasteryLevel_eqb List.length]; lia.
Qed.

Lemma filter_length_le {A : Type} (f : A -> bool) (l : list A) :
  (List.length (filter f l) <= List.length l)%nat.
Proof.
  induction l as [|x l IH]; cbn [filter List.length]; [lia|].
  destruct (f x); cbn [List.length]; lia.
Qed.

Lemma isBlocked_flag cp ce1 ce2 student code db :
  let r := CompetenceFrameworkService.isBlocked cp ce1 ce2 student code db in
  CompetenceFrameworkService.isBlocked_ r = true
  <-> CompetenceFrameworkService.blockingPrerequisites r <> [].
Proof.
  cbv zeta.
  destruct (isBlocked_filter cp ce1 ce2 student code db) as (Hb & _ & Hf).
  rewrite Hb, Hf.
  destruct (filter _ _); split; intros H;
    first [reflexivity | discriminate H | congruence].
Qed.

(** X19.  [getLearningPath] has one entry per competence of the level, in
    the order of [getCompetencesByLevel].  In its summary the counts of
    mastered, in-progress and not-started competences add up to the total,
    and the count of blocked ones lies between 0 and the total.  The overall
    progress is not a number exactly when the level has no competence, and
    otherwise lies between 0 and 100.  An entry is flagged as blocked
    exactly when it lists a blocking prerequisite. *)
Theorem X19_getLearningPath_summary_adds_up
    (cp : CPReference) (ce1 : CE1CompetenceFramework) (ce2 : CompetenceFramework)
    (student : Z) (niv : CompetenceFrameworkService.Niveau) (db : Db) :
  let path :=
    CompetenceFrameworkService.getLearningPath cp ce1 ce2 student niv db in
  let s := CompetenceFrameworkService.LearningPath.summary path in
  let entries := CompetenceFrameworkService.LearningPath.competences path in
  let byLevel := CompetenceFrameworkService.getCompetencesByLevel cp ce1 ce2 niv in
  map CompetenceFrameworkService.CompetenceProgress.competenceCode entries
  = map CompetenceFrameworkService.code byLevel
  /\ CompetenceFrameworkService.Summary.totalCompetences s
     = Z.of_nat (List.length entries)
  /\ CompetenceFrameworkService.Summary.mastered s
     + CompetenceFrameworkService.Summary.inProgress s
     + CompetenceFrameworkService.Summary.notStarted s
     = CompetenceFrameworkService.Summary.totalCompetences s
  /\ 0 <= CompetenceFrameworkService.Summary.blocked s
       <= CompetenceFrameworkService.Summary.totalCompetences s
  /\ match CompetenceFrameworkService.Summary.overallProgress s with
     | None => byLevel = []
     | Some p => byLevel <> [] /\ (0 <= p <= 100)%Q
     end
  /\ Forall (fun e =>
               CompetenceFrameworkService.CompetenceProgress.isBlocked e = true
               <-> CompetenceFrameworkService.CompetenceProgress.blockingPrerequisites e
                   <> [])
       entries.
Proof.
  cbv zeta. unfold CompetenceFrameworkService.getLearningPath. cbv zeta.
  set (byLevel := CompetenceFrameworkService.getCompetencesByLevel cp ce1 ce2 niv).
  rewrite for_of_push_map. cbn [app].
  set (entry := fun competence : CompetenceFrameworkService.UnifiedCompetenceData => _).
  cbn [CompetenceFrameworkService.LearningPath.summary
       CompetenceFrameworkService.LearningPath.competences
       CompetenceFrameworkService.Summary.totalCompetences
       CompetenceFrameworkService.Summary.mastered
       CompetenceFrameworkService.Summary.inProgress
       CompetenceFrameworkService.Summary.notStarted
       CompetenceFrameworkService.Summary.blocked
       CompetenceFrameworkService.Summary.overallProgress].
  assert (Hlen : List.length (map entry byLevel) = List.length byLevel)
    by apply length_map.
  split; [|split; [|split; [|split; [|split]]]].
  - rewrite map_map. reflexivity.
  - now rewrite Hlen.
  - rewrite <- Hlen. apply (levels_partition (map entry byLevel)).
  - pose proof (filter_length_le
                  CompetenceFrameworkService.CompetenceProgress.isBlocked
                  (map entry byLevel)). lia.
  - destruct (Z.eqb_spec (Z.of_nat (List.length byLevel)) 0) as [E|E].
    + destruct byLevel; [reflexivity | discriminate E].
    + split; [intros ->; now apply E|].
      apply round2_percent.
      set (m := Z.of_nat (List.length (filter _ (map entry byLevel)))).
      set (t := Z.of_nat (List.length byLevel)).
      assert (Hm : 0 <= m <= t).
      { subst m t.
        pose proof (filter_length_le
                      (fun c => MasteryLevel_eqb
                                  (CompetenceFrameworkService.CompetenceProgress.masteryLevel c)
                                  mastered)
                      (map entry byLevel)). lia. }
      assert (Ht : 0 < t) by (subst t; lia).
      assert (Hq0 : (0 <= inject_Z m)%Q)
        by (change 0%Q with (inject_Z 0); rewrite <- Zle_Qle; lia).
      assert (Hq1 : (inject_Z m <= inject_Z t)%Q) by (rewrite <- Zle_Qle; lia).
      assert (Hqt : (0 < inject_Z t)%Q)
        by (change 0%Q with (inject_Z 0); rewrite <- Zlt_Qlt; lia).
      assert (Hr0 : (0 <= inject_Z m / inject_Z t)%Q).
      { apply Qle_shift_div_l; [exact Hqt|]. now rewrite Qmult_0_l. }
      assert (Hr1 : (inject_Z m / inject_Z t <= 1)%Q).
      { apply Qle_shift_div_r; [exact Hqt|]. now rewrite Qmult_1_l. }
      split; lra.
  - rewrite Forall_map. apply Forall_forall. intros u _. subst entry.
    cbn [CompetenceFrameworkService.CompetenceProgress.isBlocked
         CompetenceFrameworkService.CompetenceProgress.blockingPrerequisites].
    apply (isBlocked_flag cp ce1 ce2 student
             (CompetenceFrameworkService.code u) db).
Qed.

(** ** The statistics route *)

Lemma increment_sum obj key :
  sumCounts (CompetenceFrameworkRoutes.increment obj key) = sumCounts obj + 1.
Proof.
  unfold CompetenceFrameworkRoutes.increment, sumCounts.
  induction obj as [|[k v] obj IH];
    cbn [CompetenceFrameworkRoutes.assign JS.prop map snd fold_right].
  - reflexivity.
  - destruct (String.eqb k key); cbn [map snd fold_right].
    + unfold or_else. destruct (v =? 0) eqn:E; [apply Z.eqb_eq in E|]; lia.
    + rewrite IH. lia.
Qed.

Lemma increment_count obj key k :
  countOf (CompetenceFrameworkRoutes.increment obj key) k
  = countOf obj k + (if String.eqb key k then 1 else 0).
Proof.
  unfold CompetenceFrameworkRoutes.increment, countOf.
  induction obj as [|[k0 v0] obj IH];
    cbn [CompetenceFrameworkRoutes.assign JS.prop].
  - destruct (String.eqb key k); reflexivity.
  - destruct (String.eqb k0 key) eqn:E0; cbn [JS.prop].
    + apply String.eqb_eq in E0. subst k0.
      destruct (String.eqb key k).
      * unfold or_else. destruct (v0 =? 0) eqn:E; [apply Z.eqb_eq in E|]; lia.
      * lia.
    + destruct (String.eqb k0 k) eqn:E1.
      * apply String.eqb_eq in E1. subst k0.
        rewrite String.eqb_sym, E0. lia.
      * exact IH.
Qed.

Lemma assign_keys_In obj key value k :
  In k (JS.Object_keys (CompetenceFrameworkRoutes.assign obj key value)) ->
  In k (JS.Object_keys obj) \/ k = key.
Proof.
  unfold JS.Object_keys.
  induction obj as [|[k0 v0] obj IH];
    cbn [CompetenceFrameworkRoutes.assign map fst In].
  - intros [E|[]]; auto.
  - destruct (String.eqb k0 key); cbn [map fst In]; [tauto|].
    intros [E|Hk]; [tauto|]. destruct (IH Hk); tauto.
Qed.

Lemma assign_keys_NoDup obj key value :
  NoDup (JS.Object_keys obj) ->
  NoDup (JS.Object_keys (CompetenceFrameworkRoutes.assign obj key value)).
Proof.
  unfold JS.Object_keys.
  induction obj as [|[k0 v0] obj IH];
    cbn [CompetenceFrameworkRoutes.assign map fst]; intros H.
  - repeat constructor. intros [].
  - destruct (String.eqb k0 key) eqn:E0; cbn [map fst]; [exact H|].
    inversion H as [|? ? Hnot Hrest]; subst.
    constructor; [|now apply IH].
    intros Hk. destruct (assign_keys_In _ _ _ _ Hk) as [Hin|Heq];
      [contradiction|].
    subst k0. now rewrite String.eqb_refl in E0.
Qed.

Lemma increment_keys obj key :
  NoDup (JS.Object_keys obj) ->
  NoDup (JS.Object_keys (CompetenceFrameworkRoutes.increment obj key)).
Proof. apply assign_keys_NoDup. Qed.

Lemma tally_spec (keys : list string) (obj : list (string * Z)) :
  let obj' := fold_left CompetenceFrameworkRoutes.increment keys obj in
  sumCounts obj' = sumCounts obj + Z.of_nat (List.length keys)
  /\ (forall k,
        countOf obj' k
        = countOf obj k
          + Z.of_nat (List.length (filter (fun key => String.eqb key k) keys)))
  /\ (NoDup (JS.Object_keys obj) -> NoDup (JS.Object_keys obj')).
Proof.
  cbv zeta. revert obj.
  induction keys as [|key keys IH]; intros obj; cbn [fold_left List.length filter].
  - repeat split; [lia | intros k; cbn; lia | auto].
  - destruct (IH (CompetenceFrameworkRoutes.increment obj key))
      as (Hsum & Hcount & Hkeys).
    split; [|split].
    + rewrite Hsum, increment_sum. lia.
    + intros k. rewrite Hcount, increment_count.
      destruct (String.eqb key k); cbn [List.length]; lia.
    + intros H. apply Hkeys, increment_keys, H.
Qed.

Lemma stats_counters {A : Type} (f g : A -> string) (l : list A) d0 s0 :
  JS.forEach (R := unit) l
    (fun c '(byDomain, bySubDomain) =>
       ((CompetenceFrameworkRoutes.increment byDomain (f c),
         CompetenceFrameworkRoutes.increment bySubDomain (g c)), JS.Normal))
    (d0, s0)
  = (fold_left CompetenceFrameworkRoutes.increment (map f l) d0,
     fold_left CompetenceFrameworkRoutes.increment (map g l) s0).
Proof.
  unfold JS.forEach. revert d0 s0.
  induction l as [|c l IH]; intros d0 s0; cbn [fold_left map fst];
    [reflexivity | apply IH].
Qed.

Lemma filter_map_length {A B : Type} (f : A -> B) (p : B -> bool) (l : list A) :
  List.length (filter p (map f l)) = List.length (filter (fun x => p (f x)) l).
Proof.
  induction l as [|x l IH]; cbn [map filter]; [reflexivity|].
  destruct (p (f x)); cbn [List.length]; now rewrite IH.
Qed.

(** X20.  [GET /competences/:niveau/stats] always succeeds.  The counts by
    domain add up to the total; every domain name appears at most once; the
    count of a domain is the number of competences that
    [getCompetencesByDomain] lists for it (0 for a name that is absent); and
    the numbers of competences with prerequisites and with leaps lie between
    0 and the total. *)
Theorem X20_stats_by_domain_add_up
    (cp : CPReference) (ce1 : CE1CompetenceFramework) (ce2 : CompetenceFramework)
    (niv : CompetenceFrameworkService.Niveau) :
  exists stats,
    CompetenceFrameworkRoutes.getStats cp ce1 ce2 niv
    = CompetenceFrameworkRoutes.Success stats
    /\ CompetenceFrameworkRoutes.total stats
       = Z.of_nat (List.length
                     (CompetenceFrameworkService.getCompetencesByLevel cp ce1
                        ce2 niv))
    /\ sumCounts (CompetenceFrameworkRoutes.byDomain stats)
       = CompetenceFrameworkRoutes.total stats
    /\ NoDup (JS.Object_keys (CompetenceFrameworkRoutes.byDomain stats))
    /\ (forall dom,
          countOf (CompetenceFrameworkRoutes.byDomain stats) dom
          = Z.of_nat (List.length
                        (CompetenceFrameworkService.getCompetencesByDomain cp
                           ce1 ce2 niv dom None)))
    /\ 0 <= CompetenceFrameworkRoutes.withPrerequisites stats
         <= CompetenceFrameworkRoutes.total stats
    /\ 0 <= CompetenceFrameworkRoutes.withLeaps stats
         <= CompetenceFrameworkRoutes.total stats.
Proof.
  unfold CompetenceFrameworkRoutes.getStats. cbv zeta.
  set (byLevel := CompetenceFrameworkService.getCompetencesByLevel cp ce1 ce2 niv).
  eexists. split; [reflexivity|].
  cbn [CompetenceFrameworkRoutes.total CompetenceFrameworkRoutes.byDomain
       CompetenceFrameworkRoutes.withPrerequisites
       CompetenceFrameworkRoutes.withLeaps].
  rewrite stats_counters. cbn [fst].
  destruct (tally_spec (map CompetenceFrameworkService.domaine byLevel) [])
    as (Hsum & Hcount & Hkeys).
  split; [reflexivity|]. split; [|split; [|split; [|split]]].
  - rewrite Hsum, length_map. reflexivity.
  - apply Hkeys. constructor.
  - intros dom. rewrite Hcount.
    unfold CompetenceFrameworkService.getCompetencesByDomain.
    cbn [JS.truthy_str]. fold byLevel.
    rewrite filter_map_length. reflexivity.
  - pose proof (filter_length_le
                  (fun c => 0 <? Z.of_nat
                                   (List.length
                                      (CompetenceFrameworkService.prerequis c)))
                  byLevel). lia.
  - unfold CompetenceFrameworkService.getCompetencesWithLeaps. cbv zeta.
    fold byLevel.
    destruct niv;
      match goal with
      | |- context [filter ?p byLevel] =>
          pose proof (filter_length_le p byLevel)
      end; lia.
Qed.

(** ** Generated prerequisite relationships *)

Lemma addPrerequisites_map code l s :
  CE2Competences2026.addPrerequisites code l s
  = (s ++ map (fun ip =>
                 {| CE2Competences2026.competenceCode := code;
                    CE2Competences2026.prerequisiteCode := snd ip;
                    CE2Competences2026.weight := (1 - inject_Z (fst ip) * 0.1)%Q;
                    CE2Competences2026.description :=
                      "Prérequis CE1 pour " ++ code |})
          (JS.withIndex l))%list.
Proof.
  unfold CE2Competences2026.addPrerequisites.
  rewrite <- forEach_push_map. apply forEach_ext. now intros [i p] acc.
Qed.

Lemma addPrerequisites_app code l s :
  CE2Competences2026.addPrerequisites code l s
  = (s ++ CE2Competences2026.addPrerequisites code l [])%list.
Proof. now rewrite !addPrerequisites_map. Qed.

Lemma generatePrerequisites_flat_map ce2 :
  CE2Competences2026.generatePrerequisites ce2
  = flat_map (fun c => CE2Competences2026.addPrerequisites (ce2_code c)
                         (prerequis_ce1 c) [])
      (allCompetences ce2).
Proof.
  unfold CE2Competences2026.generatePrerequisites, allCompetences. cbv beta zeta.
  assert (H : forall (subject : list (string * CompetenceDomain)) s,
             JS.forEach (R := unit) (JS.Object_values subject)
               (fun domain prerequisites =>
                  (JS.forEach (R := unit) (JS.Object_values domain)
                     (fun competence prerequisites =>
                        (if 0 <? Z.of_nat (List.length (prerequis_ce1 competence))
                         then CE2Competences2026.addPrerequisites
                                (ce2_code competence) (prerequis_ce1 competence)
                                prerequisites
                         else prerequisites, JS.Normal))
                     prerequisites, JS.Normal)) s
             = (s ++ flat_map
                       (fun c => CE2Competences2026.addPrerequisites (ce2_code c)
                                   (prerequis_ce1 c) [])
                       (subjectValues subject))%list).
  { intros subject s.
    set (edges := fun c : CompetenceData =>
                    CE2Competences2026.addPrerequisites (ce2_code c)
                      (prerequis_ce1 c) []).
    assert (Hinner : forall (cs : list CompetenceData) acc,
               JS.forEach (R := unit) cs
                 (fun competence prerequisites =>
                    (if 0 <? Z.of_nat (List.length (prerequis_ce1 competence))
                     then CE2Competences2026.addPrerequisites
                            (ce2_code competence) (prerequis_ce1 competence)
                            prerequisites
                     else prerequisites, JS.Normal)) acc
               = (acc ++ flat_map edges cs)%list).
    { intros cs acc.
      rewrite (forEach_ext _
                 (fun (c : CompetenceData)
                      (acc : list CE2Competences2026.CompetencePrerequisite) =>
                    ((acc ++ edges c)%list, JS.Normal (R := unit)))).
      - apply forEach_append.
      - intros c acc'. cbn [fst]. subst edges. cbv beta.
        destruct (prerequis_ce1 c) as [|p l] eqn:E.
        + cbn. now rewrite app_nil_r.
        + replace (0 <? Z.of_nat (List.length (p :: l))) with true
            by (symmetry; apply Z.ltb_lt; cbn [List.length]; lia).
          apply addPrerequisites_app. }
    rewrite (forEach_ext _
               (fun (domain : CompetenceDomain)
                    (acc : list CE2Competences2026.CompetencePrerequisite) =>
                  ((acc ++ flat_map edges (JS.Object_values domain))%list,
                   JS.Normal (R := unit)))).
    - rewrite forEach_append. f_equal.
      unfold subjectValues, JS.Object_values.
      induction subject as [|d subject IH]; cbn [flat_map map];
        [reflexivity|].
      now rewrite flat_map_app, IH.
    - intros domain acc. cbn [fst]. apply Hinner. }
  rewrite !H. cbn [app]. now rewrite flat_map_app.
Qed.

Lemma indexed_weights code (l : list string) (n : nat) :
  let edges :=
    map (fun ip =>
           {| CE2Competences2026.competenceCode := code;
              CE2Competences2026.prerequisiteCode := snd ip;
              CE2Competences2026.weight := (1 - inject_Z (fst ip) * 0.1)%Q;
              CE2Competences2026.description := "Prérequis CE1 pour " ++ code |})
      (combine (map Z.of_nat (seq n (List.length l))) l) in
  map edgeOf edges = map (pair code) l
  /\ Forall (fun e => (CE2Competences2026.weight e
                       <= 1 - inject_Z (Z.of_nat n) * 0.1)%Q) edges
  /\ StronglySorted lighterThan edges.
Proof.
  cbv zeta. revert n.
  induction l as [|p l IH]; intros n; cbn [List.length seq map combine].
  - repeat split; constructor.
  - destruct (IH (S n)) as (Hedges & Hweights & Hsorted).
    assert (Hstep : (inject_Z (Z.of_nat (S n)) == inject_Z (Z.of_nat n) + 1)%Q).
    { rewrite Nat2Z.inj_succ. unfold Z.succ. rewrite inject_Z_plus.
      reflexivity. }
    split; [|split].
    + cbn [edgeOf CE2Competences2026.competenceCode
           CE2Competences2026.prerequisiteCode snd] in *.
      f_equal. exact Hedges.
    + constructor; [cbn; lra|].
      eapply Forall_impl; [|exact Hweights].
      intros e He. cbv beta in He. rewrite Hstep in He. lra.
    + constructor; [exact Hsorted|].
      eapply Forall_impl; [|exact Hweights].
      intros e He. unfold lighterThan. cbn [CE2Competences2026.weight fst].
      cbv beta in He. rewrite Hstep in He. lra.
Qed.

(** X21.  [generatePrerequisites] produces one relationship for every
    prerequisite declared in the CE2 table, in declaration order (French
    before mathematics, the prerequisites of a competence in their listed
    order): its edges are exactly the declared (competence, prerequisite)
    pairs.  No weight exceeds 1, and among the relationships of one
    competence a later prerequisite always weighs strictly less than an
    earlier one. *)
Theorem X21_generatePrerequisites_one_edge_per_declared
    (ce2 : CompetenceFramework) :
  let generated := CE2Competences2026.generatePrerequisites ce2 in
  map edgeOf generated
  = flat_map (fun c => map (pair (ce2_code c)) (prerequis_ce1 c))
      (allCompetences ce2)
  /\ generated
     = flat_map (fun c => CE2Competences2026.addPrerequisites (ce2_code c)
                            (prerequis_ce1 c) [])
         (allCompetences ce2)
  /\ Forall (fun e => (CE2Competences2026.weight e <= 1)%Q) generated
  /\ forall code l,
       StronglySorted lighterThan
         (CE2Competences2026.addPrerequisites code l []).
Proof.
  cbv zeta. rewrite generatePrerequisites_flat_map.
  split; [|split; [reflexivity|split]].
  - induction (allCompetences ce2) as [|c cs IH]; cbn [flat_map map];
      [reflexivity|].
    rewrite map_app, IH. f_equal.
    rewrite addPrerequisites_map. cbn [app].
    apply (indexed_weights (ce2_code c) (prerequis_ce1 c) 0).
  - apply Forall_flat_map, Forall_forall. intros c _.
    rewrite addPrerequisites_map. cbn [app].
    destruct (indexed_weights (ce2_code c) (prerequis_ce1 c) 0) as (_ & H & _).
    eapply Forall_impl; [|exact H]. intros e He. cbv beta in He.
    change (inject_Z (Z.of_nat 0)) with 0%Q in He. lra.
  - intros code l. rewrite addPrerequisites_map. cbn [app].
    apply (indexed_weights code l 0).
Qed.

(** ** The review queue *)

(** X22.  [createCard] appends one card to the ReviewCard table and returns
    it.  The card belongs to the given pair, its key is not the key of any
    earlier card, and no other table changes.  Nothing guards against a
    second card for the same pair: the cards of the pair are the earlier
    ones followed by the new one.  The card is due one day after its
    creation on the calendar of the host, the instant that
    [setDate(getDate() + 1)] yields, and until then it is in nobody's list
    of due cards. *)
Theorem X22_createCard_appends_a_fresh_card
    (tz : Calendar) (now : Date) (student : Z) (code : string) (db : Db) :
  let card := eval (ReviewQueueRepo.createCard tz now student code) db in
  let db' := exec (ReviewQueueRepo.createCard tz now student code) db in
  spacedRepetitionCards db' = (spacedRepetitionCards db ++ [card])%list
  /\ SpacedRepetitionCard.studentId card = student
  /\ SpacedRepetitionCard.competenceCode card = code
  /\ ~ In (SpacedRepetitionCard.id card)
         (map SpacedRepetitionCard.id (spacedRepetitionCards db))
  /\ cardsOf student code db' = (cardsOf student code db ++ [card])%list
  /\ (exerciseOutcomes db' = exerciseOutcomes db
      /\ errorPatterns db' = errorPatterns db
      /\ studentProgress db' = studentProgress db
      /\ competencePrerequisites db' = competencePrerequisites db)
  /\ SpacedRepetitionCard.nextReviewAt card = tz now 1
  /\ forall t reader lim,
       t <= tz now 1 ->
       ReviewQueueRepo.getDueCards t reader lim db'
       = ReviewQueueRepo.getDueCards t reader lim db.
Proof.
  cbv zeta.
  unfold ReviewQueueRepo.createCard, insert_spacedRepetitionCard, eval, exec.
  cbn [fst snd spacedRepetitionCards exerciseOutcomes errorPatterns
       studentProgress competencePrerequisites
       SpacedRepetitionCard.studentId SpacedRepetitionCard.competenceCode
       SpacedRepetitionCard.id].
  split; [reflexivity|]. split; [reflexivity|]. split; [reflexivity|].
  split; [|split; [|split; [repeat split|split; [reflexivity|]]]].
  - intros Hin.
    pose proof (nextId_fresh
                  (map SpacedRepetitionCard.id (spacedRepetitionCards db))) as H.
    rewrite Forall_forall in H. specialize (H _ Hin). lia.
  - unfold cardsOf. cbn [spacedRepetitionCards]. rewrite filter_app.
    cbn [filter SpacedRepetitionCard.studentId
         SpacedRepetitionCard.competenceCode].
    now rewrite Z.eqb_refl, String.eqb_refl.
  - intros t reader lim Ht. unfold ReviewQueueRepo.getDueCards.
    cbn [spacedRepetitionCards]. rewrite filter_app.
    cbn [filter SpacedRepetitionCard.nextReviewAt].
    replace (tz now 1 <? t) with false
      by (symmetry; apply Z.ltb_ge; exact Ht).
    now rewrite andb_false_r, app_nil_r.
Qed.

Lemma X22_createCard_appends_a_fresh_card_witness :
  ReviewQueueRepo.getDueCards (utc 1000 1) 1 50
    (exec (ReviewQueueRepo.createCard utc 1000 1 "CP.FR.L1.1") emptyDb)
  = ReviewQueueRepo.getDueCards (utc 1000 1) 1 50 emptyDb.
Proof.
  destruct (X22_createCard_appends_a_fresh_card utc 1000 1 "CP.FR.L1.1"
              emptyDb)
    as (_ & _ & _ & _ & _ & _ & _ & Hdue).
  apply Hdue. apply Z.le_refl.
Defined.

Lemma firstn_Forall {A : Type} (P : A -> Prop) (n : nat) (l : list A) :
  Forall P l -> Forall P (firstn n l).
Proof.
  intros H. apply Forall_forall. intros x Hx.
  rewrite Forall_forall in H. apply H.
  rewrite <- (firstn_skipn n l). apply in_or_app. now left.
Qed.

Lemma map_update_where {A V : Type} (field : A -> V) (cond : A -> bool)
    (set : A -> A) l :
  (forall r, field (set r) = field r) ->
  map field (update_where cond set l) = map field l.
Proof.
  intros H. unfold update_where. rewrite map_map. apply map_ext.
  intros r. destruct (cond r); [apply H | reflexivity].
Qed.

(** X23.  [updateCardSchedule] rewrites the schedule of the cards with the
    given key and nothing else: keys, owners, competences and creation
    dates stay in place, cards with another key are untouched, and when no
    card has the key the database is unchanged.  Every card with the key
    afterwards carries the given schedule and was last reviewed now; until
    its next review date it is in nobody's list of due cards. *)
Theorem X23_updateCardSchedule_reschedules_by_key
    (now : Date) (cardId : Z) (next : Date) (interval repetition : Z)
    (ef q : Q) (db : Db) :
  let db' :=
    exec (ReviewQueueRepo.updateCardSchedule now cardId next interval
            repetition ef q) db in
  let stays {V : Type} (field : SpacedRepetitionCard.row -> V) :=
    map field (spacedRepetitionCards db')
    = map field (spacedRepetitionCards db) in
  (stays SpacedRepetitionCard.id /\ stays SpacedRepetitionCard.studentId
   /\ stays SpacedRepetitionCard.competenceCode
   /\ stays SpacedRepetitionCard.createdAt)
  /\ filter (fun k => negb (SpacedRepetitionCard.id k =? cardId))
       (spacedRepetitionCards db')
     = filter (fun k => negb (SpacedRepetitionCard.id k =? cardId))
         (spacedRepetitionCards db)
  /\ Forall (fun k =>
               SpacedRepetitionCard.id k <> cardId
               \/ (SpacedRepetitionCard.nextReviewAt k = next
                   /\ SpacedRepetitionCard.intervalDays k = interval
                   /\ SpacedRepetitionCard.repetitionNumber k = repetition
                   /\ SpacedRepetitionCard.easinessFactor k = ef
                   /\ SpacedRepetitionCard.lastQuality k = q
                   /\ SpacedRepetitionCard.lastReviewAt k = now
                   /\ SpacedRepetitionCard.updatedAt k = now))
       (spacedRepetitionCards db')
  /\ (In cardId (map SpacedRepetitionCard.id (spacedRepetitionCards db))
      \/ db' = db)
  /\ forall t reader lim,
       t <= next ->
       Forall (fun k => SpacedRepetitionCard.id k <> cardId)
         (ReviewQueueRepo.getDueCards t reader lim db').
Proof.
  cbv zeta.
  unfold ReviewQueueRepo.updateCardSchedule, update_spacedRepetitionCards, exec.
  cbn [snd spacedRepetitionCards].
  set (cond := fun k : SpacedRepetitionCard.row =>
                 SpacedRepetitionCard.id k =? cardId).
  set (set_ := fun k : SpacedRepetitionCard.row => SpacedRepetitionCard.mk _ _ _ _ _ _ _ _ _ _ _).
  assert (Hrows : Forall (fun k =>
                            SpacedRepetitionCard.id k <> cardId
                            \/ (SpacedRepetitionCard.nextReviewAt k = next
                                /\ SpacedRepetitionCard.intervalDays k = interval
                                /\ SpacedRepetitionCard.repetitionNumber k
                                   = repetition
                                /\ SpacedRepetitionCard.easinessFactor k = ef
                                /\ SpacedRepetitionCard.lastQuality k = q
                                /\ SpacedRepetitionCard.lastReviewAt k = now
                                /\ SpacedRepetitionCard.updatedAt k = now))
                    (update_where cond set_ (spacedRepetitionCards db))).
  { unfold update_where. rewrite Forall_map. apply Forall_forall.
    intros k _. subst cond. cbv beta.
    destruct (Z.eqb_spec (SpacedRepetitionCard.id k) cardId) as [E|E].
    - right. subst set_. cbn. repeat split.
    - left. exact E. }
  split; [|split; [|split; [exact Hrows|split]]].
  - repeat split; apply map_update_where; reflexivity.
  - clear Hrows. unfold update_where.
    induction (spacedRepetitionCards db) as [|k l IH]; [reflexivity|].
    cbn [map filter]. subst cond. cbv beta in *.
    destruct (Z.eqb_spec (SpacedRepetitionCard.id k) cardId) as [E|E].
    + subst set_. cbn [SpacedRepetitionCard.id].
      destruct (Z.eqb_spec (SpacedRepetitionCard.id k) cardId);
        [|contradiction]. cbn [negb]. exact IH.
    + destruct (Z.eqb_spec (SpacedRepetitionCard.id k) cardId);
        [contradiction|]. cbn [negb]. now rewrite IH.
  - destruct (in_dec Z.eq_dec cardId
                (map SpacedRepetitionCard.id (spacedRepetitionCards db)))
      as [Hin|Hout]; [now left | right].
    rewrite update_where_none; [now destruct db|].
    apply Forall_forall. intros k Hk. subst cond. cbv beta.
    apply Z.eqb_neq. intros E. apply Hout. rewrite <- E. now apply in_map.
  - intros t reader lim Ht. unfold ReviewQueueRepo.getDueCards.
    cbn [spacedRepetitionCards]. apply firstn_Forall.
    apply Forall_forall. intros k Hk.
    apply orderBy_In, filter_In in Hk. destruct Hk as (Hk & Hdue).
    rewrite Forall_forall in Hrows.
    destruct (Hrows k Hk) as [E|(Enext & _)]; [exact E|].
    apply andb_prop in Hdue. destruct Hdue as (_ & Hdue).
    apply Z.ltb_lt in Hdue. lia.
Qed.

Lemma X23_updateCardSchedule_reschedules_by_key_witness :
  Forall (fun k => SpacedRepetitionCard.id k <> 1)
    (ReviewQueueRepo.getDueCards 5000 1 50
       (exec (ReviewQueueRepo.updateCardSchedule 2000 1 5000 6 2 (2.6)%Q 4%Q)
          (exec (ReviewQueueRepo.createCard utc 1000 1 "CP.FR.L1.1") emptyDb))).
Proof.
  destruct (X23_updateCardSchedule_reschedules_by_key 2000 1 5000 6 2
              (2.6)%Q 4%Q
              (exec (ReviewQueueRepo.createCard utc 1000 1 "CP.FR.L1.1") emptyDb))
    as (_ & _ & _ & _ & Hdue).
  apply Hdue. apply Z.le_refl.
Defined.

(** ** Competences with a qualitative leap *)

Lemma flat_map_keep {A : Type} (keep : A -> bool) (l : list A) :
  flat_map (fun x => if keep x then [x] else []) l = filter keep l.
Proof.
  induction l as [|x l IH]; cbn [flat_map filter]; [reflexivity|].
  rewrite IH. now destruct (keep x).
Qed.

Lemma scan_keep {V : Type} (keep : V -> bool)
    (domains : list (string * list (string * V))) (s : list V) :
  JS.forEach (R := unit) (JS.Object_values domains)
    (fun domain acc =>
       (JS.forEach (R := unit) (JS.Object_values domain)
          (fun competence acc =>
             if keep competence
             then (JS.push competence acc, JS.Normal)
             else (acc, JS.Normal))
          acc, JS.Normal)) s
  = (s ++ filter keep (subjectValues domains))%list.
Proof.
  rewrite (forEach_ext _
             (fun (domain : list (string * V)) (acc : list V) =>
                ((acc ++ filter keep (map snd domain))%list,
                 JS.Normal (R := unit)))).
  - rewrite forEach_append. f_equal. unfold subjectValues, JS.Object_values.
    induction domains as [|d domains IH]; cbn [flat_map map]; [reflexivity|].
    now rewrite filter_app, IH.
  - intros domain acc. cbn [fst].
    rewrite (forEach_ext _
               (fun (c : V) (acc : list V) =>
                  ((acc ++ (if keep c then [c] else []))%list,
                   JS.Normal (R := unit)))).
    + rewrite forEach_append, flat_map_keep. reflexivity.
    + intros c acc'. unfold JS.push.
      destruct (keep c); cbn [fst]; [reflexivity | now rewrite app_nil_r].
Qed.

Lemma getCompetencesWithMajorLeaps_filter ce2 :
  CE2Competences2026.getCompetencesWithMajorLeaps ce2
  = filter (fun c => CE2Competences2026.hasMajorQualitativeLeap ce2 (ce2_code c))
      (allCompetences ce2).
Proof.
  unfold CE2Competences2026.getCompetencesWithMajorLeaps, allCompetences.
  cbv beta zeta.
  rewrite !(scan_keep
              (fun c => CE2Competences2026.hasMajorQualitativeLeap ce2
                          (ce2_code c))).
  cbn [app]. now rewrite filter_app.
Qed.

Lemma filter_map_comm {A B : Type} (f : A -> B) (p : B -> bool) (l : list A) :
  filter p (map f l) = map f (filter (fun x => p (f x)) l).
Proof.
  induction l as [|x l IH]; cbn [map filter]; [reflexivity|].
  rewrite IH. now destruct (p (f x)).
Qed.

Lemma leaps_of_subject (has : string -> bool) (subject : string)
    (entries : list (string * CompetenceData)) :
  map CompetenceFrameworkService.code
    (filter (fun u => has (CompetenceFrameworkService.code u))
       (map (unifiedCE2 subject) entries))
  = map ce2_code (filter (fun c => has (ce2_code c)) (map snd entries)).
Proof.
  induction entries as [|e entries IH]; cbn [map filter]; [reflexivity|].
  change (CompetenceFrameworkService.code (unifiedCE2 subject e))
    with (ce2_code (snd e)).
  destruct (has (ce2_code (snd e))); cbn [map]; now rewrite IH.
Qed.

(** X24.  [getCompetencesWithLeaps] for CE2 lists the same codes, in the
    same order, as the data helper [getCompetencesWithMajorLeaps]; for CP it
    lists the competences of the CP table that have a prerequisite.  The
    statistics route reports 0 competences with a leap for CE1, whatever
    the CE1 table holds. *)
Theorem X24_getCompetencesWithLeaps_per_level
    (cp : CPReference) (ce1 : CE1CompetenceFramework) (ce2 : CompetenceFramework) :
  let withLeaps :=
    CompetenceFrameworkService.getCompetencesWithLeaps cp ce1 ce2 in
  map CompetenceFrameworkService.code (withLeaps CompetenceFrameworkService.CE2)
  = map ce2_code (CE2Competences2026.getCompetencesWithMajorLeaps ce2)
  /\ (exists stats,
        CompetenceFrameworkRoutes.getStats cp ce1 ce2
          CompetenceFrameworkService.CE1
        = CompetenceFrameworkRoutes.Success stats
        /\ CompetenceFrameworkRoutes.withLeaps stats = 0)
  /\ map CompetenceFrameworkService.code (withLeaps CompetenceFrameworkService.CP)
     = map fst (filter (fun e => match cp_prerequis (snd e) with
                                 | Some (_ :: _) => true
                                 | _ => false
                                 end) cp).
Proof.
  cbv zeta.
  assert (Hce1 : CompetenceFrameworkService.getCompetencesWithLeaps cp ce1 ce2
                   CompetenceFrameworkService.CE1 = []).
  { unfold CompetenceFrameworkService.getCompetencesWithLeaps. cbv zeta.
    apply filter_none, Forall_forall. intros u _.
    unfold CE1Competences2025.hasCE1MajorQualitativeLeap.
    now rewrite getCE1CompetenceByCode_None. }
  split; [|split].
  - unfold CompetenceFrameworkService.getCompetencesWithLeaps. cbv zeta.
    rewrite getCompetencesByLevel_CE2, getCompetencesWithMajorLeaps_filter.
    unfold allCompetences.
    rewrite !filter_app, !map_app, <- !subjectEntries_values.
    now rewrite !(leaps_of_subject
                    (CE2Competences2026.hasMajorQualitativeLeap ce2)).
  - unfold CompetenceFrameworkRoutes.getStats. cbv zeta.
    eexists. split; [reflexivity|].
    cbn [CompetenceFrameworkRoutes.withLeaps]. now rewrite Hce1.
  - unfold CompetenceFrameworkService.getCompetencesWithLeaps. cbv zeta.
    rewrite getCompetencesByLevel_CP.
    induction cp as [|[code data] rest IH]; [reflexivity|].
    cbn [map filter fst snd CompetenceFrameworkService.unifiedCP
         CompetenceFrameworkService.prerequis] in *.
    destruct (cp_prerequis data) as [[|p l]|]; cbn [List.length map].
    all: try (replace (0 <? Z.of_nat (S (List.length l))) with true
                by (symmetry; apply Z.ltb_lt; lia)).
    all: cbn [Z.of_nat Z.ltb Z.compare map CompetenceFrameworkService.code].
    all: now rewrite IH.
Qed.
